(** * Heatmap tile generation: a shallow embedding of [heatmaps/generate.py]

    The development follows the Python source function by function.

    Conventions of the embedding.
    - Python floats are idealised as real numbers ([R]); [math.pi] is [PI].
      Integers (tile coordinates, zoom levels, dot sizes, labels) are [Z].
      Two places where the idealisation would change what the program
      returns are modelled as the floats behave: [math.tan] at pi/2, which
      is finite ([Py.math_tan]), and the product that [int] truncates in
      the rasteriser wrapper, which is rounded ([Heatmap_c.fl]).  The
      further properties that depend on exact arithmetic are stated on
      the map: tiles of the grid, latitudes from -85 to 85, zoom levels
      from 0 to 18.
    - The source is Python 2: [a / b] on two integers is floor division,
      which matters for [mapHeight / 2].
    - A call that can raise returns a [result]; code with observable
      effects (database queries, DBSCAN and rasteriser calls, uploads) runs
      in the monad [M], which records the effects in order and stops at the
      first exception.  Saving, uploading and removing one tile file is a
      single [Upload] event and is taken not to raise: the runs described
      are those in which the file system and S3 answer.  [print]
      statements are not recorded.
    - The database, sklearn's DBSCAN, the heatmap C library and PIL are
      collaborators: they are the fields of an environment [Env], and a
      fixed environment answers equal calls equally.
    - The rasteriser wrapper [heatmaps/heatmap_c/heatmap_c.py] is embedded
      in the module [Heatmap_c], against interfaces for PIL's image and for
      the C library. *)

From Stdlib Require Import Reals Lra Lia ZArith List Bool Permutation.
Import ListNotations.

Set Implicit Arguments.

(** ** Exceptions and fallible values *)

Inductive exn : Set :=
| ValueError          (* math domain error, list.remove(x) with x absent *)
| ZeroDivisionError   (* float division by zero *)
| IndexError          (* list index out of range *)
| KeyError            (* missing dictionary key *)
| ExternalError.      (* raised by a collaborator: database, sklearn, C library *)

Inductive result (A : Type) : Type :=
| Ok (a : A)
| Raise (e : exn).

Arguments Ok {A} a.
Arguments Raise {A} e.

Definition rbind {A B} (r : result A) (f : A -> result B) : result B :=
  match r with
  | Ok a => f a
  | Raise e => Raise e
  end.

Definition rmap {A B} (f : A -> B) (r : result A) : result B :=
  rbind r (fun a => Ok (f a)).

Declare Scope result_scope.
Delimit Scope result_scope with result.
Notation "x <- r ;; k" := (rbind r (fun x => k))
  (at level 61, r at next level, right associativity) : result_scope.

(** ** Python primitives used by the source *)
Module Py.

Open Scope R_scope.

(** [math.log(x)]: raises [ValueError] outside its domain. *)
Definition math_log (x : R) : result R :=
  if Rlt_dec 0 x then Ok (ln x) else Raise ValueError.

(** [math.tan(x)].  For a latitude in [-90, 90] the argument lies in
    [0, pi/2].  A float is never an odd multiple of pi/2, so the tangent
    of a float is finite: at the float nearest pi/2, which is the argument
    that lat = 90 gives, it is 1.633123935319537e16.  Below pi/2 it is the
    tangent. *)
Definition tan_half_pi : R := 16331239353195370.

Definition math_tan (x : R) : R :=
  if Req_dec_T x (PI / 2) then tan_half_pi else tan x.

(** Float division [a / b]: raises [ZeroDivisionError] when [b] is zero. *)
Definition fdiv (a b : R) : result R :=
  if Req_dec_T b 0 then Raise ZeroDivisionError else Ok (a / b).

(** [a < b] as a branch condition. *)
Definition ltb (a b : R) : bool :=
  if Rlt_dec a b then true else false.

(** [2 ** zoom]: an integer for [zoom >= 0], a float otherwise; both are
    the real number [2 ^ zoom]. *)
Definition pow2 (zoom : Z) : R := powerRZ 2 zoom.

(** [(2 ** zoom) / 2]: floor division when [2 ** zoom] is an integer. *)
Definition pow2_div2 (zoom : Z) : R :=
  if (zoom <? 0)%Z then powerRZ 2 zoom / 2 else IZR (2 ^ zoom / 2).

(** [range(start, stop, step)] for a positive step. *)
Definition range (start stop step : Z) : list Z :=
  map (fun k => (start + Z.of_nat k * step)%Z)
      (seq 0 (Z.to_nat ((stop - start + step - 1) / step))).

End Py.

(** ** Global parameters *)

Definition MIN_ZOOM : Z := 10.
Definition MAX_ZOOM : Z := 16.
Definition ZOOM_STEP : Z := 1.
Definition RADIUS : Z := 17500.
Definition TILE_RESOLUTION : Z := 256.

Record zoom_parameters : Type := {
  dotsize : Z;
  opacity : Z;
  cluster : bool;
  cluster_epsilon : R;
  cluster_neighbors : Z
}.

Definition ZOOM_PARAMETERS : list (Z * zoom_parameters) :=
  [ (10, {| dotsize := 10; opacity := 1; cluster := true;  cluster_epsilon := 0.5;  cluster_neighbors := 4 |});
    (11, {| dotsize := 10; opacity := 1; cluster := true;  cluster_epsilon := 0.5;  cluster_neighbors := 4 |});
    (12, {| dotsize := 15; opacity := 1; cluster := true;  cluster_epsilon := 0.5;  cluster_neighbors := 4 |});
    (13, {| dotsize := 15; opacity := 1; cluster := true;  cluster_epsilon := 0.65; cluster_neighbors := 4 |});
    (14, {| dotsize := 20; opacity := 1; cluster := true;  cluster_epsilon := 0.65; cluster_neighbors := 4 |});
    (15, {| dotsize := 40; opacity := 1; cluster := true;  cluster_epsilon := 0.8;  cluster_neighbors := 4 |});
    (16, {| dotsize := 60; opacity := 1; cluster := true;  cluster_epsilon := 0.8;  cluster_neighbors := 4 |});
    (17, {| dotsize := 80; opacity := 1; cluster := false; cluster_epsilon := 1.0;  cluster_neighbors := 1 |});
    (18, {| dotsize := 100; opacity := 1; cluster := false; cluster_epsilon := 1.0; cluster_neighbors := 2 |}) ]%Z.

(** [ZOOM_PARAMETERS[zoom]] *)
Fixpoint dict_get {V} (d : list (Z * V)) (k : Z) : result V :=
  match d with
  | [] => Raise KeyError
  | (k', v) :: d' => if (k =? k')%Z then Ok v else dict_get d' k
  end.

Definition RUN_BY_CATEGORY : Z := 1.
Definition RUN_BY_ZOOM : Z := 2.

(** ** Mercator projection *)

Open Scope R_scope.

(** (lat, lng) to Pseudo-Mercator point coordinates at [zoom]. *)
Definition convert_coords_to_mercator_point (lat lng : R) (zoom : Z) : result (R * R) :=
  let mapWidth := Py.pow2 zoom in
  let x := (lng + 180) * (mapWidth / 360) in
  let latRad := lat * (PI / 180) in
  (mercN <- Py.math_log (Py.math_tan (latRad / 2 + PI / 4)) ;;
   let y := Py.pow2_div2 zoom - mercN * mapWidth / (2 * PI) in
   Ok (x, y))%result.

(** [np.floor(point).astype(int)] *)
Definition np_floor (point : R * R) : Z * Z :=
  (Zfloor (fst point), Zfloor (snd point)).

(** (lat, lng) to the tile containing it (the tile's NW corner). *)
Definition convert_coords_to_tile (lat lng : R) (zoom : Z) : result (Z * Z) :=
  (point <- convert_coords_to_mercator_point lat lng zoom ;;
   let temp := np_floor point in
   Ok (fst temp, snd temp))%result.

(** Point coordinates at [zoom] back to (lat, lng). *)
Definition convert_point_to_coords (x y : R) (zoom : Z) : R * R :=
  let mapWidth := Py.pow2 zoom in
  let lng := x * 360 / mapWidth - 180 in
  let mercN := (Py.pow2_div2 zoom - y) * (2 * PI) / mapWidth in
  let latRad := (atan (exp mercN) - PI / 4) * 2 in
  let lat := latRad * 180 / PI in
  (lat, lng).

(** ** Lists as the source uses them *)

Section PyList.
Variable A : Type.
Variable A_eq_dec : forall a b : A, {a = b} + {a <> b}.

(** [l[idx]] for a non-negative index. *)
Definition list_get (l : list A) (idx : nat) : result A :=
  match nth_error l idx with
  | Some a => Ok a
  | None => Raise IndexError
  end.

(** [l.remove(x)]: deletes the first item equal to [x]. *)
Fixpoint list_remove (x : A) (l : list A) : result (list A) :=
  match l with
  | [] => Raise ValueError
  | y :: l' =>
      if A_eq_dec x y then Ok l'
      else (r <- list_remove x l' ;; Ok (y :: r))%result
  end.

(** [list(enumerate(l))] *)
Definition enumerate (B : Type) (l : list B) : list (nat * B) :=
  combine (seq 0 (length l)) l.

(** The loop of lines 191-195 (and 347-351):
    [for idx, val in reversed(list(enumerate(labels))):
       if val == -1: pts.remove((pts[idx][0], pts[idx][1]))] *)
Fixpoint remove_noise_loop (items : list (nat * Z)) (pts : list A) : result (list A) :=
  match items with
  | [] => Ok pts
  | (idx, val) :: rest =>
      if (val =? -1)%Z then
        (p <- list_get pts idx ;;
         pts' <- list_remove p pts ;;
         remove_noise_loop rest pts')%result
      else remove_noise_loop rest pts
  end.

Definition remove_noise (labels : list Z) (pts : list A) : result (list A) :=
  remove_noise_loop (rev (enumerate labels)) pts.

(** The pure filter of the design notes: keep, in order, the points whose
    label is not -1. *)
Fixpoint pure_filter (labels : list Z) (pts : list A) : list A :=
  match pts, labels with
  | p :: pts', val :: labels' =>
      if (val =? -1)%Z then pure_filter labels' pts'
      else p :: pure_filter labels' pts'
  | _, _ => []
  end.

End PyList.

Definition point_eq_dec (p q : R * R) : {p = q} + {p <> q}.
Proof. decide equality; apply Req_dec_T. Defined.

(** ** Tiles *)

Definition tile : Set := (Z * Z)%type.

Definition tile_eqb (a b : tile) : bool :=
  ((fst a =? fst b) && (snd a =? snd b))%Z.

(** [t in tiles] *)
Definition tile_in (t : tile) (tiles : list tile) : bool :=
  existsb (tile_eqb t) tiles.

(** [if t not in tiles: tiles.append(t)] *)
Definition append_if_new (t : tile) (tiles : list tile) : list tile :=
  if tile_in t tiles then tiles else tiles ++ [t].

(** Tuple comparison [a <= b]. *)
Definition tile_leb (a b : tile) : bool :=
  ((fst a <? fst b) || ((fst a =? fst b) && (snd a <=? snd b)))%Z.

Fixpoint insert_sorted (t : tile) (l : list tile) : list tile :=
  match l with
  | [] => [t]
  | h :: l' => if tile_leb t h then t :: l else h :: insert_sorted t l'
  end.

(** [sorted(tiles)] *)
Definition sorted (l : list tile) : list tile :=
  fold_right insert_sorted [] l.

(** [min(l)] and [max(l)] of a list of integers. *)
Definition py_min (l : list Z) : result Z :=
  match l with
  | [] => Raise ValueError
  | h :: t => Ok (fold_left Z.min t h)
  end.

Definition py_max (l : list Z) : result Z :=
  match l with
  | [] => Raise ValueError
  | h :: t => Ok (fold_left Z.max t h)
  end.

(** Lines 265-266: the NW and SE tiles of the bounding box. *)
Definition bounding_box (tiles : list tile) : result (tile * tile) :=
  (min_x <- py_min (map fst tiles) ;;
   min_y <- py_min (map snd tiles) ;;
   max_x <- py_max (map fst tiles) ;;
   max_y <- py_max (map snd tiles) ;;
   Ok ((min_x, min_y), (max_x, max_y)))%result.

(** Lines 219-259: the neighbours added for a venue at pixel
    [(pixel_x, pixel_y)] of tile [(x, y)]. *)
Definition add_neighbors (x y : Z) (pixel_x pixel_y : R) (dotsize : Z)
    (tiles : list tile) : list tile :=
  let d := IZR dotsize in
  let res := IZR TILE_RESOLUTION in
  let tiles :=
    (* Clipping on the left! *)
    if Py.ltb pixel_x d then
      let tiles := append_if_new (x - 1, y)%Z tiles in
      (* Clipping on the top left! *)
      let tiles := if Py.ltb pixel_y d
                   then append_if_new (x - 1, y - 1)%Z tiles else tiles in
      (* Clipping on the bottom left! *)
      if Py.ltb (res - pixel_y) d
      then append_if_new (x - 1, y + 1)%Z tiles else tiles
    else tiles in
  (* Clipping on the top! *)
  let tiles := if Py.ltb pixel_y d
               then append_if_new (x, y - 1)%Z tiles else tiles in
  let tiles :=
    (* Clipping on the right! *)
    if Py.ltb (res - pixel_x) d then
      let tiles := append_if_new (x + 1, y)%Z tiles in
      (* Clipping on the top right! *)
      let tiles := if Py.ltb pixel_y d
                   then append_if_new (x + 1, y - 1)%Z tiles else tiles in
      (* Clipping on the bottom right! *)
      if Py.ltb (res - pixel_y) d
      then append_if_new (x + 1, y + 1)%Z tiles else tiles
    else tiles in
  (* Clipping on the bottom! *)
  if Py.ltb (res - pixel_y) d
  then append_if_new (x, y + 1)%Z tiles else tiles.

(** Lines 216-217, 283-284, 356-357: a venue stored as (lng, lat), scaled
    into [0, width - 1] x [0, height - 1] of the box with SW corner
    [min_coords] and NE corner [max_coords] (both as (lat, lng)).
    Returns [(pixel_x, pixel_y)]; [pixel_y] is computed first. *)
Definition normalize (min_coords max_coords : R * R) (width height : Z)
    (venue : R * R) : result (R * R) :=
  (ry <- Py.fdiv (fst max_coords - snd venue) (fst max_coords - fst min_coords) ;;
   let pixel_y := ry * IZR (height - 1) in
   rx <- Py.fdiv (fst venue - snd min_coords) (snd max_coords - snd min_coords) ;;
   let pixel_x := rx * IZR (width - 1) in
   Ok (pixel_x, pixel_y))%result.

(** Lines 203-259: the body of the loop over the venues of a city. *)
Definition locate_venue (zoom dotsize : Z) (tiles : list tile) (venue : R * R)
    : result (list tile) :=
  (t <- convert_coords_to_tile (snd venue) (fst venue) zoom ;;
   let tiles := append_if_new t tiles in
   let x := fst t in
   let y := snd t in
   let min_coords := convert_point_to_coords (IZR x) (IZR (y + 1)) zoom in
   let max_coords := convert_point_to_coords (IZR (x + 1)) (IZR y) zoom in
   pixel <- normalize min_coords max_coords TILE_RESOLUTION TILE_RESOLUTION venue ;;
   Ok (add_neighbors x y (fst pixel) (snd pixel) dotsize tiles))%result.

Fixpoint locate_tiles (zoom dotsize : Z) (tiles : list tile) (pts : list (R * R))
    : result (list tile) :=
  match pts with
  | [] => Ok tiles
  | venue :: pts' =>
      (tiles' <- locate_venue zoom dotsize tiles venue ;;
       locate_tiles zoom dotsize tiles' pts')%result
  end.

(** [for pt in pts: ... normalized_pts.append((lng, lat))] *)
Fixpoint normalize_all (min_coords max_coords : R * R) (width height : Z)
    (pts : list (R * R)) : result (list (R * R)) :=
  match pts with
  | [] => Ok []
  | pt :: pts' =>
      (p <- normalize min_coords max_coords width height pt ;;
       ps <- normalize_all min_coords max_coords width height pts' ;;
       Ok (p :: ps))%result
  end.

(** ** Effects: the collaborators and the record of what was done *)

Section Pipeline.

(** The RGBA image type of the rasteriser (PIL's [Image]). *)
Variable Img : Type.

(** The external collaborators: the Postgres connection, sklearn's
    [DBSCAN], the heatmap C library and PIL's [crop].  A fixed [Env] is a
    deterministic source: equal calls give equal answers. *)
Record Env : Type := {
  (* SELECT lat, lng ... ST_DWithin(geog_point, POINT(lng lat), radius):
     rows (lat, lng) *)
  select_within : Z -> R -> R -> Z -> result (list (R * R));
  (* SELECT lat, lng ... ST_MakeEnvelope(xmin, ymin, xmax, ymax) LIMIT 30000 *)
  select_envelope : Z -> R -> R -> R -> R -> result (list (R * R));
  (* DBSCAN(eps, min_samples, algorithm='ball_tree', metric='haversine')
       .fit(data).labels_ *)
  dbscan_labels : R -> Z -> list (R * R) -> result (list Z);
  (* Heatmap().heatmap(points, opacity, dotsize, size, 'th_classic') *)
  heatmap : list (R * R) -> Z -> Z -> Z * Z -> result Img;
  (* img.crop((left, upper, right, lower)) *)
  crop : Img -> Z * Z * Z * Z -> Img
}.

Inductive event : Type :=
| Query_within (category : Z) (lng lat : R) (radius : Z)
| Query_envelope (category : Z) (xmin ymin xmax ymax : R)
| Fit (eps : R) (min_samples : Z) (data : list (R * R))
| Render (points : list (R * R)) (opacity dotsize : Z) (size : Z * Z)
  (* file "{category}_{zoom}_{x}_{y}.png" saved, uploaded to S3, removed *)
| Upload (category zoom x y : Z) (image : Img).

(** Effectful code: the events performed so far and the outcome. *)
Definition M (A : Type) : Type := (list event * result A)%type.

Definition ret {A} (a : A) : M A := ([], Ok a).

Definition bind {A B} (m : M A) (f : A -> M B) : M B :=
  match m with
  | (l, Ok a) => let (l', r) := f a in (l ++ l', r)
  | (l, Raise e) => (l, Raise e)
  end.

Definition emit (ev : event) : M unit := ([ev], Ok tt).

Definition lift {A} (r : result A) : M A := ([], r).

(** A collaborator call: recorded, then answered or raised. *)
Definition call {A} (ev : event) (r : result A) : M A := ([ev], r).

(** [for x in l: body] *)
Fixpoint for_each {X} (l : list X) (body : X -> M unit) : M unit :=
  match l with
  | [] => ret tt
  | x :: l' => bind (body x) (fun _ => for_each l' body)
  end.

(** [try: m except: handler] with a bare [except]. *)
Definition try_except {A} (m : M A) (handler : M A) : M A :=
  match m with
  | (l, Raise _) => let (l', r) := handler in (l ++ l', r)
  | (l, Ok a) => (l, Ok a)
  end.

Notation "x <- m ;;; k" := (bind m (fun x => k))
  (at level 61, m at next level, right associativity).

Variable env : Env.

Definition kms_per_radian : R := 6371.0088.

(** [np.radians(np.matrix(pts))] *)
Definition np_radians (pts : list (R * R)) : list (R * R) :=
  map (fun p => (fst p * (PI / 180), snd p * (PI / 180))) pts.

(** Lines 187-195 and 343-351: the density-filtering step. *)
Definition cluster_step (params : zoom_parameters) (pts : list (R * R))
    : M (list (R * R)) :=
  if cluster params then
    let epsilon := cluster_epsilon params / kms_per_radian in
    let data := np_radians pts in
    labels <- call (Fit epsilon (cluster_neighbors params) data)
                   (dbscan_labels env epsilon (cluster_neighbors params) data) ;;;
    lift (remove_noise point_eq_dec labels pts)
  else ret pts.

(** Lines 294-310: cutting the citywide heatmap into tiles. *)
Definition slice_canvas (category zoom : Z) (img : Img) (nw_tile : tile)
    (num_x_tiles num_y_tiles : Z) (tiles : list tile) : M unit :=
  for_each (Py.range 0 num_x_tiles 1) (fun i =>
    for_each (Py.range 0 num_y_tiles 1) (fun j =>
      let x := (fst nw_tile + i)%Z in
      let y := (snd nw_tile + j)%Z in
      if tile_in (x, y) tiles then
        emit (Upload category zoom x y
                (crop env img ((TILE_RESOLUTION * i, TILE_RESOLUTION * j,
                                TILE_RESOLUTION * (i + 1)),
                               TILE_RESOLUTION * (j + 1))%Z))
      else ret tt)).

(** Lines 201-310: from the clustered venues to the uploaded tiles. *)
Definition render_city (category zoom : Z) (params : zoom_parameters)
    (pts : list (R * R)) : M unit :=
  tiles <- lift (locate_tiles zoom (dotsize params) [] pts) ;;;
  let tiles := sorted tiles in
  box <- lift (bounding_box tiles) ;;;
  let nw_tile := fst box in
  let se_tile := snd box in
  let min_coords :=
    convert_point_to_coords (IZR (fst nw_tile)) (IZR (snd se_tile + 1)) zoom in
  let max_coords :=
    convert_point_to_coords (IZR (fst se_tile + 1)) (IZR (snd nw_tile)) zoom in
  let num_x_tiles := (fst se_tile - fst nw_tile + 1)%Z in
  let num_y_tiles := (snd se_tile - snd nw_tile + 1)%Z in
  let resolution_x := (TILE_RESOLUTION * num_x_tiles)%Z in
  let resolution_y := (TILE_RESOLUTION * num_y_tiles)%Z in
  normalized_pts <-
    lift (normalize_all min_coords max_coords resolution_x resolution_y pts) ;;;
  img <- call (Render normalized_pts (opacity params) (dotsize params)
                 (resolution_x, resolution_y))
              (heatmap env normalized_pts (opacity params) (dotsize params)
                 (resolution_x, resolution_y)) ;;;
  slice_canvas category zoom img nw_tile num_x_tiles num_y_tiles tiles.

(** Heatmap of one category at one zoom level for a whole city, cut into
    tiles. *)
Definition generate_heatmap_by_city (category zoom : Z) (lat lng : R)
    (radius : Z) : M unit :=
  rows <- call (Query_within category lng lat radius)
               (select_within env category lng lat radius) ;;;
  (* Stored as (lng, lat) *)
  let pts := map (fun row => (snd row, fst row)) rows in
  let total_venues := length pts in
  if (0 <? total_venues)%nat then
    params <- lift (dict_get ZOOM_PARAMETERS zoom) ;;;
    pts <- cluster_step params pts ;;;
    if (0 <? length pts)%nat then render_city category zoom params pts
    else ret tt (* Skipping due to lack of clusters *)
  else ret tt.

(** One heatmap tile for the tile with NW corner [(x, y)]. *)
Definition generate_tile (category zoom x y : Z) : M unit :=
  let min_coords := convert_point_to_coords (IZR x) (IZR (y + 1)) zoom in
  let max_coords := convert_point_to_coords (IZR (x + 1)) (IZR y) zoom in
  rows <- call (Query_envelope category (snd min_coords) (fst min_coords)
                  (snd max_coords) (fst max_coords))
               (select_envelope env category (snd min_coords) (fst min_coords)
                  (snd max_coords) (fst max_coords)) ;;;
  (* Stored as (lng, lat) *)
  let pts := map (fun row => (snd row, fst row)) rows in
  if (0 <? length pts)%nat then
    params <- lift (dict_get ZOOM_PARAMETERS zoom) ;;;
    pts <- cluster_step params pts ;;;
    tile_pts <- lift (normalize_all min_coords max_coords
                        TILE_RESOLUTION TILE_RESOLUTION pts) ;;;
    if (0 <? length tile_pts)%nat then
      img <- call (Render tile_pts (opacity params) (dotsize params)
                     (TILE_RESOLUTION, TILE_RESOLUTION))
                  (heatmap env tile_pts (opacity params) (dotsize params)
                     (TILE_RESOLUTION, TILE_RESOLUTION)) ;;;
      emit (Upload category zoom x y img)
    else ret tt (* Skipping due to lack of clusters *)
  else ret tt.

(** Lines 152-157: the tiles that have venues in them; venues are stored
    as (lat, lng) here. *)
Fixpoint venue_tiles (zoom : Z) (tiles : list tile) (pts : list (R * R))
    : result (list tile) :=
  match pts with
  | [] => Ok tiles
  | venue :: pts' =>
      (t <- convert_coords_to_tile (fst venue) (snd venue) zoom ;;
       venue_tiles zoom (append_if_new t tiles) pts')%result
  end.

(** Heatmap of one category at one zoom level, tile by tile. *)
Definition generate_heatmap_by_tile (category zoom : Z) (lat lng : R) : M unit :=
  pts <- call (Query_within category lng lat RADIUS)
              (select_within env category lng lat RADIUS) ;;;
  tiles <- lift (venue_tiles zoom [] pts) ;;;
  let tiles := sorted tiles in
  for_each tiles (fun t => generate_tile category zoom (fst t) (snd t)).

(** All categories and zoom levels, each tile run by itself. *)
Definition generate_all_heatmaps_by_tile (lat lng : R) (run_method : Z) : M unit :=
  if (run_method =? RUN_BY_CATEGORY)%Z then
    for_each (Py.range 1 5 1) (fun cat =>
      for_each (Py.range MIN_ZOOM (MAX_ZOOM + 1) ZOOM_STEP) (fun z =>
        generate_heatmap_by_tile cat z lat lng))
  else if (run_method =? RUN_BY_ZOOM)%Z then
    for_each (Py.range MIN_ZOOM (MAX_ZOOM + 1) ZOOM_STEP) (fun z =>
      for_each (Py.range 1 5 1) (fun cat =>
        generate_heatmap_by_tile cat z lat lng))
  else lift (Raise ValueError).

(** Lines 117-122 and 126-131: one unit with its fallback. *)
Definition city_unit (cat z : Z) (lat lng : R) : M unit :=
  let new_radius := RADIUS in
  (* If it crashes due to memory/overflow issues, then run with a smaller radius *)
  try_except (generate_heatmap_by_city cat z lat lng new_radius)
             (generate_heatmap_by_city cat z lat lng (new_radius - 2500)%Z).

(** All categories and zoom levels, each city run as one big heatmap. *)
Definition generate_all_heatmaps_by_city (lat lng : R) (run_method : Z) : M unit :=
  if (run_method =? RUN_BY_CATEGORY)%Z then
    for_each (Py.range 1 5 1) (fun cat =>
      for_each (Py.range MIN_ZOOM (MAX_ZOOM + 1) ZOOM_STEP) (fun z =>
        city_unit cat z lat lng))
  else if (run_method =? RUN_BY_ZOOM)%Z then
    for_each (Py.range MIN_ZOOM (MAX_ZOOM + 1) ZOOM_STEP) (fun z =>
      for_each (Py.range 1 5 1) (fun cat =>
        city_unit cat z lat lng))
  else lift (Raise ValueError).

End Pipeline.

Arguments lift {Img A} r.
Arguments ret {Img A} a.
Arguments Query_within {Img} category lng lat radius.
Arguments Query_envelope {Img} category xmin ymin xmax ymax.
Arguments Fit {Img} eps min_samples data.
Arguments Render {Img} points opacity dotsize size.

(** ** Notions used to state the properties *)



(** Number of noise labels. *)
Definition count_noise (labels : list Z) : nat :=
  length (filter (fun v => (v =? -1)%Z) labels).

(** Equal points carry equal labels. *)
Definition labels_respect_equality (A : Type) (pts : list A) (labels : list Z) : Prop :=
  forall p v v', In (p, v) (combine pts labels) -> In (p, v') (combine pts labels) -> v = v'.

(** The outcome of the density-filtering step alone. *)
Definition density_filter (Img : Type) (env : Env Img) (params : zoom_parameters)
    (pts : list (R * R)) : result (list (R * R)) :=
  snd (cluster_step env params pts).

(** *** sklearn's DBSCAN, as documented

    A sample is a core sample when at least [min_samples] samples (itself
    included) lie within [eps] of it; a sample is noise (label -1) when no
    core sample has it within [eps].  Cluster numbers play no role in the
    source, which only tests labels against -1. *)

(** sklearn's haversine metric on pairs in radians; the first component is
    read as the latitude. *)
Definition haversine (x y : R * R) : R :=
  2 * asin (sqrt ((sin ((fst x - fst y) / 2))² +
                  cos (fst x) * cos (fst y) * (sin ((snd x - snd y) / 2))²)).

Section Dbscan.
Variable P : Type.
(** [near q p]: [p] lies in the eps-neighbourhood of [q]. *)
Variable near : P -> P -> bool.
Variable min_samples : Z.

Definition is_core (data : list P) (q : P) : bool :=
  (min_samples <=? Z.of_nat (length (filter (near q) data)))%Z.

Definition is_noise (data : list P) (p : P) : bool :=
  negb (existsb (fun q => is_core data q && near q p) data).

(** The samples that are not noise, in order. *)
Definition clustered (data : list P) : list P :=
  filter (fun p => negb (is_noise data p)) data.
End Dbscan.

Definition within (eps : R) (q p : R * R) : bool :=
  if Rle_dec (haversine q p) eps then true else false.

Definition noise_mask (eps : R) (min_samples : Z) (data : list (R * R)) : list bool :=
  map (is_noise (within eps) min_samples data) data.

(** A labelling routine that behaves as documented: one label per sample,
    -1 exactly on the noise samples. *)
Definition dbscan_conformant (fit : R -> Z -> list (R * R) -> result (list Z)) : Prop :=
  forall eps m data,
    exists labels, fit eps m data = Ok labels /\
                   map (fun v => (v =? -1)%Z) labels = noise_mask eps m data.

(** A conformant labelling: every clustered sample gets label 0. *)
Definition dbscan_reference (eps : R) (min_samples : Z) (data : list (R * R))
    : result (list Z) :=
  Ok (map (fun b : bool => if b then (-1)%Z else 0%Z) (noise_mask eps min_samples data)).


(** The crop rectangle of grid cell [(i, j)]. *)
Definition crop_box (i j : Z) : Z * Z * Z * Z :=
  (TILE_RESOLUTION * i, TILE_RESOLUTION * j,
   TILE_RESOLUTION * (i + 1), TILE_RESOLUTION * (j + 1))%Z.

(** The cells of the bounding grid in the order of the two loops. *)
Definition grid (num_x_tiles num_y_tiles : Z) : list (Z * Z) :=
  list_prod (Py.range 0 num_x_tiles 1) (Py.range 0 num_y_tiles 1).

(** The tile of grid cell [(i, j)]. *)
Definition cell_tile (nw_tile : tile) (ij : Z * Z) : tile :=
  (fst nw_tile + fst ij, snd nw_tile + snd ij)%Z.

(** The value [normalize] computes when neither division raises. *)
Definition scaled (min_coords max_coords : R * R) (width height : Z)
    (venue : R * R) : R * R :=
  ((fst venue - snd min_coords) / (snd max_coords - snd min_coords) * IZR (width - 1),
   (fst max_coords - snd venue) / (fst max_coords - fst min_coords) * IZR (height - 1)).

(** The units of a run as (category, zoom) pairs, in execution order. *)
Definition categories : list Z := Py.range 1 5 1.
Definition zoom_levels : list Z := Py.range MIN_ZOOM (MAX_ZOOM + 1) ZOOM_STEP.

Definition units_in_order (run_method : Z) : list (Z * Z) :=
  if (run_method =? RUN_BY_CATEGORY)%Z then list_prod categories zoom_levels
  else map (fun zc => (snd zc, fst zc)) (list_prod zoom_levels categories).

(** *** Collaborators used in the examples *)

(** Images as terms: what was rendered, and what was cut out of it. *)
Inductive picture : Set :=
| Canvas (size : Z * Z)
| Piece (source : picture) (box : Z * Z * Z * Z).

(** Four venues at the same address, as rows (lat, lng). *)
Definition venues_at_center : list (R * R) :=
  [(40.74, -74); (40.74, -74); (40.74, -74); (40.74, -74)].

(** A database that answers every query with [venues_at_center], except
    for the categories in [broken], whose queries raise; a conformant
    DBSCAN; a rasteriser that always succeeds. *)
Definition example_env (broken : Z -> bool) : Env picture :=
  {| select_within := fun category _ _ _ =>
       if broken category then Raise ExternalError else Ok venues_at_center;
     select_envelope := fun category _ _ _ _ =>
       if broken category then Raise ExternalError else Ok venues_at_center;
     dbscan_labels := dbscan_reference;
     heatmap := fun _ _ _ size => Ok (Canvas size);
     crop := Piece |}.

(** Two venues at one address 17 km west of four venues at another, as
    the city-mode code stores them: (lng, lat). *)
Definition venue_west : R * R := (-74.2, 40.74).
Definition venue_center : R * R := (-74, 40.74).

Definition repeated_venues : list (R * R) :=
  [venue_west; venue_center; venue_center; venue_center; venue_center; venue_west].

(** Their labels under eps = 0.5 km and min_samples = 4: the four central
    venues form cluster 0, the two western ones are noise. *)
Definition repeated_labels : list Z := [-1; 0; 0; 0; 0; -1]%Z.

(** The zoom-10 profile. *)
Definition zoom_10 : zoom_parameters :=
  {| dotsize := 10; opacity := 1; cluster := true;
     cluster_epsilon := 0.5; cluster_neighbors := 4 |}.

(** The zoom-12 profile. *)
Definition zoom_12 : zoom_parameters :=
  {| dotsize := 15; opacity := 1; cluster := true;
     cluster_epsilon := 0.5; cluster_neighbors := 4 |}.

(** ** Notions used to state the further properties *)

(** [sub] is [l] with some items deleted: the items that remain keep their
    order. *)
Inductive subseq (A : Type) : list A -> list A -> Prop :=
| subseq_nil : subseq [] []
| subseq_skip (x : A) (sub l : list A) : subseq sub l -> subseq sub (x :: l)
| subseq_keep (x : A) (sub l : list A) : subseq sub l -> subseq (x :: sub) (x :: l).

(** The keys (category, zoom, x, y) of the tiles uploaded in a record of
    events, in order. *)
Definition upload_keys (Img : Type) (log : list (event Img)) : list (Z * Z * Z * Z) :=
  flat_map (fun ev => match ev with
                      | Upload c z x y _ => [(c, z, x, y)]
                      | _ => []
                      end) log.

(** The unit (category, zoom) a key belongs to. *)
Definition unit_of_key (k : Z * Z * Z * Z) : Z * Z :=
  (fst (fst (fst k)), snd (fst (fst k))).

(** A labelling that marks nothing as noise, with one venue on the equator. *)
Definition equator_env : Env picture :=
  {| select_within := fun _ _ _ _ => Ok [(0, -74)];
     select_envelope := fun _ _ _ _ _ => Ok [(0, -74)];
     dbscan_labels := fun _ _ data => Ok (map (fun _ => 0%Z) data);
     heatmap := fun _ _ _ size => Ok (Canvas size);
     crop := Piece |}.

(** A database with one venue, at the south pole; the other collaborators
    as in [equator_env]. *)
Definition south_pole_env : Env picture :=
  {| select_within := fun _ _ _ _ => Ok [(-90, 0)];
     select_envelope := fun _ _ _ _ _ => Ok [(-90, 0)];
     dbscan_labels := fun _ _ data => Ok (map (fun _ => 0%Z) data);
     heatmap := fun _ _ _ size => Ok (Canvas size);
     crop := Piece |}.

(** * The rasteriser wrapper: a shallow embedding of
      [heatmaps/heatmap_c/heatmap_c.py]

    PIL's image and the heatmap C library are collaborators: the wrapper is
    written against the two interfaces [PIL] and [Libhm].  An image is
    mutated in place by the source; here it is passed along. *)

Module Heatmap_c.

(** [int(v)] of a float: truncation towards zero. *)
Definition py_int (v : R) : Z :=
  if Rle_dec 0 v then Zfloor v else Zceil v.

(** [c_ulong(v)]: the value modulo 2^64 (LP64; the library is a Linux
    shared object). *)
Definition c_ulong (v : Z) : Z := (v mod 2 ^ 64)%Z.

(** A pixel of an RGBA image: [(rgba[0], rgba[1], rgba[2], rgba[3])]. *)
Definition rgba : Set := (Z * Z * Z * Z)%type.

(** What the wrapper uses of a PIL image. *)
Class PIL (I : Type) : Type := {
  width : I -> Z;
  height : I -> Z;
  (* img.getpixel((x, y)) *)
  getpixel : I -> Z * Z -> result rgba;
  (* img.putpixel((x, y), value) *)
  putpixel : I -> Z * Z -> rgba -> result I
}.

(** What the wrapper uses of libHeatmap.so and of [Image.frombuffer]. *)
Class Libhm (I : Type) : Type := {
  heatmap_t : Type;
  heatmap_stamp_t : Type;
  heatmap_colorscheme_t : Type;
  rawimg_t : Type;
  heatmap_new : Z -> Z -> heatmap_t;
  heatmap_stamp_gen : Z -> heatmap_stamp_t;
  heatmap_add_point_with_stamp : heatmap_t -> Z -> Z -> heatmap_stamp_t -> heatmap_t;
  heatmap_render_default_to : heatmap_t -> rawimg_t;
  heatmap_render_to : heatmap_t -> heatmap_colorscheme_t -> rawimg_t;
  (* Image.frombuffer('RGBA', (width, height), rawimg, 'raw', 'RGBA', 0, 1) *)
  frombuffer : Z * Z -> rawimg_t -> I
}.

(** [int] truncates, so the rounding of a float product can show in the
    result: [int(100 * 0.7)] is 70, although the double 0.7 lies below
    7/10 and the exact product below 70.  The product an alpha is scaled
    by is therefore rounded explicitly: [fl v] is the double nearest to
    [v]. *)
Class Rounding : Type := {
  fl : R -> R
}.

(** [for x in l: body], the body passing the image along. *)
Fixpoint loop (S X : Type) (l : list X) (body : S -> X -> result S) (s : S)
    : result S :=
  match l with
  | [] => Ok s
  | x :: l' => (s' <- body s x ;; loop l' body s')%result
  end.

Section Wrapper.
Context {I : Type} {pil : PIL I} {lib : Libhm I} {rnd : Rounding}.

(** Lines 63-66: the body of the two loops of [set_opacity]. *)
Definition fade (img : I) (opacity : R) (xy : Z * Z) : result I :=
  (px <- getpixel img xy ;;
   let '(r, g, b, a) := px in
   if (0 <? a)%Z then
     let new_rgba := (r, g, b, py_int (fl (IZR a * opacity))) in
     putpixel img xy new_rgba
   else Ok img)%result.

(** Multiplies the alpha of every pixel by [opacity]. *)
Definition set_opacity (img : I) (opacity : R) : result I :=
  loop (Py.range 0 (width img) 1) (fun img x =>
    loop (Py.range 0 (height img) 1) (fun img y => fade img opacity (x, y)) img) img.

(** Lines 88-90: the points handed to the C library. *)
Definition add_points (hm : heatmap_t) (stamp : heatmap_stamp_t)
    (points : list (R * R)) : heatmap_t :=
  fold_left (fun hm pt =>
               let pt := (py_int (fst pt), py_int (snd pt)) in
               heatmap_add_point_with_stamp hm (c_ulong (fst pt)) (c_ulong (snd pt)) stamp)
            points hm.

(** Generates a heatmap with the requested points. *)
Definition heatmap (points : list (R * R)) (dotsize : Z) (opacity : R)
    (size : Z * Z) (color_scheme : option heatmap_colorscheme_t) : result I :=
  let width := fst size in
  let height := snd size in
  let hm := heatmap_new width height in
  let stamp := heatmap_stamp_gen (c_ulong dotsize) in
  let hm := add_points hm stamp points in
  let rawimg :=
    match color_scheme with
    | None => heatmap_render_default_to hm
    | Some scheme => heatmap_render_to hm scheme
    end in
  let img := frombuffer (width, height) rawimg in
  if Req_dec_T opacity 1 then Ok img else set_opacity img opacity.

End Wrapper.

(** *** Notions used to state the properties *)

(** The pixel [(x, y)] exists. *)
Definition inside (I : Type) {pil : PIL I} (img : I) (xy : Z * Z) : Prop :=
  (0 <= fst xy < width img)%Z /\ (0 <= snd xy < height img)%Z.

(** Every band is a byte. *)
Definition bytes (px : rgba) : Prop :=
  let '(r, g, b, a) := px in
  (0 <= r <= 255)%Z /\ (0 <= g <= 255)%Z /\ (0 <= b <= 255)%Z /\ (0 <= a <= 255)%Z.

(** PIL's contract for the pixels that exist: reading one gives bytes;
    writing bytes to one succeeds, keeps the size, is read back, and leaves
    the other pixels alone.  [frombuffer] makes an image of the size
    asked for. *)
Class Contract (I : Type) {pil : PIL I} {lib : Libhm I} : Prop := {
  getpixel_inside : forall img xy,
    inside img xy -> exists px, getpixel img xy = Ok px /\ bytes px;
  putpixel_inside : forall img xy px,
    inside img xy -> bytes px ->
    exists img', putpixel img xy px = Ok img' /\
      width img' = width img /\ height img' = height img /\
      getpixel img' xy = Ok px /\
      forall xy', xy' <> xy -> getpixel img' xy' = getpixel img xy';
  frombuffer_size : forall size buf,
    width (frombuffer size buf) = fst size /\ height (frombuffer size buf) = snd size
}.

Arguments Contract I {pil lib}.

(** What is used of rounding to nearest: a larger number never rounds to a
    smaller one, and the integers up to 2^53 are doubles. *)
Class RoundToNearest {rnd : Rounding} : Prop := {
  fl_monotone : forall x y : R, x <= y -> fl x <= fl y;
  fl_integer : forall n : Z, (Z.abs n <= 2 ^ 53)%Z -> fl (IZR n) = IZR n
}.

(** The pixel [set_opacity] writes in place of [px]. *)
Definition faded {rnd : Rounding} (opacity : R) (px : rgba) : rgba :=
  let '(r, g, b, a) := px in
  if (0 <? a)%Z then (r, g, b, py_int (fl (IZR a * opacity))) else px.

(** The integer coordinates the C library receives for [points]. *)
Definition stamps (points : list (R * R)) : list (Z * Z) :=
  map (fun pt => (c_ulong (py_int (fst pt)), c_ulong (py_int (snd pt)))) points.

(** *** An image and a library for the examples *)

(** An image as a size and a function from coordinates to pixels; bands are
    clipped to bytes when read. *)
Record bitmap : Type := {
  bm_width : Z;
  bm_height : Z;
  bm_pixel : Z * Z -> rgba
}.

Definition clip (v : Z) : Z := Z.max 0 (Z.min 255 v).

Definition clip_rgba (px : rgba) : rgba :=
  let '(r, g, b, a) := px in (clip r, clip g, clip b, clip a).

Definition bm_inside (img : bitmap) (xy : Z * Z) : bool :=
  ((0 <=? fst xy) && (fst xy <? bm_width img) &&
   (0 <=? snd xy) && (snd xy <? bm_height img))%Z.

Definition xy_eqb (a b : Z * Z) : bool :=
  ((fst a =? fst b) && (snd a =? snd b))%Z.

#[export] Instance bitmap_PIL : PIL bitmap := {|
  width := bm_width;
  height := bm_height;
  getpixel := fun img xy =>
    if bm_inside img xy then Ok (clip_rgba (bm_pixel img xy)) else Raise IndexError;
  putpixel := fun img xy px =>
    if bm_inside img xy
    then Ok {| bm_width := bm_width img; bm_height := bm_height img;
               bm_pixel := fun xy' => if xy_eqb xy' xy then px else bm_pixel img xy' |}
    else Raise IndexError
|}.

(** A library that remembers the size and the stamped coordinates, and
    renders every pixel as opaque red. *)
#[export] Instance bitmap_Libhm : Libhm bitmap := {|
  heatmap_t := Z * Z * list (Z * Z);
  heatmap_stamp_t := Z;
  heatmap_colorscheme_t := unit;
  rawimg_t := Z * Z * list (Z * Z);
  heatmap_new := fun w h => (w, h, []);
  heatmap_stamp_gen := fun d => d;
  heatmap_add_point_with_stamp := fun hm x y _ => (fst hm, snd hm ++ [(x, y)]);
  heatmap_render_default_to := fun hm => hm;
  heatmap_render_to := fun hm _ => hm;
  frombuffer := fun size _ =>
    {| bm_width := fst size; bm_height := snd size;
       bm_pixel := fun _ => (255, 0, 0, 255)%Z |}
|}.

(** The arithmetic of the examples: products are not rounded. *)
Definition exact_Rounding : Rounding := {| fl := fun v => v |}.

(** A 2 x 2 image, opaque red. *)
Definition red_square : bitmap :=
  {| bm_width := 2; bm_height := 2; bm_pixel := fun _ => (255, 0, 0, 255)%Z |}.

End Heatmap_c.

(** * Properties *)

(** ** Facts about the Python primitives *)

Module PyFacts.
Import Py.

Lemma ltb_true a b : a < b -> ltb a b = true.
Proof. intros H; unfold ltb; destruct (Rlt_dec a b); [reflexivity | contradiction]. Qed.

Lemma ltb_false a b : ~ a < b -> ltb a b = false.
Proof. intros H; unfold ltb; destruct (Rlt_dec a b); [contradiction | reflexivity]. Qed.

Lemma ltb_spec a b : ltb a b = true <-> a < b.
Proof.
  unfold ltb; destruct (Rlt_dec a b); split; intros; try reflexivity;
    try assumption; try discriminate; contradiction.
Qed.

Lemma math_log_pos x : 0 < x -> math_log x = Ok (ln x).
Proof. intros H; unfold math_log; destruct (Rlt_dec 0 x); [reflexivity | contradiction]. Qed.

Lemma math_log_nonpos x : x <= 0 -> math_log x = Raise ValueError.
Proof. intros H; unfold math_log; destruct (Rlt_dec 0 x); [lra | reflexivity]. Qed.

Lemma math_tan_eq x : x <> PI / 2 -> math_tan x = tan x.
Proof. intros H. unfold math_tan. destruct (Req_dec_T x (PI / 2)); [contradiction | reflexivity]. Qed.


Lemma fdiv_ok a b : b <> 0 -> fdiv a b = Ok (a / b).
Proof. intros H; unfold fdiv; destruct (Req_dec_T b 0); [contradiction | reflexivity]. Qed.

Lemma pow2_neq_0 zoom : pow2 zoom <> 0.
Proof. unfold pow2; apply powerRZ_NOR; lra. Qed.

Lemma fdiv_zero a : fdiv a 0 = Raise ZeroDivisionError.
Proof. unfold fdiv; destruct (Req_dec_T 0 0); [reflexivity | contradiction]. Qed.

Lemma range_step1 start stop :
  range start stop 1 = map (fun k => (start + Z.of_nat k)%Z)
                           (seq 0 (Z.to_nat (stop - start))).
Proof.
  unfold range. replace (stop - start + 1 - 1)%Z with (stop - start)%Z by lia.
  rewrite Z.div_1_r. apply map_ext; intros; f_equal; lia.
Qed.

Lemma in_range_step1 start stop k :
  In k (range start stop 1) <-> (start <= k < stop)%Z.
Proof.
  rewrite range_step1, in_map_iff. split.
  - intros [n [<- Hn]]. apply in_seq in Hn. lia.
  - intros H. exists (Z.to_nat (k - start)). split; [lia | apply in_seq; lia].
Qed.

Lemma range_NoDup start stop : NoDup (range start stop 1).
Proof.
  rewrite range_step1. apply Finite.Injective_map_NoDup.
  - intros a b H; lia.
  - apply seq_NoDup.
Qed.

End PyFacts.

(** ** Mercator projection *)

Lemma half_angle_range lat :
  -90 < lat < 90 -> 0 < lat * (PI / 180) / 2 + PI / 4 < PI / 2.
Proof.
  intros [Hlo Hhi]. pose proof PI_RGT_0 as Hpi.
  split; nra.
Qed.

Lemma math_tan_between lat :
  -90 < lat < 90 ->
  Py.math_tan (lat * (PI / 180) / 2 + PI / 4) = tan (lat * (PI / 180) / 2 + PI / 4).
Proof.
  intros Hlat. destruct (half_angle_range Hlat) as [_ Hhi].
  apply PyFacts.math_tan_eq. lra.
Qed.

Lemma mercN_inverse (h w m : R) :
  w <> 0 -> (h - (h - m * w / (2 * PI))) * (2 * PI) / w = m.
Proof.
  intros Hw. pose proof PI_RGT_0 as Hpi. field. split; lra.
Qed.








(** At the south pole the forward projection takes the logarithm of
    [tan 0 = 0]. *)
Lemma south_pole_raises (lng : R) (zoom : Z) :
  convert_coords_to_mercator_point (-90) lng zoom = Raise ValueError.
Proof.
  unfold convert_coords_to_mercator_point.
  replace (-90 * (PI / 180) / 2 + PI / 4) with 0 by field.
  rewrite PyFacts.math_tan_eq by (pose proof PI_RGT_0; lra).
  rewrite tan_0, PyFacts.math_log_nonpos by lra. reflexivity.
Qed.


(** C6: the tile of a coordinate pair is the componentwise floor of its
    Mercator point: each tile coordinate is the largest integer not above
    the point coordinate, so (5.9, 3.1) gives (5, 3) and negative
    fractions go down, not towards zero. *)
Theorem convert_coords_to_tile_floors (lat lng : R) (zoom : Z) :
  convert_coords_to_tile lat lng zoom
    = rmap np_floor (convert_coords_to_mercator_point lat lng zoom) /\
  (forall x y, convert_coords_to_mercator_point lat lng zoom = Ok (x, y) ->
     exists tx ty, convert_coords_to_tile lat lng zoom = Ok (tx, ty) /\
       IZR tx <= x < IZR tx + 1 /\ IZR ty <= y < IZR ty + 1) /\
  np_floor (5.9, 3.1) = (5, 3)%Z /\
  np_floor (-0.5, -2.25) = (-1, -3)%Z.
Proof.
  split; [| split; [| split]].
  - unfold convert_coords_to_tile, rmap.
    destruct (convert_coords_to_mercator_point lat lng zoom) as [[x y] |]; reflexivity.
  - intros x y H. unfold convert_coords_to_tile. rewrite H. cbn.
    exists (Zfloor x), (Zfloor y). split; [reflexivity |].
    split; apply Zfloor_bound.
  - unfold np_floor; cbn [fst snd]. f_equal; apply Zfloor_eq; lra.
  - unfold np_floor; cbn [fst snd]. f_equal; apply Zfloor_eq; lra.
Qed.

(** A venue on the equator at longitude -74, zoom 10: the Mercator point is
    (301.51..., 512) and the tile is (301, 512). *)
Example tile_of_equator_point :
  convert_coords_to_tile 0 (-74) 10 = Ok (301, 512)%Z.
Proof.
  unfold convert_coords_to_tile, convert_coords_to_mercator_point.
  replace (0 * (PI / 180) / 2 + PI / 4) with (PI / 4) by field.
  rewrite PyFacts.math_tan_eq by (pose proof PI_RGT_0; lra).
  rewrite tan_PI4, PyFacts.math_log_pos by lra. rewrite ln_1.
  cbn [rbind]. unfold np_floor; cbn [fst snd].
  unfold Py.pow2, Py.pow2_div2; cbn [Z.ltb Z.compare].
  f_equal. f_equal.
  - apply Zfloor_eq. simpl powerRZ. lra.
  - apply Zfloor_eq. simpl powerRZ.
    replace (2 ^ 10 / 2)%Z with 512%Z by reflexivity. lra.
Qed.

(** ** Tiles and the edge-bleed rule *)

Lemma tile_eqb_eq (a b : tile) : tile_eqb a b = true <-> a = b.
Proof.
  destruct a as [ax ay], b as [bx b_y]. unfold tile_eqb; cbn [fst snd].
  rewrite andb_true_iff, !Z.eqb_eq. split.
  - intros [-> ->]; reflexivity.
  - intros H; inversion H; auto.
Qed.

Lemma tile_in_In (t : tile) (tiles : list tile) :
  tile_in t tiles = true <-> In t tiles.
Proof.
  unfold tile_in. rewrite existsb_exists. split.
  - intros [u [Hu He]]. apply tile_eqb_eq in He. subst; assumption.
  - intros H. exists t. split; [assumption | apply tile_eqb_eq; reflexivity].
Qed.

Lemma tile_in_false (t : tile) (tiles : list tile) :
  tile_in t tiles = false <-> ~ In t tiles.
Proof.
  rewrite <- tile_in_In. destruct (tile_in t tiles); split; intros;
    try reflexivity; try discriminate; try congruence.
Qed.

Lemma in_append_if_new (t u : tile) (tiles : list tile) :
  In t (append_if_new u tiles) <-> In t tiles \/ t = u.
Proof.
  unfold append_if_new. destruct (tile_in u tiles) eqn:E.
  - apply tile_in_In in E. split; [auto | intros [H | ->]; assumption].
  - rewrite in_app_iff. cbn. intuition auto.
Qed.

Lemma append_if_new_NoDup (u : tile) (tiles : list tile) :
  NoDup tiles -> NoDup (append_if_new u tiles).
Proof.
  intros H. unfold append_if_new. destruct (tile_in u tiles) eqn:E; [assumption |].
  apply tile_in_false in E.
  apply NoDup_rev in H. rewrite <- (rev_involutive (tiles ++ [u])).
  apply NoDup_rev. rewrite rev_app_distr. cbn. constructor; [| assumption].
  rewrite <- in_rev. assumption.
Qed.

(** The tiles of [add_neighbors]: the ones already there, and each of the
    eight neighbours under its own border test. *)
Lemma add_neighbors_In (x y : Z) (px py : R) (d : Z) (tiles : list tile) (t : tile) :
  let left := px < IZR d in
  let top := py < IZR d in
  let right := IZR TILE_RESOLUTION - px < IZR d in
  let bottom := IZR TILE_RESOLUTION - py < IZR d in
  In t (add_neighbors x y px py d tiles) <->
    In t tiles \/
    (t = (x - 1, y)%Z /\ left) \/
    (t = (x - 1, y - 1)%Z /\ left /\ top) \/
    (t = (x - 1, y + 1)%Z /\ left /\ bottom) \/
    (t = (x, y - 1)%Z /\ top) \/
    (t = (x + 1, y)%Z /\ right) \/
    (t = (x + 1, y - 1)%Z /\ right /\ top) \/
    (t = (x + 1, y + 1)%Z /\ right /\ bottom) \/
    (t = (x, y + 1)%Z /\ bottom).
Proof.
  intros left top right bottom. subst left top right bottom.
  unfold add_neighbors.
  destruct (Py.ltb px (IZR d)) eqn:EW;
  destruct (Py.ltb py (IZR d)) eqn:EN;
  destruct (Py.ltb (IZR TILE_RESOLUTION - px) (IZR d)) eqn:EE;
  destruct (Py.ltb (IZR TILE_RESOLUTION - py) (IZR d)) eqn:ES;
  repeat match goal with
         | H : Py.ltb _ _ = true |- _ => apply PyFacts.ltb_spec in H
         | H : Py.ltb _ _ = false |- _ =>
             apply not_true_iff_false in H; rewrite PyFacts.ltb_spec in H
         end;
  rewrite ?in_append_if_new; tauto.
Qed.

(** C1 (as amended): a compass neighbour is in the tile set after the step
    iff it was there before or the venue's pixel distance to the border(s)
    facing it is below the dot size, the distances being [pixel_x],
    [pixel_y], [TILE_RESOLUTION - pixel_x] and [TILE_RESOLUTION - pixel_y];
    a diagonal neighbour needs both of its borders.  At pixel x = 0 the
    west neighbour is added iff the dot size is positive; at pixel
    x = TILE_RESOLUTION - 1 the east neighbour is added iff the dot size
    exceeds 1. *)
Theorem add_neighbors_rule (x y : Z) (px py : R) (d : Z) (tiles : list tile) :
  let left := px < IZR d in
  let top := py < IZR d in
  let right := IZR TILE_RESOLUTION - px < IZR d in
  let bottom := IZR TILE_RESOLUTION - py < IZR d in
  let after := add_neighbors x y px py d tiles in
  (In (x - 1, y)%Z after <-> In (x - 1, y)%Z tiles \/ left) /\
  (In (x + 1, y)%Z after <-> In (x + 1, y)%Z tiles \/ right) /\
  (In (x, y - 1)%Z after <-> In (x, y - 1)%Z tiles \/ top) /\
  (In (x, y + 1)%Z after <-> In (x, y + 1)%Z tiles \/ bottom) /\
  (In (x - 1, y - 1)%Z after <-> In (x - 1, y - 1)%Z tiles \/ (left /\ top)) /\
  (In (x - 1, y + 1)%Z after <-> In (x - 1, y + 1)%Z tiles \/ (left /\ bottom)) /\
  (In (x + 1, y - 1)%Z after <-> In (x + 1, y - 1)%Z tiles \/ (right /\ top)) /\
  (In (x + 1, y + 1)%Z after <-> In (x + 1, y + 1)%Z tiles \/ (right /\ bottom)) /\
  (In (x - 1, y)%Z (add_neighbors x y 0 py d tiles)
     <-> In (x - 1, y)%Z tiles \/ (0 < d)%Z) /\
  (In (x + 1, y)%Z (add_neighbors x y (IZR (TILE_RESOLUTION - 1)) py d tiles)
     <-> In (x + 1, y)%Z tiles \/ (1 < d)%Z).
Proof.
  intros left top right bottom after. subst left top right bottom after.
  change (IZR (TILE_RESOLUTION - 1)) with 255.
  change (IZR TILE_RESOLUTION) with 256.
  assert (H0d : 0 < IZR d <-> (0 < d)%Z)
    by (split; [apply lt_IZR | apply IZR_lt]).
  assert (H1d : 256 - 255 < IZR d <-> (1 < d)%Z)
    by (split; intros H; [apply lt_IZR; lra | apply IZR_lt in H; lra]).
  rewrite <- H0d, <- H1d.
  repeat split; intros H;
    solve [ apply add_neighbors_In in H;
            change (IZR TILE_RESOLUTION) with 256 in H;
            decompose [or and] H; clear H; auto;
            match goal with
            | E : (_, _) = (_, _) |- _ => inversion E; lia
            end
          | apply add_neighbors_In;
            change (IZR TILE_RESOLUTION) with 256;
            intuition auto ].
Qed.

Lemma add_neighbors_rule_witness :
  In (5 - 1, 5)%Z (add_neighbors 5 5 3 128 10 [(5, 5)%Z])
  <-> In (5 - 1, 5)%Z [(5, 5)%Z] \/ 3 < IZR 10.
Proof. apply (@add_neighbors_rule 5 5 3 128 10 [(5, 5)%Z]). Defined.

(** C1 (as stated) fails for a venue on the last pixel column with dot size
    1: the east neighbour (6, 5) of tile (5, 5) is not added, because the
    distance tested is [256 - 255 = 1], which is not below 1. *)
Lemma east_edge_dotsize_one :
  (0 < 1)%Z /\
  ~ In (5 + 1, 5)%Z
      (add_neighbors 5 5 (IZR (TILE_RESOLUTION - 1)) 128 1 [(5, 5)%Z]).
Proof.
  split; [lia |]. intros H.
  apply add_neighbors_In in H.
  change (IZR (TILE_RESOLUTION - 1)) with 255 in H.
  change (IZR TILE_RESOLUTION) with 256 in H.
  cbn [In] in H.
  decompose [or and] H; clear H; try lra; try contradiction;
    match goal with
    | E : (_, _) = (_, _) |- _ => inversion E; lia
    end.
Qed.

(** ** The noise-removal loop *)

Section NoiseLoop.
Variable A : Type.
Variable A_eq_dec : forall a b : A, {a = b} + {a <> b}.

Lemma combine_snoc (B C : Type) (l : list B) (l' : list C) b c :
  length l = length l' ->
  combine (l ++ [b]) (l' ++ [c]) = combine l l' ++ [(b, c)].
Proof.
  revert l'. induction l as [| h t IH]; intros [| h' t'] H; cbn in *;
    try discriminate; [reflexivity |].
  f_equal. apply IH. congruence.
Qed.

Lemma enumerate_snoc (labels : list Z) v :
  enumerate (labels ++ [v]) = enumerate labels ++ [(length labels, v)].
Proof.
  unfold enumerate. rewrite last_length, seq_S. cbn.
  apply combine_snoc. apply length_seq.
Qed.

(** The last label is handled first. *)
Lemma remove_noise_snoc (labels : list Z) v (pts : list A) :
  remove_noise A_eq_dec (labels ++ [v]) pts =
    if (v =? -1)%Z then
      (p <- list_get pts (length labels) ;;
       pts' <- list_remove A_eq_dec p pts ;;
       remove_noise A_eq_dec labels pts')%result
    else remove_noise A_eq_dec labels pts.
Proof.
  unfold remove_noise at 1. rewrite enumerate_snoc, rev_app_distr.
  reflexivity.
Qed.

Lemma list_remove_In (x : A) (l : list A) :
  In x l -> exists l', list_remove A_eq_dec x l = Ok l' /\ S (length l') = length l.
Proof.
  induction l as [| y l IH]; intros H; [destruct H |]. cbn.
  destruct (A_eq_dec x y) as [-> | Hne].
  - exists l. auto.
  - destruct H as [-> | H]; [contradiction |].
    destruct (IH H) as (l' & -> & Hl). cbn. exists (y :: l'). cbn. auto.
Qed.

Lemma list_remove_middle (x : A) (front back : list A) :
  ~ In x front -> list_remove A_eq_dec x (front ++ x :: back) = Ok (front ++ back).
Proof.
  induction front as [| y front IH]; intros H; cbn.
  - destruct (A_eq_dec x x); [reflexivity | contradiction].
  - destruct (A_eq_dec x y) as [-> | Hne]; [exfalso; apply H; left; reflexivity |].
    rewrite IH by (intros Hin; apply H; right; assumption). reflexivity.
Qed.

Lemma list_get_middle (x : A) (front back : list A) :
  list_get (front ++ x :: back) (length front) = Ok x.
Proof.
  unfold list_get. rewrite nth_error_app2 by lia.
  rewrite Nat.sub_diag. reflexivity.
Qed.

Lemma list_get_lt (l : list A) (n : nat) :
  (n < length l)%nat -> exists x, list_get l n = Ok x /\ In x l.
Proof.
  intros H. unfold list_get. destruct (nth_error l n) as [x |] eqn:E.
  - exists x. split; [reflexivity | eapply nth_error_In; eassumption].
  - apply nth_error_None in E. lia.
Qed.

Lemma count_noise_snoc (labels : list Z) v :
  count_noise (labels ++ [v]) =
    (count_noise labels + if (v =? -1)%Z then 1 else 0)%nat.
Proof.
  unfold count_noise. rewrite filter_app, length_app. cbn.
  destruct (v =? -1)%Z; reflexivity.
Qed.

Lemma count_noise_le (labels : list Z) : (count_noise labels <= length labels)%nat.
Proof. unfold count_noise. apply filter_length_le. Qed.

(** With at most one label per point the loop never raises, and it
    deletes one point per noise label. *)
Lemma remove_noise_total (labels : list Z) :
  forall pts : list A,
    (length labels <= length pts)%nat ->
    exists res, remove_noise A_eq_dec labels pts = Ok res /\
                length res = (length pts - count_noise labels)%nat.
Proof.
  induction labels as [| v labels IH] using rev_ind; intros pts Hlen.
  - exists pts. split; [reflexivity | cbn; lia].
  - rewrite last_length in Hlen. rewrite remove_noise_snoc, count_noise_snoc.
    destruct (v =? -1)%Z.
    + destruct (@list_get_lt pts (length labels)) as (p & -> & Hin); [lia |].
      cbn [rbind].
      destruct (list_remove_In _ _ Hin) as (pts' & -> & Hl). cbn [rbind].
      destruct (IH pts') as (res & -> & Hres); [lia |].
      exists res. split; [reflexivity |].
      pose proof (count_noise_le labels). lia.
    + destruct (IH pts) as (res & -> & Hres); [lia |].
      exists res. split; [reflexivity | lia].
Qed.

Lemma pure_filter_app (l1 l2 : list Z) (p1 p2 : list A) :
  length l1 = length p1 ->
  pure_filter (l1 ++ l2) (p1 ++ p2) = pure_filter l1 p1 ++ pure_filter l2 p2.
Proof.
  revert p1. induction l1 as [| v l1 IH]; intros [| p p1] H; cbn in *;
    try discriminate.
  - destruct p2; reflexivity.
  - rewrite IH by congruence. destruct (v =? -1)%Z; reflexivity.
Qed.

(** On a list without repeated points the loop is the pure filter. *)
Lemma remove_noise_NoDup_gen (labels : list Z) :
  forall front back : list A,
    length front = length labels ->
    NoDup (front ++ back) ->
    remove_noise A_eq_dec labels (front ++ back) = Ok (pure_filter labels front ++ back).
Proof.
  induction labels as [| v labels IH] using rev_ind; intros front back Hlen Hnd.
  - destruct front; [reflexivity | discriminate].
  - rewrite last_length in Hlen.
    destruct (exists_last (l := front)) as (front' & p & ->);
      [intros ->; discriminate |].
    rewrite last_length in Hlen. injection Hlen as Hlen.
    rewrite <- app_assoc in *. cbn [app] in *.
    rewrite remove_noise_snoc, <- Hlen.
    rewrite pure_filter_app by congruence. cbn [pure_filter].
    destruct (v =? -1)%Z.
    + rewrite list_get_middle. cbn [rbind].
      rewrite list_remove_middle.
      * cbn [rbind]. rewrite IH; [| congruence | eapply NoDup_remove_1; eassumption ].
        rewrite app_nil_r. reflexivity.
      * apply NoDup_remove_2 in Hnd. intros Hin. apply Hnd.
        apply in_or_app. left; assumption.
    + rewrite IH by (congruence || assumption).
      rewrite <- app_assoc. reflexivity.
Qed.

Lemma remove_noise_NoDup (labels : list Z) (pts : list A) :
  length pts = length labels -> NoDup pts ->
  remove_noise A_eq_dec labels pts = Ok (pure_filter labels pts).
Proof.
  intros Hlen Hnd. rewrite <- (app_nil_r pts) at 1.
  rewrite remove_noise_NoDup_gen; rewrite ?app_nil_r; auto.
Qed.

(** Three points with the first and last equal: the loop deletes the
    wrong ones. *)
Lemma remove_noise_repeated (a b : A) :
  a <> b ->
  remove_noise A_eq_dec [-1; 0; -1]%Z [a; b; a] = Ok [a] /\
  pure_filter [-1; 0; -1]%Z [a; b; a] = [b].
Proof.
  intros Hab. split; [| reflexivity].
  unfold remove_noise. cbn.
  destruct (A_eq_dec a a); [| contradiction]. cbn.
  destruct (A_eq_dec b b); [| contradiction]. reflexivity.
Qed.

End NoiseLoop.

(** ** The effect monad *)

Section MonadFacts.
Variable Img : Type.
Implicit Types (m : M Img unit).

Lemma bind_ok_log (A B : Type) (m : M Img A) (f : A -> M Img B) a :
  snd m = Ok a -> bind m f = (fst m ++ fst (f a), snd (f a)).
Proof. destruct m as [l r]; cbn; intros ->. destruct (f a); reflexivity. Qed.

Lemma bind_raise (A B : Type) (m : M Img A) (f : A -> M Img B) e :
  snd m = Raise e -> bind m f = (fst m, Raise e).
Proof. destruct m as [l r]; cbn; intros ->. reflexivity. Qed.

Lemma bind_lift_ok (A B : Type) (a : A) (f : A -> M Img B) :
  bind (lift (Ok a)) f = f a.
Proof. unfold lift, bind. destruct (f a); reflexivity. Qed.

Lemma bind_call_ok (A B : Type) ev (a : A) (f : A -> M Img B) :
  bind (call ev (Ok a)) f = (ev :: fst (f a), snd (f a)).
Proof. unfold call, bind. destruct (f a); reflexivity. Qed.

Lemma bind_ret (A B : Type) (a : A) (f : A -> M Img B) : bind (ret a) f = f a.
Proof. apply bind_lift_ok. Qed.

Lemma for_each_all_ok (X : Type) (l : list X) (body : X -> M Img unit) :
  (forall x, In x l -> snd (body x) = Ok tt) ->
  for_each l body = (flat_map (fun x => fst (body x)) l, Ok tt).
Proof.
  induction l as [| x l IH]; intros H; [reflexivity |]. cbn [for_each flat_map].
  rewrite (@bind_ok_log _ _ (body x) _ tt) by (apply H; left; reflexivity).
  rewrite IH by (intros; apply H; right; assumption). reflexivity.
Qed.

(** A loop stops at the first iteration that raises. *)
Lemma for_each_stops (X : Type) (pre post : list X) (x : X)
    (body : X -> M Img unit) e :
  (forall y, In y pre -> snd (body y) = Ok tt) ->
  snd (body x) = Raise e ->
  for_each (pre ++ x :: post) body
    = (flat_map (fun y => fst (body y)) pre ++ fst (body x), Raise e).
Proof.
  induction pre as [| y pre IH]; intros Hpre Hx; cbn [app for_each flat_map].
  - rewrite (bind_raise _ _ Hx). reflexivity.
  - rewrite (@bind_ok_log _ _ (body y) _ tt) by (apply Hpre; left; reflexivity).
    rewrite IH by (auto; intros; apply Hpre; right; assumption).
    cbn [fst snd]. rewrite app_assoc. reflexivity.
Qed.

(** A loop that ends normally ran every iteration normally. *)
Lemma for_each_ok_inv (X : Type) (l : list X) (body : X -> M Img unit) :
  snd (for_each l body) = Ok tt ->
  forall x, In x l -> snd (body x) = Ok tt.
Proof.
  induction l as [| y l IH]; intros H x Hin; [destruct Hin |].
  cbn [for_each] in H. destruct (body y) as [ly [[] | e]] eqn:E.
  - rewrite (@bind_ok_log _ _ (ly, Ok tt) _ tt) in H by reflexivity. cbn in H.
    destruct Hin as [<- | Hin]; [rewrite E; reflexivity | apply IH; assumption].
  - cbn in H. discriminate H.
Qed.

(** Two nested loops are one loop over the pairs. *)
Lemma for_each_nested (X Y : Type) (l1 : list X) (l2 : list Y)
    (f : X -> Y -> M Img unit) :
  (forall x y, In x l1 -> In y l2 -> snd (f x y) = Ok tt) ->
  for_each l1 (fun x => for_each l2 (f x))
    = (flat_map (fun xy => fst (f (fst xy) (snd xy))) (list_prod l1 l2), Ok tt).
Proof.
  intros H. rewrite for_each_all_ok.
  - f_equal. induction l1 as [| x l1 IH]; [reflexivity |].
    cbn [flat_map list_prod]. rewrite flat_map_app, IH
      by (intros; apply H; [right |]; assumption).
    f_equal. rewrite for_each_all_ok by (intros; apply H; [left |]; auto).
    cbn [fst]. clear. induction l2 as [| y l2 IH2]; cbn; [reflexivity |].
    f_equal. exact IH2.
  - intros x Hx. rewrite for_each_all_ok by (intros; apply H; assumption).
    reflexivity.
Qed.

End MonadFacts.

(** ** Bounding box and sorting *)

Lemma fold_left_min_spec (l : list Z) (a : Z) :
  let m := fold_left Z.min l a in
  (m <= a)%Z /\ (forall x, In x l -> (m <= x)%Z) /\ (m = a \/ In m l).
Proof.
  revert a. induction l as [| h l IH]; intros a; cbn.
  - split; [lia | split; [intros x [] | auto]].
  - destruct (IH (Z.min a h)) as (H1 & H2 & H3). split; [lia |]. split.
    + intros x [<- | Hx]; [lia | auto].
    + destruct H3 as [H3 | H3]; [| auto]. rewrite H3.
      destruct (Z.min_spec a h) as [[_ ->] | [_ ->]]; auto.
Qed.

Lemma fold_left_max_spec (l : list Z) (a : Z) :
  let m := fold_left Z.max l a in
  (a <= m)%Z /\ (forall x, In x l -> (x <= m)%Z) /\ (m = a \/ In m l).
Proof.
  revert a. induction l as [| h l IH]; intros a; cbn.
  - split; [lia | split; [intros x [] | auto]].
  - destruct (IH (Z.max a h)) as (H1 & H2 & H3). split; [lia |]. split.
    + intros x [<- | Hx]; [lia | auto].
    + destruct H3 as [H3 | H3]; [| auto]. rewrite H3.
      destruct (Z.max_spec a h) as [[_ ->] | [_ ->]]; auto.
Qed.

Lemma py_min_spec (l : list Z) (m : Z) :
  py_min l = Ok m -> In m l /\ forall x, In x l -> (m <= x)%Z.
Proof.
  destruct l as [| h t]; [discriminate |]. cbn. intros [= <-].
  destruct (fold_left_min_spec t h) as (H1 & H2 & H3). split.
  - destruct H3 as [-> | H3]; auto.
  - intros x [<- | Hx]; auto.
Qed.

Lemma py_max_spec (l : list Z) (m : Z) :
  py_max l = Ok m -> In m l /\ forall x, In x l -> (x <= m)%Z.
Proof.
  destruct l as [| h t]; [discriminate |]. cbn. intros [= <-].
  destruct (fold_left_max_spec t h) as (H1 & H2 & H3). split.
  - destruct H3 as [-> | H3]; auto.
  - intros x [<- | Hx]; auto.
Qed.

(** Every tile lies inside the bounding box. *)
Lemma bounding_box_spec (tiles : list tile) (nw se : tile) :
  bounding_box tiles = Ok (nw, se) ->
  forall t, In t tiles ->
    (fst nw <= fst t <= fst se)%Z /\ (snd nw <= snd t <= snd se)%Z.
Proof.
  unfold bounding_box. intros H t Ht.
  destruct (py_min (map fst tiles)) as [a |] eqn:Ea; [| discriminate].
  destruct (py_min (map snd tiles)) as [b |] eqn:Eb; [| discriminate].
  destruct (py_max (map fst tiles)) as [c |] eqn:Ec; [| discriminate].
  destruct (py_max (map snd tiles)) as [d |] eqn:Ed; [| discriminate].
  cbn in H. injection H as <- <-. cbn [fst snd].
  apply py_min_spec in Ea, Eb. apply py_max_spec in Ec, Ed.
  pose proof (in_map fst _ _ Ht). pose proof (in_map snd _ _ Ht).
  repeat split; [apply Ea | apply Ec | apply Eb | apply Ed]; assumption.
Qed.

Lemma bounding_box_nonempty (tiles : list tile) :
  tiles <> [] -> exists nw se, bounding_box tiles = Ok (nw, se).
Proof.
  destruct tiles as [| t tiles]; [congruence |]. intros _.
  unfold bounding_box. cbn. eauto.
Qed.

Lemma insert_sorted_perm (t : tile) (l : list tile) :
  Permutation (t :: l) (insert_sorted t l).
Proof.
  induction l as [| h l IH]; cbn; [reflexivity |].
  destruct (tile_leb t h); [reflexivity |].
  rewrite perm_swap. constructor. exact IH.
Qed.

(** [sorted] rearranges, it neither drops nor repeats a tile. *)
Lemma sorted_perm (l : list tile) : Permutation l (sorted l).
Proof.
  induction l as [| h l IH]; cbn; [constructor |].
  rewrite <- insert_sorted_perm. constructor. exact IH.
Qed.

(** ** Cutting the canvas *)

Lemma NoDup_list_prod (X Y : Type) (l1 : list X) (l2 : list Y) :
  NoDup l1 -> NoDup l2 -> NoDup (list_prod l1 l2).
Proof.
  intros H1 H2. induction H1 as [| x l1 Hx H1 IH]; cbn; [constructor |].
  apply NoDup_app.
  - apply Finite.Injective_map_NoDup; [| assumption].
    intros a b E; inversion E; reflexivity.
  - exact IH.
  - intros [a b] Hin Hin'. apply in_map_iff in Hin. destruct Hin as (y & E & _).
    inversion E; subst. apply in_prod_iff in Hin'. tauto.
Qed.

Lemma grid_NoDup (nx ny : Z) : NoDup (grid nx ny).
Proof. apply NoDup_list_prod; apply PyFacts.range_NoDup. Qed.

Lemma in_grid (nx ny i j : Z) :
  In (i, j) (grid nx ny) <-> (0 <= i < nx)%Z /\ (0 <= j < ny)%Z.
Proof. unfold grid. rewrite in_prod_iff, !PyFacts.in_range_step1. reflexivity. Qed.

(** The loops upload, in grid order, the cells whose tile is in the set. *)
Lemma slice_canvas_log (Img : Type) (env : Env Img) (category zoom : Z) (img : Img)
    (nw_tile : tile) (num_x_tiles num_y_tiles : Z) (tiles : list tile) :
  slice_canvas env category zoom img nw_tile num_x_tiles num_y_tiles tiles
    = (map (fun ij : Z * Z =>
              Upload category zoom (fst nw_tile + fst ij) (snd nw_tile + snd ij)
                     (crop env img (crop_box (fst ij) (snd ij))))
           (filter (fun ij => tile_in (cell_tile nw_tile ij) tiles)
                   (grid num_x_tiles num_y_tiles)),
       Ok tt).
Proof.
  unfold slice_canvas. rewrite for_each_nested.
  - f_equal. unfold grid.
    induction (list_prod (Py.range 0 num_x_tiles 1) (Py.range 0 num_y_tiles 1))
      as [| ij l IH]; [reflexivity |].
    cbn [flat_map filter]. rewrite IH. unfold cell_tile at 2.
    destruct (tile_in _ tiles); reflexivity.
  - intros i j _ _. destruct (tile_in _ tiles); reflexivity.
Qed.

Lemma cell_tile_injective (nw_tile : tile) (a b : Z * Z) :
  cell_tile nw_tile a = cell_tile nw_tile b -> a = b.
Proof.
  destruct a, b. unfold cell_tile; cbn. intros E; inversion E. f_equal; lia.
Qed.

(** The tiles uploaded are the tiles of the set, each once. *)
Lemma sliced_tiles_perm (tiles : list tile) (nw_tile se_tile : tile) :
  NoDup tiles -> bounding_box tiles = Ok (nw_tile, se_tile) ->
  Permutation
    (map (cell_tile nw_tile)
       (filter (fun ij => tile_in (cell_tile nw_tile ij) tiles)
               (grid (fst se_tile - fst nw_tile + 1) (snd se_tile - snd nw_tile + 1))))
    tiles.
Proof.
  intros Hnd Hbox. apply NoDup_Permutation; [| assumption |].
  - apply Finite.Injective_map_NoDup; [exact (@cell_tile_injective nw_tile) |].
    apply NoDup_filter, grid_NoDup.
  - intros t. rewrite in_map_iff. split.
    + intros (ij & <- & Hin). apply filter_In in Hin.
      apply tile_in_In. tauto.
    + intros Ht. pose proof (@bounding_box_spec _ _ _ Hbox _ Ht) as [Hx Hy].
      exists (fst t - fst nw_tile, snd t - snd nw_tile)%Z.
      assert (E : cell_tile nw_tile (fst t - fst nw_tile, snd t - snd nw_tile)%Z = t).
      { unfold cell_tile; cbn [fst snd]. destruct t; cbn. f_equal; lia. }
      split; [exact E |]. apply filter_In. split.
      * apply in_grid. lia.
      * rewrite E. apply tile_in_In. assumption.
Qed.

(** C5: cutting the canvas uploads, for each cell (i, j) of the bounding
    grid, the crop [256 i, 256 (i+1)) x [256 j, 256 (j+1)) under the key of
    tile (nw.x + i, nw.y + j) iff that tile is in the tile set; nothing
    else is uploaded, so the number of tile images is [len(tiles)]. *)
Theorem slice_canvas_emits_tile_set (Img : Type) (env : Env Img)
    (category zoom : Z) (img : Img) (tiles : list tile) (nw_tile se_tile : tile) :
  NoDup tiles ->
  bounding_box tiles = Ok (nw_tile, se_tile) ->
  let num_x_tiles := (fst se_tile - fst nw_tile + 1)%Z in
  let num_y_tiles := (snd se_tile - snd nw_tile + 1)%Z in
  let out := slice_canvas env category zoom img nw_tile num_x_tiles num_y_tiles tiles in
  snd out = Ok tt /\
  (forall i j, (0 <= i < num_x_tiles)%Z -> (0 <= j < num_y_tiles)%Z ->
     (In (Upload category zoom (fst nw_tile + i) (snd nw_tile + j)
                 (crop env img (crop_box i j))) (fst out)
      <-> In (fst nw_tile + i, snd nw_tile + j)%Z tiles)) /\
  (forall ev, In ev (fst out) ->
     exists i j, (0 <= i < num_x_tiles)%Z /\ (0 <= j < num_y_tiles)%Z /\
       In (fst nw_tile + i, snd nw_tile + j)%Z tiles /\
       ev = Upload category zoom (fst nw_tile + i) (snd nw_tile + j)
                   (crop env img (crop_box i j))) /\
  length (fst out) = length tiles.
Proof.
  intros Hnd Hbox num_x_tiles num_y_tiles out. subst out.
  rewrite slice_canvas_log. cbn [fst snd].
  assert (Hev : forall ev,
    In ev (map (fun ij : Z * Z =>
                  Upload category zoom (fst nw_tile + fst ij) (snd nw_tile + snd ij)
                         (crop env img (crop_box (fst ij) (snd ij))))
             (filter (fun ij : Z * Z => tile_in (cell_tile nw_tile ij) tiles)
                     (grid num_x_tiles num_y_tiles))) ->
    exists i j, (0 <= i < num_x_tiles)%Z /\ (0 <= j < num_y_tiles)%Z /\
       In (fst nw_tile + i, snd nw_tile + j)%Z tiles /\
       ev = Upload category zoom (fst nw_tile + i) (snd nw_tile + j)
                   (crop env img (crop_box i j))).
  { intros ev Hin. apply in_map_iff in Hin. destruct Hin as ([i j] & <- & Hin).
    apply filter_In in Hin. destruct Hin as [Hg Ht]. apply in_grid in Hg.
    apply tile_in_In in Ht. unfold cell_tile in Ht. cbn [fst snd] in *.
    exists i, j. tauto. }
  split; [reflexivity |]. split; [| split].
  - intros i j Hi Hj. split.
    + intros Hin. apply Hev in Hin.
      destruct Hin as (i' & j' & _ & _ & Ht & E). inversion E.
      replace i with i' by lia. replace j with j' by lia. exact Ht.
    + intros Ht. apply in_map_iff. exists (i, j). split; [reflexivity |].
      apply filter_In. split; [apply in_grid; lia |].
      apply tile_in_In. exact Ht.
  - exact Hev.
  - rewrite length_map.
    rewrite <- (Permutation_length (sliced_tiles_perm Hnd Hbox)).
    rewrite length_map. reflexivity.
Qed.

(** ** Tile boxes and normalisation *)

Lemma pow2_pos (zoom : Z) : 0 < Py.pow2 zoom.
Proof. unfold Py.pow2. apply powerRZ_lt. lra. Qed.

(** Longitude grows with the point's x. *)
Lemma lng_increasing (x1 x2 y1 y2 : R) (zoom : Z) :
  x1 < x2 ->
  snd (convert_point_to_coords x1 y1 zoom) < snd (convert_point_to_coords x2 y2 zoom).
Proof.
  intros H. unfold convert_point_to_coords; cbn [snd].
  pose proof (pow2_pos zoom) as Hw.
  pose proof (Rinv_0_lt_compat _ Hw) as Hi.
  unfold Rdiv. nra.
Qed.

(** Latitude falls as the point's y grows. *)
Lemma lat_decreasing (x1 x2 y1 y2 : R) (zoom : Z) :
  y1 < y2 ->
  fst (convert_point_to_coords x2 y2 zoom) < fst (convert_point_to_coords x1 y1 zoom).
Proof.
  intros H. unfold convert_point_to_coords; cbn [fst].
  pose proof (pow2_pos zoom) as Hw.
  pose proof (Rinv_0_lt_compat _ Hw) as Hi.
  pose proof PI_RGT_0 as Hpi.
  pose proof (Rinv_0_lt_compat _ Hpi) as Hpi'.
  assert (Hm : (Py.pow2_div2 zoom - y2) * (2 * PI) / Py.pow2 zoom
               < (Py.pow2_div2 zoom - y1) * (2 * PI) / Py.pow2 zoom).
  { unfold Rdiv. apply Rmult_lt_compat_r; [assumption |]. nra. }
  apply exp_increasing, atan_increasing in Hm.
  unfold Rdiv. apply Rmult_lt_compat_r; [assumption |]. lra.
Qed.

(** The box of tiles x1..x2-1, y1..y2-1 has a non-degenerate extent, so
    normalising into it never divides by zero. *)
Lemma box_extent (x1 x2 y1 y2 zoom : Z) :
  (x1 < x2)%Z -> (y1 < y2)%Z ->
  let min_coords := convert_point_to_coords (IZR x1) (IZR y2) zoom in
  let max_coords := convert_point_to_coords (IZR x2) (IZR y1) zoom in
  fst max_coords - fst min_coords <> 0 /\ snd max_coords - snd min_coords <> 0.
Proof.
  intros Hx Hy min_coords max_coords. subst min_coords max_coords.
  apply IZR_lt in Hx, Hy.
  pose proof (lat_decreasing (IZR x2) (IZR x1) zoom Hy).
  pose proof (lng_increasing (IZR y2) (IZR y1) zoom Hx).
  split; lra.
Qed.

Lemma normalize_ok (min_coords max_coords : R * R) (width height : Z) (venue : R * R) :
  fst max_coords - fst min_coords <> 0 ->
  snd max_coords - snd min_coords <> 0 ->
  normalize min_coords max_coords width height venue
    = Ok (scaled min_coords max_coords width height venue).
Proof.
  intros H1 H2. unfold normalize.
  rewrite !PyFacts.fdiv_ok by assumption. reflexivity.
Qed.

Lemma normalize_all_ok (min_coords max_coords : R * R) (width height : Z)
    (pts : list (R * R)) :
  fst max_coords - fst min_coords <> 0 ->
  snd max_coords - snd min_coords <> 0 ->
  normalize_all min_coords max_coords width height pts
    = Ok (map (scaled min_coords max_coords width height) pts).
Proof.
  intros H1 H2. induction pts as [| p pts IH]; [reflexivity |].
  cbn [normalize_all map]. rewrite normalize_ok, IH by assumption. reflexivity.
Qed.

(** ** Locating the tiles of a city *)

Lemma convert_coords_to_tile_ok (lat lng : R) (zoom : Z) :
  -90 < lat < 90 -> exists t, convert_coords_to_tile lat lng zoom = Ok t.
Proof.
  intros Hlat. pose proof (half_angle_range Hlat) as [Hlo Hhi].
  unfold convert_coords_to_tile, convert_coords_to_mercator_point.
  rewrite (math_tan_between Hlat).
  rewrite PyFacts.math_log_pos by (apply tan_gt_0; assumption).
  cbn. eauto.
Qed.

Lemma add_neighbors_NoDup (x y : Z) (px py : R) (d : Z) (tiles : list tile) :
  NoDup tiles -> NoDup (add_neighbors x y px py d tiles).
Proof.
  intros H. unfold add_neighbors.
  repeat match goal with
         | |- context [if ?c then _ else _] => destruct c
         end;
  repeat apply append_if_new_NoDup; assumption.
Qed.

Lemma locate_venue_ok (zoom d : Z) (tiles : list tile) (venue : R * R) (t : tile) :
  convert_coords_to_tile (snd venue) (fst venue) zoom = Ok t ->
  let min_coords := convert_point_to_coords (IZR (fst t)) (IZR (snd t + 1)) zoom in
  let max_coords := convert_point_to_coords (IZR (fst t + 1)) (IZR (snd t)) zoom in
  let pixel := scaled min_coords max_coords TILE_RESOLUTION TILE_RESOLUTION venue in
  locate_venue zoom d tiles venue
    = Ok (add_neighbors (fst t) (snd t) (fst pixel) (snd pixel) d
            (append_if_new t tiles)).
Proof.
  intros Ht min_coords max_coords pixel. unfold locate_venue. rewrite Ht.
  cbn [rbind]. fold min_coords max_coords.
  destruct (@box_extent (fst t) (fst t + 1) (snd t) (snd t + 1) zoom) as [H1 H2];
    try lia.
  rewrite normalize_ok by assumption. reflexivity.
Qed.

(** With every venue strictly between the poles, the loop over the venues
    ends normally; it keeps the tiles it had, keeps them distinct, and
    adds the tile of each venue. *)
Lemma locate_tiles_ok (zoom d : Z) (pts : list (R * R)) :
  (forall p, In p pts -> -90 < snd p < 90) ->
  forall tiles, exists tiles',
    locate_tiles zoom d tiles pts = Ok tiles' /\
    (NoDup tiles -> NoDup tiles') /\
    (forall t, In t tiles -> In t tiles') /\
    (pts <> [] -> tiles' <> []).
Proof.
  induction pts as [| venue pts IH]; intros Hlat tiles.
  - exists tiles. repeat split; auto; congruence.
  - destruct (@convert_coords_to_tile_ok (snd venue) (fst venue) zoom) as [t Ht];
      [apply Hlat; left; reflexivity |].
    cbn [locate_tiles]. rewrite (@locate_venue_ok zoom d tiles venue t Ht). cbn [rbind].
    match goal with
    | |- context [locate_tiles _ _ ?tl pts] =>
        destruct (IH (fun p Hp => Hlat p (or_intror Hp)) tl)
          as (tiles' & -> & Hnd & Hsub & _); set (tiles1 := tl) in *
    end.
    exists tiles'. split; [reflexivity |]. split; [| split].
    + intros H. apply Hnd. apply add_neighbors_NoDup, append_if_new_NoDup, H.
    + intros u Hu. apply Hsub. apply add_neighbors_In. left.
      apply in_append_if_new. left; assumption.
    + intros _ E. assert (Hin : In t tiles').
      { apply Hsub. apply add_neighbors_In. left.
        apply in_append_if_new. right; reflexivity. }
      rewrite E in Hin. destruct Hin.
Qed.

(** ** One unit of city-mode work *)

Lemma bounding_box_ordered (tiles : list tile) (nw se : tile) :
  bounding_box tiles = Ok (nw, se) ->
  (fst nw <= fst se)%Z /\ (snd nw <= snd se)%Z.
Proof.
  intros H. destruct tiles as [| t tiles]; [discriminate |].
  destruct (@bounding_box_spec _ _ _ H t) as [Hx Hy]; [left; reflexivity |]. lia.
Qed.

Lemma sorted_NoDup (tiles : list tile) : NoDup tiles -> NoDup (sorted tiles).
Proof. apply Permutation_NoDup, sorted_perm. Qed.

Lemma sorted_nonempty (tiles : list tile) : tiles <> [] -> sorted tiles <> [].
Proof.
  intros H E. apply H. apply Permutation_nil. rewrite <- E.
  symmetry. apply sorted_perm.
Qed.

Section CityUnit.
Variable Img : Type.
Variable env : Env Img.

Lemma bind_In (A B : Type) (m : M Img A) (f : A -> M Img B) (ev : event Img) :
  In ev (fst (bind m f)) ->
  In ev (fst m) \/ exists a, snd m = Ok a /\ In ev (fst (f a)).
Proof.
  destruct m as [l [a | e]]; cbn.
  - destruct (f a) as [l' r] eqn:E. cbn. rewrite in_app_iff.
    intros [H | H]; [left; assumption |]. right. exists a. rewrite E. auto.
  - auto.
Qed.

(** With venues strictly between the poles, a city is rendered by one
    rasteriser call on the normalised points; its image is then cut. *)
Lemma render_city_ok (category zoom : Z) (params : zoom_parameters)
    (pts : list (R * R)) :
  pts <> [] ->
  (forall p, In p pts -> -90 < snd p < 90) ->
  exists tiles nw se,
    NoDup tiles /\ tiles <> [] /\ bounding_box tiles = Ok (nw, se) /\
    let num_x_tiles := (fst se - fst nw + 1)%Z in
    let num_y_tiles := (snd se - snd nw + 1)%Z in
    let size := (TILE_RESOLUTION * num_x_tiles, TILE_RESOLUTION * num_y_tiles)%Z in
    let min_coords := convert_point_to_coords (IZR (fst nw)) (IZR (snd se + 1)) zoom in
    let max_coords := convert_point_to_coords (IZR (fst se + 1)) (IZR (snd nw)) zoom in
    let normalized_pts := map (scaled min_coords max_coords (fst size) (snd size)) pts in
    render_city env category zoom params pts =
      bind (call (Render normalized_pts (opacity params) (dotsize params) size)
                 (heatmap env normalized_pts (opacity params) (dotsize params) size))
           (fun img => slice_canvas env category zoom img nw
                         num_x_tiles num_y_tiles tiles).
Proof.
  intros Hne Hlat.
  destruct (@locate_tiles_ok zoom (dotsize params) pts Hlat [])
    as (tiles0 & Hloc & Hnd & _ & Hne0).
  specialize (Hnd (NoDup_nil _)). specialize (Hne0 Hne).
  destruct (@bounding_box_nonempty (sorted tiles0)) as (nw & se & Hbox);
    [apply sorted_nonempty; assumption |].
  exists (sorted tiles0), nw, se.
  split; [apply sorted_NoDup; assumption |].
  split; [apply sorted_nonempty; assumption |].
  split; [assumption |].
  intros num_x_tiles num_y_tiles size min_coords max_coords normalized_pts.
  unfold render_city. rewrite Hloc, bind_lift_ok, Hbox, bind_lift_ok.
  cbn [fst snd]. fold num_x_tiles num_y_tiles min_coords max_coords.
  pose proof (bounding_box_ordered _ Hbox) as [Hx Hy].
  destruct (@box_extent (fst nw) (fst se + 1) (snd nw) (snd se + 1) zoom)
    as [H1 H2]; try lia.
  fold min_coords max_coords in H1, H2.
  rewrite normalize_all_ok, bind_lift_ok by assumption. reflexivity.
Qed.

(** Uploads carry the category and zoom of their unit. *)
Lemma slice_canvas_tagged (category zoom : Z) (img : Img) (nw : tile)
    (nx ny : Z) (tiles : list tile) c z x y i :
  In (Upload c z x y i) (fst (slice_canvas env category zoom img nw nx ny tiles)) ->
  c = category /\ z = zoom.
Proof.
  rewrite slice_canvas_log. cbn [fst]. rewrite in_map_iff.
  intros (ij & E & _). inversion E. auto.
Qed.

Lemma cluster_step_no_upload (params : zoom_parameters) (pts : list (R * R))
    c z x y i :
  ~ In (Upload c z x y i) (fst (cluster_step env params pts)).
Proof.
  unfold cluster_step. destruct (cluster params); [| cbn; tauto].
  intros H. apply bind_In in H. cbn in H.
  destruct H as [[H | []] | (labels & _ & H)]; [discriminate | destruct H].
Qed.

Lemma render_city_tagged (category zoom : Z) (params : zoom_parameters)
    (pts : list (R * R)) c z x y i :
  In (Upload c z x y i) (fst (render_city env category zoom params pts)) ->
  c = category /\ z = zoom.
Proof.
  unfold render_city. intros H.
  apply bind_In in H. destruct H as [[] | (tiles & _ & H)].
  apply bind_In in H. destruct H as [[] | (box & _ & H)].
  apply bind_In in H. destruct H as [[] | (npts & _ & H)].
  apply bind_In in H. destruct H as [[H | []] | (img & _ & H)]; [discriminate |].
  eapply slice_canvas_tagged; eassumption.
Qed.

Lemma generate_heatmap_by_city_tagged (category zoom : Z) (lat lng : R)
    (radius : Z) c z x y i :
  In (Upload c z x y i)
     (fst (generate_heatmap_by_city env category zoom lat lng radius)) ->
  c = category /\ z = zoom.
Proof.
  unfold generate_heatmap_by_city. intros H.
  apply bind_In in H. destruct H as [[H | []] | (rows & _ & H)]; [discriminate |].
  destruct (0 <? length _)%nat; [| destruct H].
  apply bind_In in H. destruct H as [[] | (params & _ & H)].
  apply bind_In in H. destruct H as [H | (pts & _ & H)].
  - exfalso. eapply cluster_step_no_upload; eassumption.
  - destruct (0 <? length pts)%nat; [| destruct H].
    eapply render_city_tagged; eassumption.
Qed.

End CityUnit.

(** ** Units without points *)

Lemma count_noise_all (labels : list Z) :
  (forall v, In v labels -> v = (-1)%Z) -> count_noise labels = length labels.
Proof.
  unfold count_noise. induction labels as [| v labels IH]; intros H; [reflexivity |].
  cbn. rewrite (H v) by (left; reflexivity). cbn.
  rewrite IH by (intros; apply H; right; assumption). reflexivity.
Qed.

Lemma cluster_step_log (Img : Type) (env : Env Img) (params : zoom_parameters)
    (pts : list (R * R)) :
  fst (cluster_step env params pts)
    = if cluster params
      then [Fit (cluster_epsilon params / kms_per_radian)
                (cluster_neighbors params) (np_radians pts)]
      else [].
Proof.
  unfold cluster_step. destruct (cluster params); [| reflexivity].
  destruct (dbscan_labels env _ _ _) as [labels | e]; [| reflexivity].
  rewrite bind_call_ok. reflexivity.
Qed.

(** C9: a unit whose query returns no row, or whose points are all removed
    by the density filter (as they are when every label is -1), ends
    normally after the query and the clustering call: the rasteriser is
    not called, nothing is uploaded and nothing is raised. *)
Theorem unit_without_points_is_skipped (Img : Type) (env : Env Img)
    (category zoom : Z) (lat lng : R) (radius : Z) :
  (select_within env category lng lat radius = Ok [] ->
   generate_heatmap_by_city env category zoom lat lng radius
     = ([Query_within category lng lat radius], Ok tt)) /\
  (forall rows params,
     select_within env category lng lat radius = Ok rows ->
     rows <> [] ->
     dict_get ZOOM_PARAMETERS zoom = Ok params ->
     let pts := map (fun row => (snd row, fst row)) rows in
     density_filter env params pts = Ok [] ->
     generate_heatmap_by_city env category zoom lat lng radius
       = ([Query_within category lng lat radius;
           Fit (cluster_epsilon params / kms_per_radian)
               (cluster_neighbors params) (np_radians pts)], Ok tt)) /\
  (forall params pts labels,
     cluster params = true ->
     dbscan_labels env (cluster_epsilon params / kms_per_radian)
       (cluster_neighbors params) (np_radians pts) = Ok labels ->
     length labels = length pts ->
     (forall v, In v labels -> v = (-1)%Z) ->
     density_filter env params pts = Ok []).
Proof.
  split; [| split].
  - intros H. unfold generate_heatmap_by_city. rewrite H. reflexivity.
  - intros rows params Hrows Hne Hparams pts Hfilter.
    unfold generate_heatmap_by_city. rewrite Hrows, bind_call_ok.
    fold pts. destruct pts as [| p pts'] eqn:Epts.
    { destruct rows; [congruence | discriminate Epts]. }
    rewrite <- Epts in *. replace (0 <? length pts)%nat with true
      by (rewrite Epts; reflexivity).
    rewrite Hparams, bind_lift_ok.
    unfold density_filter in Hfilter.
    pose proof (cluster_step_log env params pts) as Hlog.
    destruct (cluster params) eqn:Hc.
    + rewrite (@bind_ok_log _ _ _ _ _ [] Hfilter). rewrite Hlog. reflexivity.
    + unfold cluster_step in Hfilter. rewrite Hc in Hfilter. cbn in Hfilter.
      rewrite Epts in Hfilter. discriminate Hfilter.
  - intros params pts labels Hc Hfit Hlen Hall.
    unfold density_filter, cluster_step. rewrite Hc, Hfit, bind_call_ok.
    cbn [lift fst snd].
    destruct (@remove_noise_total _ point_eq_dec labels pts) as (res & Hres & Hl);
      [lia |].
    rewrite Hres. rewrite count_noise_all, Hlen, Nat.sub_diag in Hl by assumption.
    destruct res; [reflexivity | discriminate Hl].
Qed.

(** ** Runs over the (category, zoom) matrix *)

Section Runs.
Variable Img : Type.

Lemma bind_assoc (A B C : Type) (m : M Img A) (f : A -> M Img B) (g : B -> M Img C) :
  bind (bind m f) g = bind m (fun a => bind (f a) g).
Proof.
  destruct m as [l [a | e]]; cbn; [| reflexivity].
  destruct (f a) as [l' [b | e']]; cbn; [| reflexivity].
  destruct (g b) as [l'' r]. rewrite app_assoc. reflexivity.
Qed.

Lemma bind_ret_r (A : Type) (m : M Img A) : bind m (fun a => ret a) = m.
Proof. destruct m as [l [a | e]]; cbn; rewrite ?app_nil_r; reflexivity. Qed.

Lemma bind_ret_tt (m : M Img unit) : bind m (fun _ => ret tt) = m.
Proof. destruct m as [l [[] | e]]; cbn; rewrite ?app_nil_r; reflexivity. Qed.

Lemma bind_ext (A B : Type) (m : M Img A) (f g : A -> M Img B) :
  (forall a, f a = g a) -> bind m f = bind m g.
Proof. intros H. destruct m as [l [a | e]]; cbn; [rewrite H |]; reflexivity. Qed.

Lemma for_each_app (X : Type) (l1 l2 : list X) (body : X -> M Img unit) :
  for_each (l1 ++ l2) body = bind (for_each l1 body) (fun _ => for_each l2 body).
Proof.
  induction l1 as [| x l1 IH]; cbn [app for_each].
  - rewrite bind_ret. reflexivity.
  - rewrite bind_assoc. apply bind_ext. intros _. exact IH.
Qed.

Lemma for_each_map (X Y : Type) (h : X -> Y) (l : list X) (body : Y -> M Img unit) :
  for_each (map h l) body = for_each l (fun x => body (h x)).
Proof.
  induction l as [| x l IH]; cbn [map for_each]; [reflexivity |].
  apply bind_ext. intros _. exact IH.
Qed.

(** Two nested loops are one loop over the pairs, whatever the bodies do. *)
Lemma for_each_pairs (X Y : Type) (l1 : list X) (l2 : list Y)
    (f : X -> Y -> M Img unit) :
  for_each l1 (fun x => for_each l2 (f x))
    = for_each (list_prod l1 l2) (fun xy => f (fst xy) (snd xy)).
Proof.
  induction l1 as [| x l1 IH]; cbn [for_each list_prod]; [reflexivity |].
  rewrite for_each_app, for_each_map. cbn [fst snd].
  apply bind_ext. intros _. exact IH.
Qed.

Lemma flat_map_nil (X Y : Type) (l : list X) :
  flat_map (fun _ : X => @nil Y) l = [].
Proof. induction l; cbn; auto. Qed.

Lemma flat_map_app_perm (X Y : Type) (a b : X -> list Y) (l : list X) :
  Permutation (flat_map (fun x => a x ++ b x) l) (flat_map a l ++ flat_map b l).
Proof.
  induction l as [| x l IH]; cbn; [constructor |].
  rewrite IH, <- !app_assoc. apply Permutation_app_head.
  rewrite !app_assoc. apply Permutation_app_tail. apply Permutation_app_comm.
Qed.

Lemma flat_map_swap_perm (X Y E : Type) (g : X -> Y -> list E)
    (l1 : list X) (l2 : list Y) :
  Permutation (flat_map (fun x => flat_map (fun y => g x y) l2) l1)
              (flat_map (fun y => flat_map (fun x => g x y) l1) l2).
Proof.
  induction l1 as [| x l1 IH]; cbn [flat_map].
  - rewrite flat_map_nil. constructor.
  - rewrite flat_map_app_perm. apply Permutation_app_head. exact IH.
Qed.

(** When the loops in one nesting order end normally, so do the loops in
    the other order, and the two records of effects are rearrangements
    of each other. *)
Lemma loops_commute (X Y : Type) (l1 : list X) (l2 : list Y)
    (f : X -> Y -> M Img unit) :
  snd (for_each l1 (fun x => for_each l2 (f x))) = Ok tt ->
  snd (for_each l2 (fun y => for_each l1 (fun x => f x y))) = Ok tt /\
  Permutation (fst (for_each l1 (fun x => for_each l2 (f x))))
              (fst (for_each l2 (fun y => for_each l1 (fun x => f x y)))).
Proof.
  intros H.
  assert (Hall : forall x y, In x l1 -> In y l2 -> snd (f x y) = Ok tt).
  { intros x y Hx Hy.
    apply (for_each_ok_inv _ _ (for_each_ok_inv _ _ H x Hx) y Hy). }
  rewrite (for_each_nested l1 l2 f) by assumption.
  rewrite (for_each_nested l2 l1 (fun y x => f x y)) by auto.
  cbn [fst snd]. split; [reflexivity |].
  assert (Hflat : forall (A B : Type) (la : list A) (lb : list B) (g : A -> B -> list (event Img)),
             flat_map (fun ab => g (fst ab) (snd ab)) (list_prod la lb)
             = flat_map (fun a => flat_map (fun b => g a b) lb) la).
  { intros A B la lb g. induction la as [| a la IH]; [reflexivity |].
    cbn [list_prod flat_map]. rewrite flat_map_app, IH. f_equal.
    clear. induction lb as [| b lb IH]; cbn; [reflexivity | f_equal; exact IH]. }
  rewrite (Hflat _ _ l1 l2 (fun x y => fst (f x y))).
  rewrite (Hflat _ _ l2 l1 (fun y x => fst (f x y))).
  apply flat_map_swap_perm.
Qed.

Variable env : Env Img.
Variables lat lng : R.

(** The fallback: the first attempt, and after a failure one retry with
    the radius reduced by 2500, whose outcome is the unit's. *)
Lemma city_unit_spec (cat z : Z) :
  let first := generate_heatmap_by_city env cat z lat lng RADIUS in
  let retry := generate_heatmap_by_city env cat z lat lng (RADIUS - 2500) in
  city_unit env cat z lat lng
    = match snd first with
      | Ok _ => first
      | Raise _ => (fst first ++ fst retry, snd retry)
      end.
Proof.
  cbn zeta. unfold city_unit, try_except.
  destruct (generate_heatmap_by_city env cat z lat lng RADIUS) as [l [[] | e]];
    [reflexivity |].
  destruct (generate_heatmap_by_city env cat z lat lng (RADIUS - 2500));
    reflexivity.
Qed.

Lemma city_run_as_loop (run_method : Z) :
  run_method = RUN_BY_CATEGORY \/ run_method = RUN_BY_ZOOM ->
  generate_all_heatmaps_by_city env lat lng run_method
    = for_each (units_in_order run_method)
               (fun cz => city_unit env (fst cz) (snd cz) lat lng).
Proof.
  intros [-> | ->]; unfold generate_all_heatmaps_by_city, units_in_order;
    cbn [Z.eqb RUN_BY_CATEGORY RUN_BY_ZOOM Pos.eqb].
  - rewrite for_each_pairs. reflexivity.
  - rewrite for_each_pairs, for_each_map. reflexivity.
Qed.

Lemma tile_run_as_loop (run_method : Z) :
  run_method = RUN_BY_CATEGORY \/ run_method = RUN_BY_ZOOM ->
  generate_all_heatmaps_by_tile env lat lng run_method
    = for_each (units_in_order run_method)
               (fun cz => generate_heatmap_by_tile env (fst cz) (snd cz) lat lng).
Proof.
  intros [-> | ->]; unfold generate_all_heatmaps_by_tile, units_in_order;
    cbn [Z.eqb RUN_BY_CATEGORY RUN_BY_ZOOM Pos.eqb].
  - rewrite for_each_pairs. reflexivity.
  - rewrite for_each_pairs, for_each_map. reflexivity.
Qed.

End Runs.

(** C3 (as amended): a unit whose first attempt raises is retried exactly
    once, with the radius reduced by 2500, and the retry's outcome is the
    unit's outcome; the units of a run are executed in order; when a unit's
    retry raises too, the run ends there with that exception and the
    remaining units are not run; when no unit raises twice, every unit
    runs. *)
Theorem city_run_retries_once_then_stops (Img : Type) (env : Env Img) (lat lng : R) :
  let first c z := generate_heatmap_by_city env c z lat lng RADIUS in
  let retry c z := generate_heatmap_by_city env c z lat lng (RADIUS - 2500) in
  let work cz := city_unit env (fst cz) (snd cz) lat lng in
  (forall c z,
     city_unit env c z lat lng
       = match snd (first c z) with
         | Ok _ => first c z
         | Raise _ => (fst (first c z) ++ fst (retry c z), snd (retry c z))
         end) /\
  (forall run_method pre u post e,
     run_method = RUN_BY_CATEGORY \/ run_method = RUN_BY_ZOOM ->
     units_in_order run_method = pre ++ u :: post ->
     (forall v, In v pre -> snd (work v) = Ok tt) ->
     snd (work u) = Raise e ->
     generate_all_heatmaps_by_city env lat lng run_method
       = (flat_map (fun v => fst (work v)) pre ++ fst (work u), Raise e)) /\
  (forall run_method,
     run_method = RUN_BY_CATEGORY \/ run_method = RUN_BY_ZOOM ->
     (forall v, In v (units_in_order run_method) -> snd (work v) = Ok tt) ->
     generate_all_heatmaps_by_city env lat lng run_method
       = (flat_map (fun v => fst (work v)) (units_in_order run_method), Ok tt)).
Proof.
  intros first retry work. split; [| split].
  - intros c z. apply city_unit_spec.
  - intros run_method pre u post e Hm Hunits Hpre Hu.
    rewrite city_run_as_loop by assumption. rewrite Hunits.
    apply for_each_stops; assumption.
  - intros run_method Hm Hall.
    rewrite city_run_as_loop by assumption.
    apply for_each_all_ok; assumption.
Qed.

(** ** sklearn's haversine metric *)

Lemma haversine_refl (p : R * R) : haversine p p = 0.
Proof.
  unfold haversine. rewrite !Rminus_diag.
  replace (0 / 2) with 0 by lra. rewrite sin_0, Rsqr_0, Rmult_0_r, Rplus_0_r.
  rewrite sqrt_0, asin_0. lra.
Qed.

Lemma within_refl (eps : R) (p : R * R) : 0 <= eps -> within eps p p = true.
Proof.
  intros H. unfold within. rewrite haversine_refl.
  destruct (Rle_dec 0 eps); [reflexivity | contradiction].
Qed.

(** Two samples with the same second component are as far apart as their
    first components. *)
Lemma haversine_same_snd (x y : R * R) :
  snd x = snd y -> - PI <= fst x - fst y <= PI ->
  haversine x y = Rabs (fst x - fst y).
Proof.
  intros Hs [Hlo Hhi]. unfold haversine. rewrite Hs, Rminus_diag.
  replace (0 / 2) with 0 by lra. rewrite sin_0, Rsqr_0, Rmult_0_r, Rplus_0_r.
  rewrite sqrt_Rsqr_abs. set (a := (fst x - fst y) / 2).
  assert (Ha : - (PI / 2) <= a <= PI / 2) by (unfold a; lra).
  destruct (Rle_dec 0 a) as [Hpos | Hneg].
  - rewrite (Rabs_right (sin a)) by (apply Rle_ge, sin_ge_0; lra).
    rewrite asin_sin by assumption.
    rewrite Rabs_right by (unfold a in Hpos; lra). unfold a; lra.
  - assert (Hsin : 0 <= sin (- a)) by (apply sin_ge_0; lra).
    rewrite sin_neg in Hsin.
    rewrite (Rabs_left1 (sin a)) by lra. rewrite <- sin_neg.
    rewrite asin_sin by lra.
    rewrite Rabs_left1 by (unfold a in Hneg; lra). unfold a; lra.
Qed.

(** ** The example environment *)

Lemma zoom_profile (z : Z) :
  (10 <= z <= 16)%Z ->
  exists params,
    dict_get ZOOM_PARAMETERS z = Ok params /\ cluster params = true /\
    cluster_neighbors params = 4%Z /\ 0 <= cluster_epsilon params / kms_per_radian.
Proof.
  intros H.
  assert (Hz : (z = 10 \/ z = 11 \/ z = 12 \/ z = 13 \/ z = 14 \/ z = 15 \/ z = 16)%Z)
    by lia.
  decompose [or] Hz; subst z; eexists; (split; [reflexivity |]);
    cbn [cluster cluster_neighbors cluster_epsilon]; unfold kms_per_radian;
    (split; [reflexivity |]); (split; [reflexivity |]); lra.
Qed.

(** Four samples at one place, four required: nobody is noise. *)
Lemma noise_mask_four (eps : R) (p : R * R) :
  0 <= eps -> noise_mask eps 4 [p; p; p; p] = [false; false; false; false].
Proof.
  intros H. unfold noise_mask, is_noise, is_core.
  cbn [map existsb filter]. rewrite (within_refl p H). reflexivity.
Qed.

Section ExampleEnv.
Variable broken : Z -> bool.
Variables lat lng : R.

Let env := example_env broken.
Let pts := map (fun row : R * R => (snd row, fst row)) venues_at_center.

Lemma example_cluster_step (params : zoom_parameters) :
  cluster params = true -> cluster_neighbors params = 4%Z ->
  0 <= cluster_epsilon params / kms_per_radian ->
  cluster_step env params pts
    = ([Fit (cluster_epsilon params / kms_per_radian) 4 (np_radians pts)], Ok pts).
Proof.
  intros Hc Hn He. unfold cluster_step. rewrite Hc, Hn.
  cbn [dbscan_labels env example_env]. unfold dbscan_reference.
  unfold pts, venues_at_center. cbn [map np_radians fst snd].
  rewrite noise_mask_four by assumption. reflexivity.
Qed.

(** A unit of a working category ends normally and uploads a tile under
    its own category and zoom. *)
Lemma example_unit_ok (c z radius : Z) :
  broken c = false -> (10 <= z <= 16)%Z ->
  snd (generate_heatmap_by_city env c z lat lng radius) = Ok tt /\
  exists x y img,
    In (Upload c z x y img) (fst (generate_heatmap_by_city env c z lat lng radius)).
Proof.
  intros Hb Hz. destruct (zoom_profile Hz) as (params & Hp & Hc & Hn & He).
  unfold generate_heatmap_by_city.
  cbn [select_within env example_env]. rewrite Hb, bind_call_ok.
  fold pts. replace (0 <? length pts)%nat with true by reflexivity.
  rewrite Hp, bind_lift_ok, (example_cluster_step _ Hc Hn He).
  rewrite (@bind_ok_log _ _ _ _ _ pts) by reflexivity.
  replace (0 <? length pts)%nat with true by reflexivity.
  destruct (@render_city_ok picture env c z params pts)
    as (tiles & nw & se & Hnd & Hne & Hbox & Hrender).
  { discriminate. }
  { intros p Hp'. unfold pts, venues_at_center in Hp'. cbn in Hp'.
    decompose [or] Hp'; subst; cbn; try lra; contradiction. }
  cbn zeta in Hrender. rewrite Hrender. clear Hrender.
  cbn [heatmap env example_env]. rewrite bind_call_ok, slice_canvas_log.
  cbn [fst snd]. split; [reflexivity |].
  destruct tiles as [| t tiles']; [congruence |].
  pose proof (sliced_tiles_perm Hnd Hbox) as Hperm.
  assert (Hin : In t (t :: tiles')) by (left; reflexivity).
  apply (Permutation_in _ (Permutation_sym Hperm)) in Hin.
  apply in_map_iff in Hin. destruct Hin as (ij & _ & Hij).
  eexists _, _, _. right. cbn [app]. right. right.
  apply in_map_iff. exists ij. split; [reflexivity | exact Hij].
Qed.

Lemma example_unit_broken (c z radius : Z) :
  broken c = true ->
  generate_heatmap_by_city env c z lat lng radius
    = ([Query_within c lng lat radius], Raise ExternalError).
Proof.
  intros Hb. unfold generate_heatmap_by_city.
  cbn [select_within env example_env]. rewrite Hb. reflexivity.
Qed.

Lemma example_city_unit_ok (c z : Z) :
  broken c = false -> (10 <= z <= 16)%Z ->
  snd (city_unit env c z lat lng) = Ok tt /\
  exists x y img, In (Upload c z x y img) (fst (city_unit env c z lat lng)).
Proof.
  intros Hb Hz. rewrite city_unit_spec.
  destruct (example_unit_ok RADIUS Hb Hz) as [Hok Hup].
  cbn zeta. fold env. rewrite Hok. split; assumption.
Qed.

Lemma example_city_unit_broken (c z : Z) :
  broken c = true ->
  city_unit env c z lat lng
    = ([Query_within c lng lat RADIUS; Query_within c lng lat (RADIUS - 2500)],
       Raise ExternalError).
Proof.
  intros Hb. rewrite city_unit_spec. cbn zeta. fold env.
  rewrite !example_unit_broken by assumption. reflexivity.
Qed.

End ExampleEnv.

Lemma units_in_range (run_method : Z) (v : Z * Z) :
  In v (units_in_order run_method) ->
  (1 <= fst v <= 4)%Z /\ (10 <= snd v <= 16)%Z.
Proof.
  unfold units_in_order, categories, zoom_levels.
  change ZOOM_STEP with 1%Z. change (MAX_ZOOM + 1)%Z with 17%Z.
  change MIN_ZOOM with 10%Z.
  destruct (run_method =? RUN_BY_CATEGORY)%Z.
  - destruct v as [c z]. rewrite in_prod_iff, !PyFacts.in_range_step1. cbn. lia.
  - rewrite in_map_iff. intros ([z c] & <- & H).
    apply in_prod_iff in H. rewrite !PyFacts.in_range_step1 in H. cbn. lia.
Qed.

Lemma city_unit_tagged (Img : Type) (env : Env Img) (cat zm : Z) (lat lng : R)
    c z x y i :
  In (Upload c z x y i) (fst (city_unit env cat zm lat lng)) ->
  c = cat /\ z = zm.
Proof.
  rewrite city_unit_spec. cbn zeta.
  destruct (snd (generate_heatmap_by_city env cat zm lat lng RADIUS)).
  - apply generate_heatmap_by_city_tagged.
  - cbn [fst]. rewrite in_app_iff.
    intros [H | H]; eapply generate_heatmap_by_city_tagged; eassumption.
Qed.

(** With category 3 broken, the category-major run is the fourteen units of
    categories 1 and 2 followed by the two failed attempts of unit (3, 10). *)
Lemma broken_run_by_category (lat lng : R) :
  let env := example_env (Z.eqb 3) in
  let work cz := city_unit env (fst cz) (snd cz) lat lng in
  generate_all_heatmaps_by_city env lat lng RUN_BY_CATEGORY
    = (flat_map (fun v => fst (work v)) (firstn 14 (units_in_order RUN_BY_CATEGORY))
         ++ [Query_within 3 lng lat RADIUS; Query_within 3 lng lat (RADIUS - 2500)],
       Raise ExternalError).
Proof.
  intros env work. rewrite city_run_as_loop by (left; reflexivity).
  change (units_in_order RUN_BY_CATEGORY)
    with (firstn 14 (units_in_order RUN_BY_CATEGORY)
            ++ (3, 10)%Z :: skipn 15 (units_in_order RUN_BY_CATEGORY)) at 1.
  rewrite for_each_stops with (e := ExternalError).
  - cbn [fst snd]. unfold env. rewrite example_city_unit_broken by reflexivity.
    reflexivity.
  - intros v Hv. vm_compute in Hv.
    decompose [or] Hv; try contradiction; subst v;
      apply example_city_unit_ok; (reflexivity || (cbn [fst snd]; lia)).
  - cbn [fst snd]. unfold env. rewrite example_city_unit_broken by reflexivity.
    reflexivity.
Qed.

(** In zoom-major order the same failure comes after two units only. *)
Lemma broken_run_by_zoom (lat lng : R) :
  let env := example_env (Z.eqb 3) in
  let work cz := city_unit env (fst cz) (snd cz) lat lng in
  generate_all_heatmaps_by_city env lat lng RUN_BY_ZOOM
    = (flat_map (fun v => fst (work v)) [(1, 10)%Z; (2, 10)%Z]
         ++ [Query_within 3 lng lat RADIUS; Query_within 3 lng lat (RADIUS - 2500)],
       Raise ExternalError).
Proof.
  intros env work. rewrite city_run_as_loop by (right; reflexivity).
  change (units_in_order RUN_BY_ZOOM)
    with ([(1, 10)%Z; (2, 10)%Z]
            ++ (3, 10)%Z :: skipn 3 (units_in_order RUN_BY_ZOOM)) at 1.
  rewrite for_each_stops with (e := ExternalError).
  - cbn [fst snd]. unfold env. rewrite example_city_unit_broken by reflexivity.
    reflexivity.
  - intros v Hv. vm_compute in Hv.
    decompose [or] Hv; try contradiction; subst v;
      apply example_city_unit_ok; (reflexivity || (cbn [fst snd]; lia)).
  - cbn [fst snd]. unfold env. rewrite example_city_unit_broken by reflexivity.
    reflexivity.
Qed.

(** C3 (as stated) fails when the queries of category 3 raise: unit (3, 10)
    fails on both attempts, the run ends with the exception, and no tile of
    category 4 is ever uploaded although its queries would succeed. *)
Lemma failed_unit_stops_run :
  let env := example_env (Z.eqb 3) in
  let run := generate_all_heatmaps_by_city env 40.74 (-74) RUN_BY_CATEGORY in
  snd run = Raise ExternalError /\
  (forall z x y img, ~ In (Upload 4 z x y img) (fst run)) /\
  snd (city_unit env 4 10 40.74 (-74)) = Ok tt.
Proof.
  cbn zeta. rewrite broken_run_by_category. cbn [fst snd].
  split; [reflexivity |]. split.
  - intros z x y img H. apply in_app_or in H. destruct H as [H | H].
    + apply in_flat_map in H. destruct H as (v & Hv & H).
      apply city_unit_tagged in H. destruct H as [Hc _].
      vm_compute in Hv.
      decompose [or] Hv; try contradiction; subst v; discriminate Hc.
    + cbn in H. decompose [or] H; try contradiction; discriminate.
  - apply example_city_unit_ok; [reflexivity | lia].
Qed.

Lemma city_run_retries_once_then_stops_witness :
  let env := example_env (Z.eqb 3) in
  let work cz := city_unit env (fst cz) (snd cz) 40.74 (-74) in
  generate_all_heatmaps_by_city env 40.74 (-74) RUN_BY_ZOOM
    = (flat_map (fun v => fst (work v)) [(1, 10)%Z; (2, 10)%Z] ++ fst (work (3, 10)%Z),
       Raise ExternalError).
Proof.
  intros env work.
  destruct (city_run_retries_once_then_stops env 40.74 (-74)) as (_ & Hstop & _).
  apply Hstop with (post := skipn 3 (units_in_order RUN_BY_ZOOM)).
  - right; reflexivity.
  - reflexivity.
  - intros v Hv. vm_compute in Hv.
    decompose [or] Hv; try contradiction; subst v;
      apply example_city_unit_ok; (reflexivity || (cbn [fst snd]; lia)).
  - cbn [fst snd]. unfold env. rewrite example_city_unit_broken by reflexivity.
    reflexivity.
Defined.

(** ** The two orders of a run *)

Section Orders.
Variable Img : Type.
Variable work : Z -> Z -> M Img unit.

Let by_category : M Img unit :=
  for_each categories (fun cat => for_each zoom_levels (fun z => work cat z)).
Let by_zoom : M Img unit :=
  for_each zoom_levels (fun z => for_each categories (fun cat => work cat z)).

(** If either order ends normally, both do, with the same effects up to
    their order. *)
Lemma orders_agree :
  snd by_category = Ok tt \/ snd by_zoom = Ok tt ->
  snd by_category = Ok tt /\ snd by_zoom = Ok tt /\
  Permutation (fst by_category) (fst by_zoom).
Proof.
  intros [H | H].
  - destruct (loops_commute categories zoom_levels work H) as [H' P]. auto.
  - destruct (loops_commute zoom_levels categories (fun z cat => work cat z) H)
      as [H' P].
    split; [exact H' |]. split; [exact H |]. symmetry. exact P.
Qed.

End Orders.

(** C2 (as amended): in city mode and in tile mode, if the category-major
    run or the zoom-major run ends normally (no unit fails on both its
    attempts in city mode, no unit fails in tile mode), then both end
    normally, their effects are rearrangements of each other, and they
    upload the same images under the same (category, zoom, x, y) keys. *)
Theorem complete_runs_agree (Img : Type) (env : Env Img) (lat lng : R) :
  let by_city m := generate_all_heatmaps_by_city env lat lng m in
  let by_tile m := generate_all_heatmaps_by_tile env lat lng m in
  (snd (by_city RUN_BY_CATEGORY) = Ok tt \/ snd (by_city RUN_BY_ZOOM) = Ok tt ->
   snd (by_city RUN_BY_CATEGORY) = Ok tt /\ snd (by_city RUN_BY_ZOOM) = Ok tt /\
   Permutation (fst (by_city RUN_BY_CATEGORY)) (fst (by_city RUN_BY_ZOOM)) /\
   forall c z x y img,
     In (Upload c z x y img) (fst (by_city RUN_BY_CATEGORY))
     <-> In (Upload c z x y img) (fst (by_city RUN_BY_ZOOM))) /\
  (snd (by_tile RUN_BY_CATEGORY) = Ok tt \/ snd (by_tile RUN_BY_ZOOM) = Ok tt ->
   snd (by_tile RUN_BY_CATEGORY) = Ok tt /\ snd (by_tile RUN_BY_ZOOM) = Ok tt /\
   Permutation (fst (by_tile RUN_BY_CATEGORY)) (fst (by_tile RUN_BY_ZOOM)) /\
   forall c z x y img,
     In (Upload c z x y img) (fst (by_tile RUN_BY_CATEGORY))
     <-> In (Upload c z x y img) (fst (by_tile RUN_BY_ZOOM))).
Proof.
  intros by_city by_tile. split; intros H.
  - destruct (orders_agree (fun cat z => city_unit env cat z lat lng) H)
      as (H1 & H2 & P).
    split; [exact H1 |]. split; [exact H2 |]. split; [exact P |].
    intros c z x y img. split; apply Permutation_in; [| symmetry]; exact P.
  - destruct (orders_agree (fun cat z => generate_heatmap_by_tile env cat z lat lng) H)
      as (H1 & H2 & P).
    split; [exact H1 |]. split; [exact H2 |]. split; [exact P |].
    intros c z x y img. split; apply Permutation_in; [| symmetry]; exact P.
Qed.

(** C2 (as stated) fails when the queries of category 3 raise: unit (3, 10)
    ends the category-major run after all of categories 1 and 2, and the
    zoom-major run after units (1, 10) and (2, 10); a tile of category 1 at
    zoom 11 is uploaded by the first run and not by the second. *)
Lemma failed_unit_orders_differ :
  let env := example_env (Z.eqb 3) in
  let by_category := generate_all_heatmaps_by_city env 40.74 (-74) RUN_BY_CATEGORY in
  let by_zoom := generate_all_heatmaps_by_city env 40.74 (-74) RUN_BY_ZOOM in
  exists x y img,
    In (Upload 1 11 x y img) (fst by_category) /\
    ~ In (Upload 1 11 x y img) (fst by_zoom).
Proof.
  cbn zeta. rewrite broken_run_by_category, broken_run_by_zoom. cbn [fst].
  destruct (@example_city_unit_ok (Z.eqb 3) 40.74 (-74) 1 11)
    as [_ (x & y & img & Hin)]; [reflexivity | lia |].
  exists x, y, img. split.
  - apply in_or_app. left. apply in_flat_map. exists (1, 11)%Z.
    split; [vm_compute; tauto | exact Hin].
  - intros H. apply in_app_or in H. destruct H as [H | H].
    + apply in_flat_map in H. destruct H as (v & Hv & H).
      apply city_unit_tagged in H. destruct H as [_ Hz].
      cbn in Hv. decompose [or] Hv; try contradiction; subst v; discriminate Hz.
    + cbn in H. decompose [or] H; try contradiction; discriminate.
Qed.

(** ** A run that completes *)

Section CompleteRun.
Variables lat lng : R.

Let env := example_env (fun _ => false).
Let pts := map (fun row : R * R => (snd row, fst row)) venues_at_center.

Lemma example_generate_tile_ok (c z x y : Z) :
  (10 <= z <= 16)%Z -> snd (generate_tile env c z x y) = Ok tt.
Proof.
  intros Hz. destruct (zoom_profile Hz) as (params & Hp & Hc & Hn & He).
  unfold generate_tile. cbn [select_envelope env example_env].
  rewrite bind_call_ok. fold pts.
  replace (0 <? length pts)%nat with true by reflexivity.
  rewrite Hp, bind_lift_ok.
  unfold env, pts. rewrite (example_cluster_step _ _ Hc Hn He).
  rewrite (@bind_ok_log _ _ _ _ _ pts) by reflexivity.
  destruct (@box_extent x (x + 1) y (y + 1) z) as [H1 H2]; try lia.
  rewrite normalize_all_ok, bind_lift_ok by assumption.
  reflexivity.
Qed.

Lemma example_venue_tiles (z : Z) :
  exists t, venue_tiles z [] venues_at_center = Ok [t].
Proof.
  destruct (@convert_coords_to_tile_ok 40.74 (-74) z) as [t Ht]; [lra |].
  exists t. unfold venues_at_center. cbn [venue_tiles fst snd].
  assert (E : append_if_new t [t] = [t]).
  { unfold append_if_new.
    replace (tile_in t [t]) with true; [reflexivity |].
    symmetry. apply tile_in_In. left; reflexivity. }
  rewrite Ht. cbn [rbind]. change (append_if_new t []) with [t].
  rewrite !E. reflexivity.
Qed.

Lemma example_tile_unit_ok (c z : Z) :
  (10 <= z <= 16)%Z -> snd (generate_heatmap_by_tile env c z lat lng) = Ok tt.
Proof.
  intros Hz. unfold generate_heatmap_by_tile.
  cbn [select_within env example_env]. rewrite bind_call_ok.
  destruct (example_venue_tiles z) as [t ->]. rewrite bind_lift_ok.
  cbn [snd sorted fold_right insert_sorted for_each].
  rewrite bind_ret_tt. apply example_generate_tile_ok. assumption.
Qed.

Lemma example_city_run_completes :
  snd (generate_all_heatmaps_by_city env lat lng RUN_BY_CATEGORY) = Ok tt.
Proof.
  rewrite city_run_as_loop by (left; reflexivity).
  rewrite for_each_all_ok; [reflexivity |].
  intros v Hv. apply units_in_range in Hv.
  apply example_city_unit_ok; [reflexivity | tauto].
Qed.

Lemma example_tile_run_completes :
  snd (generate_all_heatmaps_by_tile env lat lng RUN_BY_CATEGORY) = Ok tt.
Proof.
  rewrite tile_run_as_loop by (left; reflexivity).
  rewrite for_each_all_ok; [reflexivity |].
  intros v Hv. apply units_in_range in Hv.
  apply example_tile_unit_ok. tauto.
Qed.

End CompleteRun.

Lemma complete_runs_agree_witness :
  let env := example_env (fun _ => false) in
  let by_city m := generate_all_heatmaps_by_city env 40.74 (-74) m in
  let by_tile m := generate_all_heatmaps_by_tile env 40.74 (-74) m in
  Permutation (fst (by_city RUN_BY_CATEGORY)) (fst (by_city RUN_BY_ZOOM)) /\
  Permutation (fst (by_tile RUN_BY_CATEGORY)) (fst (by_tile RUN_BY_ZOOM)).
Proof.
  intros env by_city by_tile.
  destruct (complete_runs_agree env 40.74 (-74)) as [Hcity Htile].
  split.
  - apply Hcity. left. apply example_city_run_completes.
  - apply Htile. left. apply example_tile_run_completes.
Defined.

(** ** The noise-removal loop on repeated points *)

Section RepeatedPoints.
Variable A : Type.
Variable A_eq_dec : forall a b : A, {a = b} + {a <> b}.

(** The loop only looks at whether a label is -1. *)
Lemma remove_noise_loop_mask (items1 items2 : list (nat * Z)) :
  map (fun iv => (fst iv, (snd iv =? -1)%Z)) items1
    = map (fun iv => (fst iv, (snd iv =? -1)%Z)) items2 ->
  forall pts : list A,
    remove_noise_loop A_eq_dec items1 pts = remove_noise_loop A_eq_dec items2 pts.
Proof.
  revert items2. induction items1 as [| [i1 v1] items1 IH];
    intros [| [i2 v2] items2] H pts; try discriminate; [reflexivity |].
  cbn in H. injection H as Hi Hv Hrest. subst i2. cbn [remove_noise_loop].
  rewrite Hv. destruct (v2 =? -1)%Z.
  - destruct (list_get pts i1); [| reflexivity]. cbn [rbind].
    destruct (list_remove A_eq_dec a pts); [| reflexivity]. cbn [rbind].
    apply IH. assumption.
  - apply IH. assumption.
Qed.

Lemma enumerate_mask (labels : list Z) :
  map (fun iv : nat * Z => (fst iv, (snd iv =? -1)%Z)) (enumerate labels)
    = combine (seq 0 (length labels)) (map (fun v => (v =? -1)%Z) labels).
Proof.
  unfold enumerate. generalize 0%nat.
  induction labels as [| v labels IH]; intros n; [reflexivity |].
  cbn. f_equal. apply IH.
Qed.

Lemma remove_noise_mask (labels1 labels2 : list Z) (pts : list A) :
  map (fun v => (v =? -1)%Z) labels1 = map (fun v => (v =? -1)%Z) labels2 ->
  remove_noise A_eq_dec labels1 pts = remove_noise A_eq_dec labels2 pts.
Proof.
  intros H. unfold remove_noise. apply remove_noise_loop_mask.
  rewrite !map_rev, !enumerate_mask. rewrite H.
  apply (f_equal (@length bool)) in H. rewrite !length_map in H. rewrite H.
  reflexivity.
Qed.

(** Noise at both ends of the list: the loop deletes the first noise point
    and then, instead of the last one, the first clustered point. *)
Lemma remove_noise_six (a b : A) :
  remove_noise A_eq_dec [-1; 0; 0; 0; 0; -1]%Z [a; b; b; b; b; a] = Ok [b; b; b; a].
Proof.
  unfold remove_noise. cbn.
  destruct (A_eq_dec a a); [| contradiction]. cbn.
  destruct (A_eq_dec b b); [| contradiction]. reflexivity.
Qed.

End RepeatedPoints.

Lemma repeated_labels_respect_equality :
  labels_respect_equality repeated_venues repeated_labels.
Proof.
  intros p v v' H1 H2.
  unfold repeated_venues, repeated_labels, venue_west, venue_center in H1, H2.
  cbn [combine In] in H1, H2.
  decompose [or] H1; try contradiction; clear H1;
  decompose [or] H2; try contradiction; clear H2;
  repeat match goal with
         | E : (_, _) = _ |- _ => inversion E; clear E; subst
         end;
  try reflexivity; exfalso; lra.
Qed.

(** C10 (the loop at a list with a repeated noise point): the labels give
    one label per point and equal labels to equal points, yet the loop
    returns three central venues followed by a western one, where the pure
    filter returns the four central venues. *)
Theorem remove_noise_is_not_pure_filter :
  length repeated_labels = length repeated_venues /\
  labels_respect_equality repeated_venues repeated_labels /\
  remove_noise point_eq_dec repeated_labels repeated_venues
    = Ok [venue_center; venue_center; venue_center; venue_west] /\
  pure_filter repeated_labels repeated_venues
    = [venue_center; venue_center; venue_center; venue_center] /\
  [venue_center; venue_center; venue_center; venue_west]
    <> [venue_center; venue_center; venue_center; venue_center].
Proof.
  split; [reflexivity |]. split; [exact repeated_labels_respect_equality |].
  split; [apply remove_noise_six |]. split; [reflexivity |].
  intros E. assert (Hw : venue_west = venue_center) by congruence.
  unfold venue_west, venue_center in Hw. inversion Hw. lra.
Qed.

(** ** The density filter on repeated points *)

Lemma PI_gt_3 : 3 < PI.
Proof. pose proof PI2_3_2. lra. Qed.

Lemma eps_12_small :
  0 <= cluster_epsilon zoom_12 / kms_per_radian < 0.2 * (PI / 180).
Proof.
  cbn [cluster_epsilon zoom_12]. unfold kms_per_radian.
  pose proof PI_gt_3. split; lra.
Qed.

(** The western and the central venues are more than eps apart (and the
    metric, fed (lng, lat), reads the longitude as a latitude). *)
Lemma west_center_apart (eps : R) :
  eps < 0.2 * (PI / 180) ->
  let west := (fst venue_west * (PI / 180), snd venue_west * (PI / 180)) in
  let center := (fst venue_center * (PI / 180), snd venue_center * (PI / 180)) in
  within eps west center = false /\ within eps center west = false.
Proof.
  intros He west center. pose proof PI_gt_3 as Hpi.
  assert (Hd : fst center - fst west = 0.2 * (PI / 180)).
  { unfold west, center, venue_west, venue_center. cbn [fst snd]. lra. }
  assert (Hs : snd west = snd center) by reflexivity.
  pose proof (Rle_abs (fst center - fst west)) as Hm.
  unfold within. split.
  - rewrite haversine_same_snd; [| exact Hs | split; lra].
    rewrite Rabs_minus_sym.
    destruct (Rle_dec _ eps) as [H |]; [exfalso; lra | reflexivity].
  - rewrite haversine_same_snd; [| symmetry; exact Hs | split; lra].
    destruct (Rle_dec _ eps) as [H |]; [exfalso; lra | reflexivity].
Qed.

(** First pass: the four central venues are core samples, the two western
    ones are noise. *)
Lemma repeated_venues_mask (eps : R) :
  0 <= eps < 0.2 * (PI / 180) ->
  noise_mask eps 4 (np_radians repeated_venues)
    = [true; false; false; false; false; true].
Proof.
  intros [H0 He]. destruct (west_center_apart He) as [Hwc Hcw]. cbn zeta in *.
  unfold noise_mask, is_noise, is_core, repeated_venues.
  cbn [np_radians map existsb filter].
  rewrite !(within_refl _ H0), Hwc, Hcw. reflexivity.
Qed.

(** Second pass: three central venues are too few, everybody is noise. *)
Lemma filtered_venues_mask (eps : R) :
  0 <= eps < 0.2 * (PI / 180) ->
  noise_mask eps 4
    (np_radians [venue_center; venue_center; venue_center; venue_west])
    = [true; true; true; true].
Proof.
  intros [H0 He]. destruct (west_center_apart He) as [Hwc Hcw]. cbn zeta in *.
  unfold noise_mask, is_noise, is_core.
  cbn [np_radians map existsb filter].
  rewrite !(within_refl _ H0), Hwc, Hcw. reflexivity.
Qed.

Lemma dbscan_reference_conformant : dbscan_conformant dbscan_reference.
Proof.
  intros eps m data. eexists. split; [reflexivity |].
  rewrite map_map. induction (noise_mask eps m data) as [| [] l IH]; cbn;
    [reflexivity | |]; f_equal; exact IH.
Qed.

Section ConformantEnv.
Variable Img : Type.
Variable env : Env Img.
Hypothesis conformant : dbscan_conformant (dbscan_labels env).

Lemma cluster_step_conformant (params : zoom_parameters) (pts : list (R * R))
    (labels : list Z) :
  cluster params = true ->
  let epsilon := cluster_epsilon params / kms_per_radian in
  map (fun v => (v =? -1)%Z) labels
    = noise_mask epsilon (cluster_neighbors params) (np_radians pts) ->
  cluster_step env params pts
    = ([Fit epsilon (cluster_neighbors params) (np_radians pts)],
       remove_noise point_eq_dec labels pts).
Proof.
  intros Hc epsilon Hmask. unfold cluster_step. rewrite Hc. fold epsilon.
  destruct (conformant epsilon (cluster_neighbors params) (np_radians pts))
    as (labels' & -> & Hmask').
  rewrite bind_call_ok. cbn [lift fst snd].
  rewrite (@remove_noise_mask _ point_eq_dec labels' labels) by congruence.
  reflexivity.
Qed.

Lemma cluster_step_repeated_venues :
  cluster_step env zoom_12 repeated_venues
    = ([Fit (cluster_epsilon zoom_12 / kms_per_radian) 4 (np_radians repeated_venues)],
       Ok [venue_center; venue_center; venue_center; venue_west]).
Proof.
  rewrite (@cluster_step_conformant zoom_12 repeated_venues repeated_labels).
  - cbn [cluster_neighbors zoom_12]. f_equal. apply remove_noise_six.
  - reflexivity.
  - cbn [cluster_neighbors zoom_12].
    rewrite repeated_venues_mask by apply eps_12_small. reflexivity.
Qed.

Lemma cluster_step_filtered_venues :
  cluster_step env zoom_12 [venue_center; venue_center; venue_center; venue_west]
    = ([Fit (cluster_epsilon zoom_12 / kms_per_radian) 4
          (np_radians [venue_center; venue_center; venue_center; venue_west])],
       Ok []).
Proof.
  rewrite (@cluster_step_conformant zoom_12 _ [-1; -1; -1; -1]%Z).
  - cbn [cluster_neighbors zoom_12]. f_equal.
    destruct (@remove_noise_total _ point_eq_dec [-1; -1; -1; -1]%Z
                [venue_center; venue_center; venue_center; venue_west])
      as (res & -> & Hl); [cbn; lia |].
    destruct res; [reflexivity | discriminate Hl].
  - reflexivity.
  - cbn [cluster_neighbors zoom_12].
    rewrite filtered_venues_mask by apply eps_12_small. reflexivity.
Qed.

End ConformantEnv.

Lemma noise_mask_length (eps : R) (m : Z) (pts : list (R * R)) :
  length (noise_mask eps m (np_radians pts)) = length pts.
Proof. unfold noise_mask, np_radians. rewrite !length_map. reflexivity. Qed.

(** C7 (the density-filtering step, with a DBSCAN that labels as
    documented): with the cluster flag off the points pass through
    unchanged and DBSCAN is not called; with the flag on DBSCAN is called
    once, on the points in radians, with eps = cluster_epsilon / 6371.0088
    and min_samples = cluster_neighbors, and on a list without repeated
    points exactly the points labelled other than -1 are kept; on
    [repeated_venues] at zoom 12 a western venue (noise) is kept and a
    central venue (clustered) is dropped. *)
Theorem cluster_step_on_repeated_venues (Img : Type) (env : Env Img) :
  dbscan_conformant (dbscan_labels env) ->
  kms_per_radian = 6371.0088 /\
  (forall params pts,
     cluster params = false -> cluster_step env params pts = ([], Ok pts)) /\
  (forall params pts,
     cluster params = true ->
     exists labels,
       dbscan_labels env (cluster_epsilon params / kms_per_radian)
         (cluster_neighbors params) (np_radians pts) = Ok labels /\
       length labels = length pts /\
       fst (cluster_step env params pts)
         = [Fit (cluster_epsilon params / kms_per_radian)
                (cluster_neighbors params) (np_radians pts)] /\
       (NoDup pts -> snd (cluster_step env params pts) = Ok (pure_filter labels pts))) /\
  dict_get ZOOM_PARAMETERS 12 = Ok zoom_12 /\
  noise_mask (cluster_epsilon zoom_12 / kms_per_radian) (cluster_neighbors zoom_12)
    (np_radians repeated_venues) = [true; false; false; false; false; true] /\
  snd (cluster_step env zoom_12 repeated_venues)
    = Ok [venue_center; venue_center; venue_center; venue_west].
Proof.
  intros Hconf. split; [reflexivity |]. split; [| split; [| split; [| split]]].
  - intros params pts Hc. unfold cluster_step. rewrite Hc. reflexivity.
  - intros params pts Hc.
    destruct (Hconf (cluster_epsilon params / kms_per_radian)
                (cluster_neighbors params) (np_radians pts))
      as (labels & Hfit & Hmask).
    assert (Hlen : length labels = length pts).
    { apply (f_equal (@length bool)) in Hmask.
      rewrite length_map, noise_mask_length in Hmask. exact Hmask. }
    exists labels. split; [exact Hfit |]. split; [exact Hlen |].
    rewrite (@cluster_step_conformant Img env Hconf params pts labels Hc Hmask). cbn [fst snd].
    split; [reflexivity |].
    intros Hnd. apply remove_noise_NoDup; [symmetry; exact Hlen | exact Hnd].
  - reflexivity.
  - apply repeated_venues_mask, eps_12_small.
  - rewrite (@cluster_step_repeated_venues Img env Hconf). reflexivity.
Qed.

Lemma cluster_step_on_repeated_venues_witness :
  snd (cluster_step (example_env (fun _ => false)) zoom_12 repeated_venues)
    = Ok [venue_center; venue_center; venue_center; venue_west].
Proof.
  apply (@cluster_step_on_repeated_venues picture (example_env (fun _ => false))).
  exact dbscan_reference_conformant.
Defined.

(** C8 (the density filter applied twice, with a DBSCAN that labels as
    documented): on [repeated_venues] at zoom 12 the first pass returns
    three central venues and a western one; on that list the second pass
    finds no core sample and returns the empty list. *)
Theorem density_filter_not_idempotent (Img : Type) (env : Env Img) :
  dbscan_conformant (dbscan_labels env) ->
  density_filter env zoom_12 repeated_venues
    = Ok [venue_center; venue_center; venue_center; venue_west] /\
  density_filter env zoom_12 [venue_center; venue_center; venue_center; venue_west]
    = Ok [].
Proof.
  intros Hconf. unfold density_filter.
  rewrite (@cluster_step_repeated_venues Img env Hconf),
          (@cluster_step_filtered_venues Img env Hconf).
  split; reflexivity.
Qed.

Lemma density_filter_not_idempotent_witness :
  let env := example_env (fun _ => false) in
  density_filter env zoom_12 repeated_venues
    = Ok [venue_center; venue_center; venue_center; venue_west] /\
  density_filter env zoom_12 [venue_center; venue_center; venue_center; venue_west]
    = Ok [].
Proof.
  apply (@density_filter_not_idempotent picture (example_env (fun _ => false))).
  exact dbscan_reference_conformant.
Defined.

(** ** Witnesses at the inputs of the testable properties *)

Lemma slice_canvas_emits_tile_set_witness :
  let tiles := [(0, 0); (0, 1); (1, 0)]%Z in
  let out := slice_canvas (example_env (fun _ => false)) 1 12 (Canvas (512, 512)%Z)
               (0, 0)%Z 2 2 tiles in
  length (fst out) = 3%nat /\
  ~ In (Upload 1 12 1 1 (Piece (Canvas (512, 512)%Z) (crop_box 1 1))) (fst out).
Proof.
  intros tiles out.
  assert (Hnd : NoDup tiles).
  { unfold tiles. repeat constructor; cbn; intuition discriminate. }
  assert (Hbox : bounding_box tiles = Ok ((0, 0)%Z, (1, 1)%Z)) by reflexivity.
  destruct (@slice_canvas_emits_tile_set picture (example_env (fun _ => false))
              1 12 (Canvas (512, 512)%Z) tiles (0, 0)%Z (1, 1)%Z Hnd Hbox)
    as (_ & Hiff & _ & Hlen).
  split; [exact Hlen |].
  intros Hin. apply (Hiff 1%Z 1%Z) in Hin; cbn; try lia.
  unfold tiles in Hin. cbn in Hin. intuition discriminate.
Defined.

(** One venue alone is noise when four samples are required. *)
Lemma lonely_venue_mask (eps : R) (p : R * R) :
  0 <= eps -> noise_mask eps 4 [p] = [true].
Proof.
  intros H. unfold noise_mask, is_noise, is_core.
  cbn [map existsb filter]. rewrite (within_refl p H). reflexivity.
Qed.

Lemma unit_without_points_is_skipped_witness :
  let env (rows : list (R * R)) : Env picture :=
    {| select_within := fun _ _ _ _ => Ok rows;
       select_envelope := fun _ _ _ _ _ => Ok rows;
       dbscan_labels := dbscan_reference;
       heatmap := fun _ _ _ size => Ok (Canvas size);
       crop := Piece |} in
  generate_heatmap_by_city (env []) 1 12 40.74 (-74) RADIUS
    = ([Query_within 1 (-74) 40.74 RADIUS], Ok tt) /\
  generate_heatmap_by_city (env [(40.74, -74)]) 1 12 40.74 (-74) RADIUS
    = ([Query_within 1 (-74) 40.74 RADIUS;
        Fit (cluster_epsilon zoom_12 / kms_per_radian) 4
            (np_radians [(-74, 40.74)])], Ok tt).
Proof.
  intros env. split.
  - apply (@unit_without_points_is_skipped picture (env []) 1 12 40.74 (-74) RADIUS).
    reflexivity.
  - destruct (@unit_without_points_is_skipped picture (env [(40.74, -74)])
                1 12 40.74 (-74) RADIUS) as (_ & Hskip & Hnoise).
    apply (Hskip [(40.74, -74)] zoom_12); try reflexivity; [discriminate |].
    apply (Hnoise zoom_12 [(-74, 40.74)] [(-1)%Z]); try reflexivity.
    + cbn [dbscan_labels env]. unfold dbscan_reference.
      cbn [np_radians map cluster_neighbors zoom_12].
      rewrite lonely_venue_mask by apply eps_12_small. reflexivity.
    + intros v [<- | []]. reflexivity.
Defined.

(** ** The density filter on lists without repeated points *)

Section DbscanFacts.
Variable P : Type.
Variable near : P -> P -> bool.
Variable min_samples : Z.
Hypothesis near_refl : forall p, near p p = true.

Lemma is_noise_false (data : list P) (p : P) :
  is_noise near min_samples data p = false <->
  exists q, In q data /\ is_core near min_samples data q = true /\ near q p = true.
Proof.
  unfold is_noise. rewrite negb_false_iff, existsb_exists.
  split; intros (q & Hq & H).
  - apply andb_true_iff in H. exists q. tauto.
  - exists q. split; [tauto |]. apply andb_true_iff. tauto.
Qed.

Lemma filter_filter_same (f g : P -> bool) (l : list P) :
  (forall r, In r l -> g r = true -> f r = true) ->
  filter g (filter f l) = filter g l.
Proof.
  induction l as [| r l IH]; intros H; [reflexivity |]. cbn [filter].
  destruct (f r) eqn:Ef; cbn [filter].
  - rewrite IH by (intros; apply H; [right |]; assumption). reflexivity.
  - destruct (g r) eqn:Eg.
    + rewrite (H r) in Ef by (auto; left; reflexivity). discriminate.
    + apply IH. intros; apply H; [right |]; assumption.
Qed.

Lemma filter_all (f : P -> bool) (l : list P) :
  (forall r, In r l -> f r = true) -> filter f l = l.
Proof.
  induction l as [| r l IH]; intros H; [reflexivity |]. cbn [filter].
  rewrite (H r) by (left; reflexivity).
  rewrite IH by (intros; apply H; right; assumption). reflexivity.
Qed.

(** A core sample stays a core sample when the noise is taken away, since
    none of its neighbours is noise. *)
Lemma core_stays_core (data : list P) (q : P) :
  In q data -> is_core near min_samples data q = true ->
  is_core near min_samples (clustered near min_samples data) q = true.
Proof.
  intros Hq Hcore. unfold is_core, clustered in *.
  rewrite filter_filter_same; [exact Hcore |].
  intros r Hr Hnear. apply negb_true_iff. apply is_noise_false.
  exists q. auto.
Qed.

(** A clustered sample is still clustered among the clustered samples. *)
Lemma clustered_stable (data : list P) (p : P) :
  In p (clustered near min_samples data) ->
  is_noise near min_samples (clustered near min_samples data) p = false.
Proof.
  intros Hp. unfold clustered in Hp. apply filter_In in Hp.
  destruct Hp as [Hp Hn]. apply negb_true_iff in Hn.
  apply is_noise_false in Hn. destruct Hn as (q & Hq & Hcore & Hnear).
  apply is_noise_false. exists q. split; [| split].
  - unfold clustered. apply filter_In. split; [exact Hq |].
    apply negb_true_iff. apply is_noise_false. exists q. auto.
  - apply core_stays_core; assumption.
  - exact Hnear.
Qed.

(** DBSCAN's noise removal, as documented, is idempotent. *)
Lemma clustered_idempotent (data : list P) :
  clustered near min_samples (clustered near min_samples data)
    = clustered near min_samples data.
Proof.
  unfold clustered at 1. apply filter_all.
  intros r Hr. apply negb_true_iff. apply clustered_stable. exact Hr.
Qed.

End DbscanFacts.

Lemma pure_filter_radians (noise : R * R -> bool) (labels : list Z) :
  forall pts : list (R * R),
    map (fun v => (v =? -1)%Z) labels = map noise (np_radians pts) ->
    np_radians (pure_filter labels pts)
      = filter (fun p => negb (noise p)) (np_radians pts).
Proof.
  induction labels as [| v labels IH]; intros [| p pts] H; try discriminate;
    [reflexivity |].
  cbn in H. injection H as Hv H. cbn [pure_filter np_radians map filter].
  rewrite <- Hv. destruct (v =? -1)%Z; cbn [negb map]; [| f_equal]; apply IH, H.
Qed.

Lemma pure_filter_no_noise (A : Type) (labels : list Z) :
  forall pts : list A,
    map (fun v => (v =? -1)%Z) labels = map (fun _ => false) pts ->
    pure_filter labels pts = pts.
Proof.
  induction labels as [| v labels IH]; intros [| p pts] H; try discriminate;
    [reflexivity |].
  cbn in H. injection H as Hv H. cbn [pure_filter]. rewrite Hv.
  f_equal. apply IH, H.
Qed.

Lemma pure_filter_incl (A : Type) (pts : list A) :
  forall (labels : list Z) (p : A), In p (pure_filter labels pts) -> In p pts.
Proof.
  induction pts as [| q pts IH]; intros labels p H.
  - destruct labels; destruct H.
  - destruct labels as [| v labels]; [destruct H |].
    cbn [pure_filter] in H. destruct (v =? -1)%Z.
    + right; eapply IH; eassumption.
    + destruct H as [<- | H]; [left; reflexivity | right; eapply IH; eassumption].
Qed.

Lemma pure_filter_NoDup (A : Type) (labels : list Z) :
  forall pts : list A, NoDup pts -> NoDup (pure_filter labels pts).
Proof.
  induction labels as [| v labels IH]; intros [| q pts] H; try constructor.
  cbn [pure_filter]. inversion H as [| ? ? Hq Hpts]; subst.
  destruct (v =? -1)%Z; [apply IH, Hpts |].
  constructor; [| apply IH, Hpts].
  intros Hin. apply Hq. eapply pure_filter_incl; eassumption.
Qed.

(** On a list without repeated points, and with a DBSCAN that labels as
    documented, filtering the filter's output changes nothing. *)
Lemma density_filter_idempotent_NoDup (Img : Type) (env : Env Img)
    (params : zoom_parameters) (pts : list (R * R)) :
  dbscan_conformant (dbscan_labels env) ->
  cluster params = true ->
  0 <= cluster_epsilon params / kms_per_radian ->
  NoDup pts ->
  exists kept,
    density_filter env params pts = Ok kept /\
    density_filter env params kept = Ok kept.
Proof.
  intros Hconf Hc Heps Hnd.
  set (eps := cluster_epsilon params / kms_per_radian) in *.
  set (m := cluster_neighbors params).
  destruct (Hconf eps m (np_radians pts)) as (labels & _ & Hmask).
  assert (Hlen : length pts = length labels).
  { apply (f_equal (@length bool)) in Hmask.
    rewrite length_map, noise_mask_length in Hmask. auto. }
  set (kept := pure_filter labels pts).
  assert (Hrad : np_radians kept = clustered (within eps) m (np_radians pts)).
  { unfold kept, clustered. apply pure_filter_radians. exact Hmask. }
  destruct (Hconf eps m (np_radians kept)) as (labels' & _ & Hmask').
  assert (Hlen' : length kept = length labels').
  { apply (f_equal (@length bool)) in Hmask'.
    rewrite length_map, noise_mask_length in Hmask'. auto. }
  assert (Hclean : map (fun v => (v =? -1)%Z) labels' = map (fun _ => false) kept).
  { rewrite Hmask'. unfold noise_mask. rewrite Hrad.
    transitivity (map (fun _ : R * R => false)
                      (clustered (within eps) m (np_radians pts))).
    - apply map_ext_in. intros p Hp. apply clustered_stable; [| exact Hp].
      intros q. apply within_refl. exact Heps.
    - rewrite <- Hrad. unfold np_radians. rewrite map_map. reflexivity. }
  exists kept. unfold density_filter. split.
  - rewrite (@cluster_step_conformant Img env Hconf params pts labels Hc Hmask).
    cbn [snd]. apply remove_noise_NoDup; assumption.
  - rewrite (@cluster_step_conformant Img env Hconf params kept labels' Hc Hmask').
    cbn [snd]. rewrite remove_noise_NoDup;
      [| exact Hlen' | apply pure_filter_NoDup; exact Hnd].
    rewrite pure_filter_no_noise by exact Hclean. reflexivity.
Qed.

(** * Further properties of the projection and of the tile geometry *)

Lemma atan_exp_range (m : R) : 0 < atan (exp m) < PI / 2.
Proof.
  split.
  - rewrite <- atan_0. apply atan_increasing. apply exp_pos.
  - apply atan_bound.
Qed.




Lemma pow2_IZR (zoom : Z) : (0 <= zoom)%Z -> Py.pow2 zoom = IZR (2 ^ zoom).
Proof.
  intros H. unfold Py.pow2. rewrite <- (Z2Nat.id zoom H).
  rewrite <- pow_powerRZ. apply (pow_IZR 2).
Qed.

Lemma tile_of_point (lat lng : R) (zoom : Z) (t : tile) :
  convert_coords_to_tile lat lng zoom = Ok t ->
  exists mx my,
    convert_coords_to_mercator_point lat lng zoom = Ok (mx, my) /\
    t = (Zfloor mx, Zfloor my).
Proof.
  unfold convert_coords_to_tile.
  destruct (convert_coords_to_mercator_point lat lng zoom) as [[mx my] |];
    [| discriminate].
  cbn. intros [= <-]. eauto.
Qed.

(** X2: at a zoom level from 0 to 18 the tile column of a longitude in
    [-180, 180] lies between 0 and 2^zoom, both included: the columns of
    the 2^zoom grid and one more; longitude 180 itself falls in column
    2^zoom, one past the last of the grid. *)
Theorem tile_column_in_grid (lat lng : R) (zoom : Z) (t : tile) :
  (0 <= zoom <= 18)%Z ->
  convert_coords_to_tile lat lng zoom = Ok t ->
  (-180 <= lng <= 180 -> (0 <= fst t <= 2 ^ zoom)%Z) /\
  (lng = 180 -> fst t = (2 ^ zoom)%Z).
Proof.
  intros [Hz _] Ht. destruct (tile_of_point _ _ _ Ht) as (mx & my & Hp & ->).
  unfold convert_coords_to_mercator_point in Hp.
  destruct (Py.math_log _) as [m |]; [| discriminate]. cbn in Hp.
  injection Hp as Hx _. rewrite (pow2_IZR Hz) in Hx. cbn [fst].
  assert (Hpos : 0 < IZR (2 ^ zoom)) by (apply IZR_lt, Z.pow_pos_nonneg; lia).
  set (k := IZR (2 ^ zoom) / 360) in *.
  assert (Hk : 0 < k) by (unfold k; lra).
  assert (Hk' : k * 360 = IZR (2 ^ zoom)) by (unfold k; field).
  clearbody k. split.
  - intros [Hlo Hhi]. pose proof (Zfloor_bound mx) as [Hf1 Hf2]. split.
    + apply Zfloor_lub. rewrite <- Hx. change (IZR 0) with 0. nra.
    + apply le_IZR. apply Rle_trans with mx; [exact Hf1 |].
      rewrite <- Hx. nra.
  - intros ->. apply Zfloor_eq. rewrite <- Hx. split; nra.
Qed.

Lemma tile_column_in_grid_witness :
  (0 <= fst (301, 512)%Z <= 2 ^ 10)%Z.
Proof.
  apply (@tile_column_in_grid 0 (-74) 10 (301, 512)%Z); [lia | | lra].
  exact tile_of_equator_point.
Defined.

(** X3: tile columns grow eastwards and tile rows grow southwards, each
    on its own: of two places, whatever their latitudes, the one further
    east never has the smaller column; and of two places strictly between
    the poles, whatever their longitudes, the one further north never has
    the larger row. *)
Theorem tiles_are_monotone (lat1 lat2 lng1 lng2 : R) (zoom : Z) (t1 t2 : tile) :
  convert_coords_to_tile lat1 lng1 zoom = Ok t1 ->
  convert_coords_to_tile lat2 lng2 zoom = Ok t2 ->
  (lng1 <= lng2 -> (fst t1 <= fst t2)%Z) /\
  (-90 < lat1 -> lat1 <= lat2 -> lat2 < 90 -> (snd t2 <= snd t1)%Z).
Proof.
  intros Ht1 Ht2.
  destruct (tile_of_point _ _ _ Ht1) as (mx1 & my1 & Hp1 & ->).
  destruct (tile_of_point _ _ _ Ht2) as (mx2 & my2 & Hp2 & ->).
  pose proof PI_RGT_0 as Hpi. pose proof (pow2_pos zoom) as Hw.
  cbn [fst snd]. split.
  - intros Hlng. apply Zfloor_le.
    unfold convert_coords_to_mercator_point in Hp1, Hp2.
    destruct (Py.math_log (Py.math_tan (lat1 * (PI / 180) / 2 + PI / 4)))
      as [m1 |]; [| discriminate].
    destruct (Py.math_log (Py.math_tan (lat2 * (PI / 180) / 2 + PI / 4)))
      as [m2 |]; [| discriminate].
    cbn in Hp1, Hp2. injection Hp1 as Hx1 _. injection Hp2 as Hx2 _.
    rewrite <- Hx1, <- Hx2. unfold Rdiv.
    apply Rmult_le_compat_r; [| lra].
    apply Rlt_le, Rmult_lt_0_compat; lra.
  - intros H1 H12 H2. apply Zfloor_le.
    assert (Hr1 : -90 < lat1 < 90) by lra. assert (Hr2 : -90 < lat2 < 90) by lra.
    pose proof (half_angle_range Hr1) as [Ha1 Hb1].
    pose proof (half_angle_range Hr2) as [Ha2 Hb2].
    unfold convert_coords_to_mercator_point in Hp1, Hp2.
    rewrite (math_tan_between Hr1) in Hp1. rewrite (math_tan_between Hr2) in Hp2.
    rewrite PyFacts.math_log_pos in Hp1, Hp2 by (apply tan_gt_0; assumption).
    cbn in Hp1, Hp2. injection Hp1 as _ Hy1. injection Hp2 as _ Hy2.
    rewrite <- Hy1, <- Hy2.
    assert (Hln : ln (tan (lat1 * (PI / 180) / 2 + PI / 4))
                  <= ln (tan (lat2 * (PI / 180) / 2 + PI / 4))).
    { destruct (Rle_lt_or_eq_dec _ _ H12) as [Hlt | ->]; [| lra].
      left. apply ln_increasing; [apply tan_gt_0; assumption |].
      apply tan_increasing; try lra. unfold Rdiv. nra. }
    assert (Hk : 0 < Py.pow2 zoom / (2 * PI)).
    { unfold Rdiv. apply Rmult_lt_0_compat; [lra |].
      apply Rinv_0_lt_compat. lra. }
    set (l1 := ln (tan (lat1 * (PI / 180) / 2 + PI / 4))) in *.
    set (l2 := ln (tan (lat2 * (PI / 180) / 2 + PI / 4))) in *.
    clearbody l1 l2.
    unfold Rminus. apply Rplus_le_compat_l, Ropp_le_contravar.
    unfold Rdiv in *. rewrite !Rmult_assoc.
    apply Rmult_le_compat_r; [left; exact Hk | exact Hln].
Qed.

(** A second venue on the equator, one degree east of the first: the
    Mercator point is (304.35..., 512) and the tile is (304, 512). *)
Example tile_of_equator_point_east :
  convert_coords_to_tile 0 (-73) 10 = Ok (304, 512)%Z.
Proof.
  unfold convert_coords_to_tile, convert_coords_to_mercator_point.
  replace (0 * (PI / 180) / 2 + PI / 4) with (PI / 4) by field.
  rewrite PyFacts.math_tan_eq by (pose proof PI_RGT_0; lra).
  rewrite tan_PI4, PyFacts.math_log_pos by lra. rewrite ln_1.
  cbn [rbind]. unfold np_floor; cbn [fst snd].
  unfold Py.pow2, Py.pow2_div2; cbn [Z.ltb Z.compare].
  f_equal. f_equal.
  - apply Zfloor_eq. simpl powerRZ. lra.
  - apply Zfloor_eq. simpl powerRZ.
    replace (2 ^ 10 / 2)%Z with 512%Z by reflexivity. lra.
Qed.

Lemma tiles_are_monotone_witness :
  (fst (301, 512)%Z <= fst (304, 512)%Z)%Z /\
  (snd (304, 512)%Z <= snd (301, 512)%Z)%Z.
Proof.
  destruct (@tiles_are_monotone 0 0 (-74) (-73) 10 (301, 512)%Z (304, 512)%Z
              tile_of_equator_point tile_of_equator_point_east) as [Hcol Hrow].
  split; [apply Hcol | apply Hrow]; lra.
Defined.

(** ** Pixel positions *)

Lemma ratio_range (n d : R) : 0 <= n < d -> 0 <= n / d < 1.
Proof.
  intros [H0 H1]. assert (Hd : 0 < d) by lra.
  pose proof (Rinv_0_lt_compat _ Hd) as Hi.
  assert (Hone : d * / d = 1) by (apply Rinv_r; lra).
  unfold Rdiv. split; nra.
Qed.

Lemma lng_le (x1 x2 y1 y2 : R) (zoom : Z) :
  x1 <= x2 ->
  snd (convert_point_to_coords x1 y1 zoom) <= snd (convert_point_to_coords x2 y2 zoom).
Proof.
  intros H. destruct (Rle_lt_or_eq_dec _ _ H) as [Hlt | ->].
  - left. apply lng_increasing. exact Hlt.
  - right. reflexivity.
Qed.

Lemma lat_le (x1 x2 y1 y2 : R) (zoom : Z) :
  y1 <= y2 ->
  fst (convert_point_to_coords x2 y2 zoom) <= fst (convert_point_to_coords x1 y1 zoom).
Proof.
  intros H. destruct (Rle_lt_or_eq_dec _ _ H) as [Hlt | ->].
  - left. apply lat_decreasing. exact Hlt.
  - right. reflexivity.
Qed.

(** A place whose Mercator point lies in the box of tiles x1..x2-1,
    y1..y2-1 is normalised into [0, width - 1) x [0, height - 1). *)
Lemma scaled_in_box (x1 x2 y1 y2 zoom : Z) (mx my : R) (width height : Z) :
  IZR x1 <= mx < IZR x2 -> IZR y1 <= my < IZR y2 ->
  (2 <= width)%Z -> (2 <= height)%Z ->
  let min_coords := convert_point_to_coords (IZR x1) (IZR y2) zoom in
  let max_coords := convert_point_to_coords (IZR x2) (IZR y1) zoom in
  let coords := convert_point_to_coords mx my zoom in
  let pixel := scaled min_coords max_coords width height (snd coords, fst coords) in
  0 <= fst pixel < IZR (width - 1) /\ 0 <= snd pixel < IZR (height - 1).
Proof.
  intros [Hx1 Hx2] [Hy1 Hy2] Hw Hh min_coords max_coords coords pixel.
  subst pixel. unfold scaled. cbn [fst snd].
  assert (Hw' : 0 < IZR (width - 1)) by (apply IZR_lt; lia).
  assert (Hh' : 0 < IZR (height - 1)) by (apply IZR_lt; lia).
  assert (Rx : 0 <= (snd coords - snd min_coords) / (snd max_coords - snd min_coords) < 1).
  { apply ratio_range. subst coords min_coords max_coords.
    pose proof (lng_le (IZR y2) my zoom Hx1).
    pose proof (lng_increasing my (IZR y1) zoom Hx2).
    split; lra. }
  assert (Ry : 0 <= (fst max_coords - fst coords) / (fst max_coords - fst min_coords) < 1).
  { apply ratio_range. subst coords min_coords max_coords.
    pose proof (lat_le (IZR x2) mx zoom Hy1).
    pose proof (lat_decreasing mx (IZR x1) zoom Hy2).
    split; lra. }
  split; split; nra.
Qed.

(** Between the poles, the coordinates of a projected point are the
    coordinates that were projected. *)
Lemma coords_of_projected (lat lng : R) (zoom : Z) (mx my : R) :
  -90 < lat < 90 ->
  convert_coords_to_mercator_point lat lng zoom = Ok (mx, my) ->
  convert_point_to_coords mx my zoom = (lat, lng).
Proof.
  intros Hlat Hp. pose proof (half_angle_range Hlat) as [Hlo Hhi].
  pose proof PI_RGT_0 as Hpi. pose proof (PyFacts.pow2_neq_0 zoom) as Hw.
  unfold convert_coords_to_mercator_point in Hp.
  rewrite (math_tan_between Hlat) in Hp.
  rewrite PyFacts.math_log_pos in Hp by (apply tan_gt_0; assumption).
  cbn [rbind] in Hp. injection Hp as <- <-.
  unfold convert_point_to_coords.
  rewrite mercN_inverse by assumption.
  rewrite exp_ln by (apply tan_gt_0; assumption).
  rewrite atan_tan by (split; lra).
  f_equal; field; lra.
Qed.

(** ** The tile set of a city and of a tile-by-tile run *)

Lemma add_neighbors_near (x y : Z) (px py : R) (d : Z) (tiles : list tile) (u : tile) :
  In u (add_neighbors x y px py d tiles) ->
  In u tiles \/ ((x - 1 <= fst u <= x + 1)%Z /\ (y - 1 <= snd u <= y + 1)%Z).
Proof.
  intros H. apply add_neighbors_In in H.
  decompose [or and] H; clear H; auto; subst u; right; cbn [fst snd]; lia.
Qed.

Lemma locate_tiles_from (zoom d : Z) (pts : list (R * R)) :
  (forall p, In p pts -> -90 < snd p < 90) ->
  forall tiles0, exists tiles,
    locate_tiles zoom d tiles0 pts = Ok tiles /\
    (NoDup tiles0 -> NoDup tiles) /\
    (forall u, In u tiles0 -> In u tiles) /\
    (forall venue t, In venue pts ->
       convert_coords_to_tile (snd venue) (fst venue) zoom = Ok t -> In t tiles) /\
    (forall u, In u tiles ->
       In u tiles0 \/
       exists venue t, In venue pts /\
         convert_coords_to_tile (snd venue) (fst venue) zoom = Ok t /\
         (fst t - 1 <= fst u <= fst t + 1)%Z /\ (snd t - 1 <= snd u <= snd t + 1)%Z).
Proof.
  induction pts as [| venue pts IH]; intros Hlat tiles0.
  - exists tiles0. split; [reflexivity |]. split; [auto |]. split; [auto |].
    split; [intros ? ? [] | auto].
  - destruct (@convert_coords_to_tile_ok (snd venue) (fst venue) zoom) as [t Ht];
      [apply Hlat; left; reflexivity |].
    cbn [locate_tiles]. rewrite (@locate_venue_ok zoom d tiles0 venue t Ht).
    cbn [rbind].
    match goal with
    | |- context [locate_tiles _ _ ?tl pts] => set (tiles1 := tl)
    end.
    destruct (IH (fun p Hp => Hlat p (or_intror Hp)) tiles1)
      as (tiles & Hloc & Hnd & Hsub & Hhas & Hnear).
    assert (H01 : forall u, In u tiles0 -> In u tiles1).
    { intros u Hu. apply add_neighbors_In. left.
      apply in_append_if_new. left; exact Hu. }
    assert (Ht1 : In t tiles1).
    { apply add_neighbors_In. left. apply in_append_if_new. right; reflexivity. }
    exists tiles. split; [exact Hloc |]. split; [| split; [| split]].
    + intros H. apply Hnd. apply add_neighbors_NoDup, append_if_new_NoDup, H.
    + intros u Hu. apply Hsub, H01, Hu.
    + intros v tv [<- | Hv] Hconv.
      * rewrite Ht in Hconv. injection Hconv as <-. apply Hsub, Ht1.
      * eapply Hhas; eassumption.
    + intros u Hu. destruct (Hnear u Hu) as [Hu1 | (v & tv & Hv & Hconv & Hb)].
      * apply add_neighbors_near in Hu1. destruct Hu1 as [Hu0 | Hb].
        -- apply in_append_if_new in Hu0. destruct Hu0 as [Hu0 | ->]; [left; exact Hu0 |].
           right. exists venue, t. split; [left; reflexivity |].
           split; [exact Ht |]. lia.
        -- right. exists venue, t. split; [left; reflexivity |].
           split; [exact Ht |]. exact Hb.
      * right. exists v, tv. split; [right; exact Hv |]. auto.
Qed.

(** X5: at a zoom level with a profile (10 to 18) and its dot size, for
    venues at latitudes from -85 to 85 and longitudes from -180 to 180, the
    city loop ends normally with a tile set without repetitions that
    contains the tile of every venue and, besides, only tiles that touch
    the tile of some venue (its eight neighbours). *)
Theorem locate_tiles_invariants (zoom : Z) (params : zoom_parameters)
    (pts : list (R * R)) :
  dict_get ZOOM_PARAMETERS zoom = Ok params ->
  (forall p, In p pts -> -180 <= fst p <= 180 /\ -85 <= snd p <= 85) ->
  exists tiles,
    locate_tiles zoom (dotsize params) [] pts = Ok tiles /\
    NoDup tiles /\
    (forall venue t, In venue pts ->
       convert_coords_to_tile (snd venue) (fst venue) zoom = Ok t -> In t tiles) /\
    (forall u, In u tiles ->
       exists venue t, In venue pts /\
         convert_coords_to_tile (snd venue) (fst venue) zoom = Ok t /\
         (fst t - 1 <= fst u <= fst t + 1)%Z /\ (snd t - 1 <= snd u <= snd t + 1)%Z).
Proof.
  intros _ Hlat.
  assert (Hlat' : forall p, In p pts -> -90 < snd p < 90).
  { intros p Hp. destruct (Hlat p Hp) as [_ H]. lra. }
  destruct (locate_tiles_from zoom (dotsize params) pts Hlat' [])
    as (tiles & Hloc & Hnd & _ & Hhas & Hnear).
  exists tiles. split; [exact Hloc |]. split; [apply Hnd; constructor |].
  split; [exact Hhas |].
  intros u Hu. destruct (Hnear u Hu) as [[] | H]. exact H.
Qed.

Lemma locate_tiles_invariants_witness :
  exists tiles,
    locate_tiles 12 (dotsize zoom_12) [] [(-74, 40.74)] = Ok tiles /\
    NoDup tiles /\
    (forall venue t, In venue [(-74, 40.74)] ->
       convert_coords_to_tile (snd venue) (fst venue) 12 = Ok t -> In t tiles) /\
    (forall u, In u tiles ->
       exists venue t, In venue [(-74, 40.74)] /\
         convert_coords_to_tile (snd venue) (fst venue) 12 = Ok t /\
         (fst t - 1 <= fst u <= fst t + 1)%Z /\ (snd t - 1 <= snd u <= snd t + 1)%Z).
Proof.
  apply (@locate_tiles_invariants 12 zoom_12 [(-74, 40.74)]); [reflexivity |].
  intros p [<- | []]. cbn [fst snd]. lra.
Defined.

Lemma venue_tiles_from (zoom : Z) (pts : list (R * R)) :
  (forall p, In p pts -> -90 < fst p < 90) ->
  forall tiles0, exists tiles,
    venue_tiles zoom tiles0 pts = Ok tiles /\
    (NoDup tiles0 -> NoDup tiles) /\
    (forall t, In t tiles <->
       In t tiles0 \/
       exists venue, In venue pts /\
         convert_coords_to_tile (fst venue) (snd venue) zoom = Ok t).
Proof.
  induction pts as [| venue pts IH]; intros Hlat tiles0.
  - exists tiles0. split; [reflexivity |]. split; [auto |].
    intros t. split; [auto | intros [H | (v & [] & _)]; exact H].
  - destruct (@convert_coords_to_tile_ok (fst venue) (snd venue) zoom) as [t Ht];
      [apply Hlat; left; reflexivity |].
    cbn [venue_tiles]. rewrite Ht. cbn [rbind].
    destruct (IH (fun p Hp => Hlat p (or_intror Hp)) (append_if_new t tiles0))
      as (tiles & Hloc & Hnd & Hiff).
    exists tiles. split; [exact Hloc |]. split.
    + intros H. apply Hnd, append_if_new_NoDup, H.
    + intros u. rewrite Hiff, in_append_if_new. split.
      * intros [[H | ->] | (v & Hv & Hc)]; [left; exact H | |].
        -- right. exists venue. split; [left; reflexivity | exact Ht].
        -- right. exists v. split; [right; exact Hv | exact Hc].
      * intros [H | (v & [<- | Hv] & Hc)]; [left; left; exact H | |].
        -- left. right. rewrite Ht in Hc. injection Hc as <-. reflexivity.
        -- right. exists v. auto.
Qed.

(** X6: in tile-by-tile mode, for venues strictly between the poles, the
    tiles to generate are exactly the tiles that contain a venue, each
    listed once. *)
Theorem venue_tiles_exact (zoom : Z) (pts : list (R * R)) :
  (forall p, In p pts -> -90 < fst p < 90) ->
  exists tiles,
    venue_tiles zoom [] pts = Ok tiles /\
    NoDup tiles /\
    (forall t, In t tiles <->
       exists venue, In venue pts /\
         convert_coords_to_tile (fst venue) (snd venue) zoom = Ok t).
Proof.
  intros Hlat.
  destruct (venue_tiles_from zoom pts Hlat []) as (tiles & Hloc & Hnd & Hiff).
  exists tiles. split; [exact Hloc |]. split; [apply Hnd; constructor |].
  intros t. rewrite Hiff. split; [intros [[] | H]; exact H | auto].
Qed.

Lemma venue_tiles_exact_witness :
  exists tiles,
    venue_tiles 10 [] venues_at_center = Ok tiles /\
    NoDup tiles /\
    (forall t, In t tiles <->
       exists venue, In venue venues_at_center /\
         convert_coords_to_tile (fst venue) (snd venue) 10 = Ok t).
Proof.
  apply (@venue_tiles_exact 10 venues_at_center).
  intros p Hp. unfold venues_at_center in Hp. cbn in Hp.
  decompose [or] Hp; try contradiction; subst p; cbn [fst]; lra.
Defined.

(** X7: the bounding box of a non-empty tile set is its smallest enclosing
    rectangle: every tile lies inside, each of its four sides passes
    through a tile of the set, and it spans at least one tile each way. *)
Theorem bounding_box_is_tight (tiles : list tile) :
  tiles <> [] ->
  exists nw se,
    bounding_box tiles = Ok (nw, se) /\
    (forall t, In t tiles ->
       (fst nw <= fst t <= fst se)%Z /\ (snd nw <= snd t <= snd se)%Z) /\
    (exists t, In t tiles /\ fst t = fst nw) /\
    (exists t, In t tiles /\ snd t = snd nw) /\
    (exists t, In t tiles /\ fst t = fst se) /\
    (exists t, In t tiles /\ snd t = snd se) /\
    (1 <= fst se - fst nw + 1)%Z /\ (1 <= snd se - snd nw + 1)%Z.
Proof.
  intros Hne. destruct (bounding_box_nonempty Hne) as (nw & se & Hbox).
  exists nw, se. split; [exact Hbox |].
  split; [exact (@bounding_box_spec _ _ _ Hbox) |].
  pose proof (bounding_box_ordered _ Hbox) as [Hx Hy].
  unfold bounding_box in Hbox.
  destruct (py_min (map fst tiles)) as [a |] eqn:Ea; [| discriminate].
  destruct (py_min (map snd tiles)) as [b |] eqn:Eb; [| discriminate].
  destruct (py_max (map fst tiles)) as [c |] eqn:Ec; [| discriminate].
  destruct (py_max (map snd tiles)) as [e |] eqn:Ee; [| discriminate].
  cbn in Hbox. injection Hbox as <- <-. cbn [fst snd] in *.
  apply py_min_spec in Ea, Eb. apply py_max_spec in Ec, Ee.
  destruct Ea as [Ea _], Eb as [Eb _], Ec as [Ec _], Ee as [Ee _].
  apply in_map_iff in Ea, Eb, Ec, Ee.
  destruct Ea as (ta & Ha & Hta), Eb as (tb & Hb & Htb),
           Ec as (tc & Hc & Htc), Ee as (te & He & Hte).
  repeat split; try lia; eauto.
Qed.

Lemma bounding_box_is_tight_witness :
  exists nw se, bounding_box [(0, 0); (0, 1); (1, 0)]%Z = Ok (nw, se) /\
    (1 <= fst se - fst nw + 1)%Z.
Proof.
  destruct (@bounding_box_is_tight [(0, 0); (0, 1); (1, 0)]%Z) as (nw & se & H);
    [discriminate |].
  exists nw, se. tauto.
Defined.

(** ** The points handed to the rasteriser *)

Lemma render_city_box (Img : Type) (env : Env Img) (category zoom : Z)
    (params : zoom_parameters) (pts : list (R * R)) :
  pts <> [] ->
  (forall p, In p pts -> -90 < snd p < 90) ->
  exists tiles nw se,
    bounding_box tiles = Ok (nw, se) /\
    (forall venue t, In venue pts ->
       convert_coords_to_tile (snd venue) (fst venue) zoom = Ok t ->
       (fst nw <= fst t <= fst se)%Z /\ (snd nw <= snd t <= snd se)%Z) /\
    let num_x_tiles := (fst se - fst nw + 1)%Z in
    let num_y_tiles := (snd se - snd nw + 1)%Z in
    let size := (TILE_RESOLUTION * num_x_tiles, TILE_RESOLUTION * num_y_tiles)%Z in
    let min_coords := convert_point_to_coords (IZR (fst nw)) (IZR (snd se + 1)) zoom in
    let max_coords := convert_point_to_coords (IZR (fst se + 1)) (IZR (snd nw)) zoom in
    let normalized_pts := map (scaled min_coords max_coords (fst size) (snd size)) pts in
    render_city env category zoom params pts =
      bind (call (Render normalized_pts (opacity params) (dotsize params) size)
                 (heatmap env normalized_pts (opacity params) (dotsize params) size))
           (fun img => slice_canvas env category zoom img nw
                         num_x_tiles num_y_tiles tiles).
Proof.
  intros Hne Hlat.
  destruct (locate_tiles_from zoom (dotsize params) pts Hlat [])
    as (tiles0 & Hloc & _ & _ & Hhas & _).
  assert (Hne0 : tiles0 <> []).
  { destruct pts as [| venue pts']; [congruence |].
    destruct (@convert_coords_to_tile_ok (snd venue) (fst venue) zoom) as [t Ht];
      [apply Hlat; left; reflexivity |].
    intros E. specialize (Hhas venue t (or_introl eq_refl) Ht).
    rewrite E in Hhas. destruct Hhas. }
  destruct (@bounding_box_nonempty (sorted tiles0)) as (nw & se & Hbox);
    [apply sorted_nonempty; assumption |].
  exists (sorted tiles0), nw, se. split; [exact Hbox |]. split.
  - intros venue t Hv Ht. apply (@bounding_box_spec _ _ _ Hbox).
    apply (Permutation_in _ (sorted_perm tiles0)). eapply Hhas; eassumption.
  - intros num_x_tiles num_y_tiles size min_coords max_coords normalized_pts.
    unfold render_city. rewrite Hloc, bind_lift_ok, Hbox, bind_lift_ok.
    cbn [fst snd]. fold num_x_tiles num_y_tiles min_coords max_coords.
    pose proof (bounding_box_ordered _ Hbox) as [Hx Hy].
    destruct (@box_extent (fst nw) (fst se + 1) (snd nw) (snd se + 1) zoom)
      as [H1 H2]; try lia.
    fold min_coords max_coords in H1, H2.
    rewrite normalize_all_ok, bind_lift_ok by assumption. reflexivity.
Qed.

Lemma py_int_pixel (v : R) (n : Z) :
  0 <= v < IZR (n - 1) -> (0 <= Heatmap_c.py_int v <= n - 1)%Z.
Proof.
  intros [Hlo Hhi]. unfold Heatmap_c.py_int.
  destruct (Rle_dec 0 v) as [_ | Hn]; [| contradiction].
  pose proof (Zfloor_bound v) as [Hf _]. split.
  - apply Zfloor_lub. exact Hlo.
  - apply Z.lt_le_incl. apply lt_IZR. lra.
Qed.

(** X8: at a zoom level with a profile (10 to 18), for a non-empty list of
    venues at latitudes from -85 to 85 and longitudes from -180 to 180,
    nothing raises before the rasteriser: it is called with the profile's
    opacity and dot size on one point per venue and on a canvas whose
    sides are multiples of 256, and the pixel (int(x), int(y)) the wrapper
    stamps for each point is a pixel of the canvas. *)
Theorem canvas_points_in_bounds (Img : Type) (env : Env Img) (category zoom : Z)
    (params : zoom_parameters) (pts : list (R * R)) :
  dict_get ZOOM_PARAMETERS zoom = Ok params ->
  pts <> [] ->
  (forall p, In p pts -> -180 <= fst p <= 180 /\ -85 <= snd p <= 85) ->
  exists points nx ny nw tiles,
    let size := (TILE_RESOLUTION * nx, TILE_RESOLUTION * ny)%Z in
    render_city env category zoom params pts
      = bind (call (Render points (opacity params) (dotsize params) size)
                   (heatmap env points (opacity params) (dotsize params) size))
             (fun img => slice_canvas env category zoom img nw nx ny tiles) /\
    length points = length pts /\
    (1 <= nx)%Z /\ (1 <= ny)%Z /\
    forall q, In q points ->
      (0 <= Heatmap_c.py_int (fst q) <= fst size - 1)%Z /\
      (0 <= Heatmap_c.py_int (snd q) <= snd size - 1)%Z.
Proof.
  intros _ Hne Hdom.
  assert (Hlat : forall p, In p pts -> -90 < snd p < 90).
  { intros p Hp. destruct (Hdom p Hp) as [_ H]. lra. }
  destruct (@render_city_box Img env category zoom params pts Hne Hlat)
    as (tiles & nw & se & Hbox & Hinside & Hrender).
  cbn zeta in Hrender.
  pose proof (bounding_box_ordered _ Hbox) as [Hx Hy].
  eexists _, (fst se - fst nw + 1)%Z, (snd se - snd nw + 1)%Z, nw, tiles.
  cbn zeta. split; [exact Hrender |].
  split; [apply length_map |]. split; [lia |]. split; [lia |].
  intros q Hq. apply in_map_iff in Hq. destruct Hq as (venue & <- & Hv).
  destruct (@convert_coords_to_tile_ok (snd venue) (fst venue) zoom)
    as [t Ht]; [apply Hlat; exact Hv |].
  destruct (Hinside venue t Hv Ht) as [Htx Hty].
  destruct (tile_of_point _ _ _ Ht) as (mx & my & Hp & Et).
  pose proof (@coords_of_projected (snd venue) (fst venue) zoom mx my
                (Hlat venue Hv) Hp) as Hcoords.
  pose proof (Zfloor_bound mx) as Hbx. pose proof (Zfloor_bound my) as Hby.
  rewrite Et in Htx, Hty. cbn [fst snd] in Htx, Hty.
  assert (Hmx : IZR (fst nw) <= mx < IZR (fst se + 1)).
  { rewrite plus_IZR. destruct Htx as [Ha Hb].
    apply IZR_le in Ha, Hb. lra. }
  assert (Hmy : IZR (snd nw) <= my < IZR (snd se + 1)).
  { rewrite plus_IZR. destruct Hty as [Ha Hb].
    apply IZR_le in Ha, Hb. lra. }
  pose proof (@scaled_in_box (fst nw) (fst se + 1) (snd nw) (snd se + 1) zoom
                mx my (TILE_RESOLUTION * (fst se - fst nw + 1))
                (TILE_RESOLUTION * (snd se - snd nw + 1)) Hmx Hmy) as Hsc.
  cbn zeta in Hsc. rewrite Hcoords in Hsc. cbn [fst snd] in Hsc.
  replace (fst venue, snd venue) with venue in Hsc by (destruct venue; reflexivity).
  destruct Hsc as [Hsx Hsy]; [unfold TILE_RESOLUTION; lia .. |].
  cbn [fst snd]. split; apply py_int_pixel; assumption.
Qed.

Lemma canvas_points_in_bounds_witness :
  exists points nx ny nw tiles,
    render_city (example_env (fun _ => false)) 1 12 zoom_12 [(-74, 40.74)]
      = bind (call (Render points (opacity zoom_12) (dotsize zoom_12)
                      (TILE_RESOLUTION * nx, TILE_RESOLUTION * ny)%Z)
                   (heatmap (example_env (fun _ => false)) points
                      (opacity zoom_12) (dotsize zoom_12)
                      (TILE_RESOLUTION * nx, TILE_RESOLUTION * ny)%Z))
             (fun img => slice_canvas (example_env (fun _ => false)) 1 12 img
                           nw nx ny tiles) /\
    length points = 1%nat /\
    (1 <= nx)%Z /\ (1 <= ny)%Z /\
    forall q, In q points ->
      (0 <= Heatmap_c.py_int (fst q) <= TILE_RESOLUTION * nx - 1)%Z /\
      (0 <= Heatmap_c.py_int (snd q) <= TILE_RESOLUTION * ny - 1)%Z.
Proof.
  apply (@canvas_points_in_bounds picture (example_env (fun _ => false)) 1 12
           zoom_12 [(-74, 40.74)]).
  - reflexivity.
  - discriminate.
  - intros p [<- | []]. cbn [fst snd]. lra.
Defined.

(** * Further properties of the runs and of the units *)

Lemma units_in_order_spec (run_method c z : Z) :
  In (c, z) (units_in_order run_method) <-> (1 <= c <= 4)%Z /\ (10 <= z <= 16)%Z.
Proof.
  unfold units_in_order, categories, zoom_levels.
  change ZOOM_STEP with 1%Z. change (MAX_ZOOM + 1)%Z with 17%Z.
  change MIN_ZOOM with 10%Z.
  destruct (run_method =? RUN_BY_CATEGORY)%Z.
  - rewrite in_prod_iff, !PyFacts.in_range_step1. lia.
  - rewrite in_map_iff. split.
    + intros ([z' c'] & E & H). cbn in E. injection E as <- <-.
      apply in_prod_iff in H. rewrite !PyFacts.in_range_step1 in H. lia.
    + intros H. exists (z, c). split; [reflexivity |].
      apply in_prod_iff. rewrite !PyFacts.in_range_step1. lia.
Qed.

Lemma units_in_order_NoDup (run_method : Z) : NoDup (units_in_order run_method).
Proof.
  unfold units_in_order, categories, zoom_levels. change ZOOM_STEP with 1%Z.
  destruct (run_method =? RUN_BY_CATEGORY)%Z.
  - apply NoDup_list_prod; apply PyFacts.range_NoDup.
  - apply Finite.Injective_map_NoDup.
    + intros [a b] [a' b'] E. cbn in E. injection E as -> ->. reflexivity.
    + apply NoDup_list_prod; apply PyFacts.range_NoDup.
Qed.



Lemma dict_get_zoom (z : Z) :
  (exists params, dict_get ZOOM_PARAMETERS z = Ok params) <-> (10 <= z <= 18)%Z.
Proof.
  unfold ZOOM_PARAMETERS, dict_get.
  repeat match goal with
         | |- context [(z =? ?k)%Z] => destruct (Z.eqb_spec z k)
         end;
  split; intros H; try lia; try (eexists; reflexivity);
  destruct H as [params H]; discriminate H.
Qed.

(** X10: every zoom level of a run (10..16) has a profile, with a positive
    dot size, a positive epsilon and at least one neighbour required; the
    lookup raises KeyError exactly for zoom levels outside 10..18.  A unit
    at such a zoom level raises KeyError right after its query when the
    query returned venues, and ends normally when it returned none. *)
Theorem zoom_profiles_cover_runs (Img : Type) (env : Env Img)
    (category zoom : Z) (lat lng : R) (radius : Z) :
  (In zoom zoom_levels ->
   exists params, dict_get ZOOM_PARAMETERS zoom = Ok params /\
     (0 < dotsize params)%Z /\ 0 < cluster_epsilon params /\
     (1 <= cluster_neighbors params)%Z /\ opacity params = 1%Z) /\
  (dict_get ZOOM_PARAMETERS zoom = Raise KeyError <-> (zoom < 10 \/ 18 < zoom)%Z) /\
  ((zoom < 10 \/ 18 < zoom)%Z ->
   forall rows, select_within env category lng lat radius = Ok rows ->
     generate_heatmap_by_city env category zoom lat lng radius
       = ([Query_within category lng lat radius],
          match rows with [] => Ok tt | _ :: _ => Raise KeyError end)).
Proof.
  split; [| split].
  - intros Hz. unfold zoom_levels in Hz. change ZOOM_STEP with 1%Z in Hz.
    apply PyFacts.in_range_step1 in Hz.
    change MIN_ZOOM with 10%Z in Hz. change (MAX_ZOOM + 1)%Z with 17%Z in Hz.
    assert (Hc : (zoom = 10 \/ zoom = 11 \/ zoom = 12 \/ zoom = 13 \/ zoom = 14
                  \/ zoom = 15 \/ zoom = 16)%Z) by lia.
    decompose [or] Hc; subst zoom; eexists; (split; [reflexivity |]);
      cbn [dotsize cluster_epsilon cluster_neighbors opacity];
      repeat split; try lia; lra.
  - split.
    + intros H. destruct (Z_le_gt_dec 10 zoom) as [H1 |]; [| lia].
      destruct (Z_le_gt_dec zoom 18) as [H2 |]; [| lia].
      destruct (proj2 (dict_get_zoom zoom) (conj H1 H2)) as [params Hp].
      rewrite Hp in H. discriminate H.
    + intros H. destruct (dict_get ZOOM_PARAMETERS zoom) as [params | e] eqn:E.
      * assert (Hr : (10 <= zoom <= 18)%Z)
          by (apply dict_get_zoom; exists params; exact E). lia.
      * revert E. unfold ZOOM_PARAMETERS, dict_get.
        repeat match goal with
               | |- context [(zoom =? ?k)%Z] => destruct (Z.eqb_spec zoom k)
               end; try discriminate; intros [= <-]; reflexivity.
  - intros Hz rows Hrows. unfold generate_heatmap_by_city.
    rewrite Hrows, bind_call_ok. destruct rows as [| row rows]; [reflexivity |].
    cbn [map length Nat.ltb Nat.leb].
    assert (Hk : dict_get ZOOM_PARAMETERS zoom = Raise KeyError).
    { destruct (dict_get ZOOM_PARAMETERS zoom) as [params | e] eqn:E.
      - assert (Hr : (10 <= zoom <= 18)%Z)
          by (apply dict_get_zoom; exists params; exact E). lia.
      - revert E. unfold ZOOM_PARAMETERS, dict_get.
        repeat match goal with
               | |- context [(zoom =? ?k)%Z] => destruct (Z.eqb_spec zoom k)
               end; try discriminate; intros [= <-]; reflexivity. }
    rewrite Hk. reflexivity.
Qed.

Lemma zoom_profiles_cover_runs_witness :
  (exists params, dict_get ZOOM_PARAMETERS 12 = Ok params /\
     (0 < dotsize params)%Z /\ 0 < cluster_epsilon params /\
     (1 <= cluster_neighbors params)%Z /\ opacity params = 1%Z) /\
  generate_heatmap_by_city (example_env (fun _ => false)) 1 19 40.74 (-74) RADIUS
    = ([Query_within 1 (-74) 40.74 RADIUS], Raise KeyError).
Proof.
  split.
  - apply (@zoom_profiles_cover_runs picture (example_env (fun _ => false))
             1 12 40.74 (-74) RADIUS).
    vm_compute. tauto.
  - destruct (@zoom_profiles_cover_runs picture (example_env (fun _ => false))
                1 19 40.74 (-74) RADIUS) as (_ & _ & H).
    apply (H ltac:(lia) venues_at_center). reflexivity.
Defined.

(** * The noise loop on any list *)

Section NoiseLoopAny.
Variable A : Type.
Variable A_eq_dec : forall a b : A, {a = b} + {a <> b}.

Lemma subseq_refl (l : list A) : subseq l l.
Proof. induction l; constructor; assumption. Qed.

Lemma subseq_trans (l1 l2 l3 : list A) :
  subseq l1 l2 -> subseq l2 l3 -> subseq l1 l3.
Proof.
  intros H12 H23. revert l1 H12.
  induction H23 as [| x sub l H IH | x sub l H IH]; intros l1 H12.
  - exact H12.
  - constructor. apply IH. exact H12.
  - inversion H12; subst.
    + constructor. apply IH. assumption.
    + apply subseq_keep. apply IH. assumption.
Qed.

Lemma subseq_incl (sub l : list A) : subseq sub l -> incl sub l.
Proof.
  induction 1 as [| x sub l H IH | x sub l H IH]; intros a Ha.
  - exact Ha.
  - right. apply IH, Ha.
  - destruct Ha as [<- | Ha]; [left; reflexivity | right; apply IH, Ha].
Qed.

Lemma list_remove_subseq (x : A) (l l' : list A) :
  list_remove A_eq_dec x l = Ok l' -> subseq l' l.
Proof.
  revert l'. induction l as [| y l IH]; intros l' H; cbn in H; [discriminate |].
  destruct (A_eq_dec x y).
  - injection H as <-. constructor. apply subseq_refl.
  - destruct (list_remove A_eq_dec x l) as [r |]; [| discriminate].
    cbn in H. injection H as <-. apply subseq_keep. apply IH. reflexivity.
Qed.

Lemma remove_noise_subseq (labels : list Z) :
  forall pts res : list A,
    remove_noise A_eq_dec labels pts = Ok res -> subseq res pts.
Proof.
  induction labels as [| v labels IH] using rev_ind; intros pts res H.
  - injection H as <-. apply subseq_refl.
  - rewrite remove_noise_snoc in H. destruct (v =? -1)%Z.
    + destruct (list_get pts (length labels)) as [p |]; [| discriminate].
      cbn [rbind] in H.
      destruct (list_remove A_eq_dec p pts) as [pts' |] eqn:E; [| discriminate].
      cbn [rbind] in H. eapply subseq_trans; [apply IH; exact H |].
      eapply list_remove_subseq; exact E.
    + apply IH. exact H.
Qed.

End NoiseLoopAny.

(** X11: with at most one label per point the noise loop never raises; it
    deletes exactly one point for each label -1, and what remains is the
    given list with points deleted, in the original order.  With more
    labels than points and a last label of -1, the first lookup raises
    IndexError. *)
Theorem noise_loop_deletes_one_per_label (A : Type)
    (A_eq_dec : forall a b : A, {a = b} + {a <> b})
    (labels : list Z) (pts : list A) :
  ((length labels <= length pts)%nat ->
   exists res,
     remove_noise A_eq_dec labels pts = Ok res /\
     length res = (length pts - count_noise labels)%nat /\
     subseq res pts) /\
  ((length pts <= length labels)%nat ->
   remove_noise A_eq_dec (labels ++ [(-1)%Z]) pts = Raise IndexError).
Proof.
  split.
  - intros Hlen.
    destruct (@remove_noise_total A A_eq_dec labels pts Hlen) as (res & Hres & Hl).
    exists res. split; [exact Hres |]. split; [exact Hl |].
    eapply remove_noise_subseq; exact Hres.
  - intros Hlen. rewrite remove_noise_snoc. cbn [Z.eqb Pos.eqb].
    unfold list_get.
    destruct (nth_error pts (length labels)) as [p |] eqn:E; [| reflexivity].
    assert (nth_error pts (length labels) <> None) by congruence.
    apply nth_error_Some in H. lia.
Qed.

Lemma noise_loop_deletes_one_per_label_witness :
  exists res,
    remove_noise Z.eq_dec [0; -1; 0]%Z [7; 8; 9]%Z = Ok res /\
    length res = (3 - count_noise [0; -1; 0]%Z)%nat /\
    subseq res [7; 8; 9]%Z.
Proof.
  apply (@noise_loop_deletes_one_per_label Z Z.eq_dec [0; -1; 0]%Z [7; 8; 9]%Z).
  cbn. lia.
Defined.

(** * A tile and its envelope *)

Lemma projected_point (lat lng : R) (zoom : Z) :
  -90 < lat < 90 ->
  exists mx my,
    convert_coords_to_mercator_point lat lng zoom = Ok (mx, my) /\
    convert_coords_to_tile lat lng zoom = Ok (Zfloor mx, Zfloor my) /\
    convert_point_to_coords mx my zoom = (lat, lng).
Proof.
  intros Hlat.
  destruct (@convert_coords_to_tile_ok lat lng zoom Hlat) as [t Ht].
  destruct (tile_of_point _ _ _ Ht) as (mx & my & Hp & ->).
  exists mx, my. split; [exact Hp |]. split; [exact Ht |].
  apply coords_of_projected; assumption.
Qed.

Lemma tile_to_envelope (lat lng : R) (zoom x y : Z) :
  -90 < lat < 90 ->
  convert_coords_to_tile lat lng zoom = Ok (x, y) ->
  let min_coords := convert_point_to_coords (IZR x) (IZR (y + 1)) zoom in
  let max_coords := convert_point_to_coords (IZR (x + 1)) (IZR y) zoom in
  snd min_coords <= lng < snd max_coords /\ fst min_coords < lat <= fst max_coords.
Proof.
  intros Hlat Ht min_coords max_coords. subst min_coords max_coords.
  destruct (projected_point lng zoom Hlat) as (mx & my & _ & Ht' & Hc).
  rewrite Ht' in Ht. injection Ht as Hx Hy.
  pose proof (Zfloor_bound mx) as Hbx. pose proof (Zfloor_bound my) as Hby.
  rewrite Hx in Hbx. rewrite Hy in Hby. rewrite !plus_IZR.
  assert (El : lng = snd (convert_point_to_coords mx my zoom)) by (rewrite Hc; reflexivity).
  assert (Ea : lat = fst (convert_point_to_coords mx my zoom)) by (rewrite Hc; reflexivity).
  split; split.
  - rewrite El. apply lng_le. lra.
  - rewrite El. apply lng_increasing. lra.
  - rewrite Ea. apply lat_decreasing. lra.
  - rewrite Ea. apply lat_le. lra.
Qed.

(** * What is uploaded *)

Section Uploads.
Variable Img : Type.
Variable env : Env Img.

Lemma bind_log (A B : Type) (m : M Img A) (f : A -> M Img B) :
  fst (bind m f)
    = fst m ++ match snd m with Ok a => fst (f a) | Raise _ => [] end.
Proof.
  destruct m as [l [a | e]]; cbn.
  - destruct (f a); reflexivity.
  - rewrite app_nil_r. reflexivity.
Qed.

Lemma bind_outcome (A B : Type) (m : M Img A) (f : A -> M Img B) :
  snd (bind m f) = match snd m with Ok a => snd (f a) | Raise e => Raise e end.
Proof. destruct m as [l [a | e]]; cbn; [destruct (f a) |]; reflexivity. Qed.

Lemma upload_keys_app (l1 l2 : list (event Img)) :
  upload_keys (l1 ++ l2) = upload_keys l1 ++ upload_keys l2.
Proof. apply flat_map_app. Qed.

Lemma upload_keys_In (log : list (event Img)) (c z x y : Z) :
  In (c, z, x, y) (upload_keys log) <-> exists img, In (Upload c z x y img) log.
Proof.
  unfold upload_keys. rewrite in_flat_map. split.
  - intros (ev & Hev & Hk). destruct ev; cbn in Hk; try contradiction.
    destruct Hk as [E | []]. injection E as -> -> -> ->. eauto.
  - intros (img & H). exists (Upload c z x y img). split; [exact H | left; reflexivity].
Qed.

Lemma cluster_step_keys (params : zoom_parameters) (pts : list (R * R)) :
  upload_keys (fst (cluster_step env params pts)) = [].
Proof.
  rewrite cluster_step_log. destruct (cluster params); reflexivity.
Qed.

(** The density-filtering step hands on venues it was given, in their order. *)
Lemma cluster_step_subseq (params : zoom_parameters) (pts kept : list (R * R)) :
  snd (cluster_step env params pts) = Ok kept -> subseq kept pts.
Proof.
  unfold cluster_step. destruct (cluster params).
  - rewrite bind_outcome. cbn [call snd lift].
    destruct (dbscan_labels env _ _ _) as [labels |]; [| discriminate].
    apply remove_noise_subseq.
  - cbn. intros [= <-]. apply subseq_refl.
Qed.

(** One tile, step by step. *)
Lemma generate_tile_steps (category zoom x y : Z) :
  let min_coords := convert_point_to_coords (IZR x) (IZR (y + 1)) zoom in
  let max_coords := convert_point_to_coords (IZR (x + 1)) (IZR y) zoom in
  generate_tile env category zoom x y =
    bind (call (Query_envelope category (snd min_coords) (fst min_coords)
                  (snd max_coords) (fst max_coords))
               (select_envelope env category (snd min_coords) (fst min_coords)
                  (snd max_coords) (fst max_coords)))
      (fun rows =>
         let pts := map (fun row => (snd row, fst row)) rows in
         if (0 <? length pts)%nat then
           bind (lift (dict_get ZOOM_PARAMETERS zoom)) (fun params =>
           bind (cluster_step env params pts) (fun kept =>
             let tile_pts :=
               map (scaled min_coords max_coords TILE_RESOLUTION TILE_RESOLUTION) kept in
             if (0 <? length kept)%nat then
               bind (call (Render tile_pts (opacity params) (dotsize params)
                             (TILE_RESOLUTION, TILE_RESOLUTION))
                          (heatmap env tile_pts (opacity params) (dotsize params)
                             (TILE_RESOLUTION, TILE_RESOLUTION)))
                    (fun img => emit (Upload category zoom x y img))
             else ret tt))
         else ret tt).
Proof.
  intros min_coords max_coords. unfold generate_tile.
  fold min_coords max_coords.
  destruct (@box_extent x (x + 1) y (y + 1) zoom) as [H1 H2]; try lia.
  fold min_coords max_coords in H1, H2.
  apply bind_ext. intros rows.
  destruct (0 <? length _)%nat; [| reflexivity].
  apply bind_ext. intros params.
  apply bind_ext. intros kept.
  rewrite normalize_all_ok, bind_lift_ok by assumption.
  rewrite length_map. reflexivity.
Qed.


Lemma subseq_length (A : Type) (sub l : list A) :
  subseq sub l -> (length sub <= length l)%nat.
Proof. induction 1; cbn; lia. Qed.

Lemma ratio_closed (n d : R) : 0 <= n <= d -> 0 < d -> 0 <= n / d <= 1.
Proof.
  intros [H0 H1] Hd.
  pose proof (Rinv_0_lt_compat _ Hd) as Hi.
  assert (Hone : d * / d = 1) by (apply Rinv_r; lra).
  unfold Rdiv. split; nra.
Qed.

End Uploads.

(** X13: for a tile of the grid (0 <= x, y < 2^zoom) at a zoom level with
    a profile (10 to 18), when the database answers the tile's query with
    venues inside the envelope asked for (borders included) and the
    density filter keeps at least one of them, the normalisation does not
    raise, and the rasteriser is called on a 256 x 256 canvas with the
    opacity and dot size of the zoom level, on one point per venue kept,
    each with 0 <= x <= 255 and 0 <= y <= 255. *)
Theorem generate_tile_points_in_tile (Img : Type) (env : Env Img)
    (category zoom x y : Z) (params : zoom_parameters)
    (rows kept : list (R * R)) :
  let min_coords := convert_point_to_coords (IZR x) (IZR (y + 1)) zoom in
  let max_coords := convert_point_to_coords (IZR (x + 1)) (IZR y) zoom in
  (0 <= x < 2 ^ zoom)%Z -> (0 <= y < 2 ^ zoom)%Z ->
  dict_get ZOOM_PARAMETERS zoom = Ok params ->
  select_envelope env category (snd min_coords) (fst min_coords)
    (snd max_coords) (fst max_coords) = Ok rows ->
  (forall row, In row rows ->
     fst min_coords <= fst row <= fst max_coords /\
     snd min_coords <= snd row <= snd max_coords) ->
  snd (cluster_step env params (map (fun row => (snd row, fst row)) rows)) = Ok kept ->
  kept <> [] ->
  exists points,
    normalize_all min_coords max_coords TILE_RESOLUTION TILE_RESOLUTION kept
      = Ok points /\
    In (Render points (opacity params) (dotsize params)
          (TILE_RESOLUTION, TILE_RESOLUTION))
       (fst (generate_tile env category zoom x y)) /\
    length points = length kept /\ (length kept <= length rows)%nat /\
    forall q, In q points -> 0 <= fst q <= 255 /\ 0 <= snd q <= 255.
Proof.
  intros min_coords max_coords _ _ Hparams Hrows Hbox Hkept Hne.
  destruct (@box_extent x (x + 1) y (y + 1) zoom) as [H1 H2]; try lia.
  fold min_coords max_coords in H1, H2.
  pose proof (cluster_step_subseq _ _ _ Hkept) as Hsub.
  exists (map (scaled min_coords max_coords TILE_RESOLUTION TILE_RESOLUTION) kept).
  split; [apply normalize_all_ok; assumption |].
  split; [| split; [apply length_map | split]].
  - rewrite generate_tile_steps. fold min_coords max_coords.
    rewrite Hrows, bind_call_ok. right. cbn beta zeta.
    set (pts := map (fun row : R * R => (snd row, fst row)) rows) in *.
    assert (Hpts : (0 <? length pts)%nat = true).
    { apply Nat.ltb_lt. apply subseq_length in Hsub.
      destruct kept; [congruence | cbn in Hsub; lia]. }
    assert (Hlen : (0 <? length kept)%nat = true).
    { apply Nat.ltb_lt. destruct kept; [congruence | cbn; lia]. }
    rewrite Hpts, Hparams, bind_lift_ok, bind_log, in_app_iff. right.
    rewrite Hkept, Hlen, bind_log. cbn [call fst]. left. reflexivity.
  - apply subseq_length in Hsub. rewrite length_map in Hsub. exact Hsub.
  - intros q Hq. apply in_map_iff in Hq. destruct Hq as (p & <- & Hp).
    apply (subseq_incl Hsub) in Hp.
    apply in_map_iff in Hp. destruct Hp as (row & <- & Hrow).
    destruct (Hbox row Hrow) as [[Ha1 Ha2] [Hl1 Hl2]].
    pose proof (lat_decreasing (IZR (x + 1)) (IZR x) zoom
                  (IZR_lt _ _ (Z.lt_succ_diag_r y))) as Hlat.
    pose proof (lng_increasing (IZR (y + 1)) (IZR y) zoom
                  (IZR_lt _ _ (Z.lt_succ_diag_r x))) as Hlng.
    change (Z.succ y) with (y + 1)%Z in Hlat. change (Z.succ x) with (x + 1)%Z in Hlng.
    fold min_coords max_coords in Hlat, Hlng.
    unfold scaled. cbn [fst snd]. change (IZR (TILE_RESOLUTION - 1)) with 255.
    assert (Rx : 0 <= (snd row - snd min_coords) / (snd max_coords - snd min_coords) <= 1)
      by (apply ratio_closed; lra).
    assert (Ry : 0 <= (fst max_coords - fst row) / (fst max_coords - fst min_coords) <= 1)
      by (apply ratio_closed; lra).
    split; split; nra.
Qed.

Lemma generate_tile_points_in_tile_witness :
  exists points,
    normalize_all (convert_point_to_coords (IZR 301) (IZR (512 + 1)) 10)
                  (convert_point_to_coords (IZR (301 + 1)) (IZR 512) 10)
                  TILE_RESOLUTION TILE_RESOLUTION [(-74, 0)] = Ok points /\
    In (Render points (opacity zoom_10) (dotsize zoom_10)
          (TILE_RESOLUTION, TILE_RESOLUTION))
       (fst (generate_tile equator_env 1 10 301 512)) /\
    length points = 1%nat /\ (1 <= 1)%nat /\
    forall q, In q points -> 0 <= fst q <= 255 /\ 0 <= snd q <= 255.
Proof.
  apply (@generate_tile_points_in_tile picture equator_env 1 10 301 512
           zoom_10 [(0, -74)] [(-74, 0)]).
  - lia.
  - lia.
  - reflexivity.
  - reflexivity.
  - intros row [<- | []]. cbn [fst snd].
    pose proof (@tile_to_envelope 0 (-74) 10 301 512) as Henv.
    cbn zeta in Henv. specialize (Henv ltac:(lra) tile_of_equator_point). lra.
  - unfold cluster_step, zoom_10.
    cbn [cluster dbscan_labels equator_env cluster_neighbors cluster_epsilon].
    rewrite bind_call_ok. cbn [np_radians map lift fst snd].
    unfold remove_noise, enumerate. cbn [length seq combine rev app remove_noise_loop].
    cbn [Z.eqb]. reflexivity.
  - discriminate.
Defined.

(** A tile run uploads at most its own tile. *)
Lemma generate_tile_keys (Img : Type) (env : Env Img) (category zoom x y : Z) :
  upload_keys (fst (generate_tile env category zoom x y)) = [] \/
  upload_keys (fst (generate_tile env category zoom x y)) = [(category, zoom, x, y)].
Proof.
  rewrite generate_tile_steps.
  rewrite bind_log, upload_keys_app. cbn [call fst snd upload_keys flat_map app].
  change (flat_map _ ?l) with (upload_keys l).
  destruct (select_envelope env _ _ _ _ _) as [rows |]; [| left; reflexivity].
  destruct (0 <? length _)%nat; [| left; reflexivity].
  rewrite bind_log, upload_keys_app. cbn [lift fst snd upload_keys flat_map app].
  change (flat_map _ ?l) with (upload_keys l).
  destruct (dict_get ZOOM_PARAMETERS zoom) as [params |]; [| left; reflexivity].
  rewrite bind_log, upload_keys_app, cluster_step_keys. cbn [app].
  destruct (snd (cluster_step env params _)) as [kept |]; [| left; reflexivity].
  destruct (0 <? length kept)%nat; [| left; reflexivity].
  rewrite bind_log, upload_keys_app. cbn [call fst snd upload_keys flat_map app].
  destruct (heatmap env _ _ _ _) as [img |]; [| left; reflexivity].
  right. reflexivity.
Qed.

(** X14: a tile uploads nothing or exactly its own key (category, zoom, x,
    y); an uploaded image is the one the rasteriser returned, for a
    non-empty list of points on the 256 x 256 canvas. *)
Theorem generate_tile_uploads_its_own_tile (Img : Type) (env : Env Img)
    (category zoom x y : Z) :
  let run := generate_tile env category zoom x y in
  (upload_keys (fst run) = [] \/ upload_keys (fst run) = [(category, zoom, x, y)]) /\
  (forall c z x' y' img, In (Upload c z x' y' img) (fst run) ->
     exists points params,
       points <> [] /\ dict_get ZOOM_PARAMETERS zoom = Ok params /\
       In (Render points (opacity params) (dotsize params)
             (TILE_RESOLUTION, TILE_RESOLUTION)) (fst run) /\
       heatmap env points (opacity params) (dotsize params)
         (TILE_RESOLUTION, TILE_RESOLUTION) = Ok img).
Proof.
  intros run. split.
  - apply generate_tile_keys.
  - intros c z x' y' img Hin. subst run. rewrite generate_tile_steps in *.
    match goal with
    | H : In _ (fst (bind (call ?ev ?r) ?k)) |- _ =>
        set (q := ev) in *; set (rest := k) in *; destruct r as [rows |] eqn:Hrows
    end; [| destruct Hin as [E | []]; discriminate E].
    rewrite bind_call_ok in *. cbn [fst] in *.
    destruct Hin as [E | Hin]; [discriminate E |]. subst rest. cbn beta zeta in *.
    set (pts := map (fun row : R * R => (snd row, fst row)) rows) in *.
    destruct (0 <? length pts)%nat; [| destruct Hin].
    destruct (dict_get ZOOM_PARAMETERS zoom) as [params |]; [| destruct Hin].
    rewrite bind_lift_ok in *.
    apply bind_In in Hin. destruct Hin as [Hin | (kept & Hkept & Hin)].
    { exfalso. eapply cluster_step_no_upload; exact Hin. }
    destruct (0 <? length kept)%nat eqn:Hlen; [| destruct Hin].
    apply bind_In in Hin. cbn [call fst snd emit] in Hin.
    destruct Hin as [[E | []] | (img' & Himg & [E | []])]; [discriminate E |].
    injection E as _ _ _ _ ->.
    eexists _, params. split; [| split; [reflexivity | split; [| exact Himg]]].
    + destruct kept; [discriminate Hlen | discriminate].
    + right. rewrite bind_log, in_app_iff. right. rewrite Hkept, Hlen.
      rewrite bind_log. cbn [call fst]. left. reflexivity.
Qed.

(** ** Loops *)

Section LoopKeys.
Variable Img : Type.
Variable X : Type.
Variable body : X -> M Img unit.

Lemma for_each_keys (l : list X) (k : Z * Z * Z * Z) :
  In k (upload_keys (fst (for_each l body))) ->
  exists x, In x l /\ In k (upload_keys (fst (body x))).
Proof.
  induction l as [| x l IH]; [intros [] |].
  cbn [for_each]. rewrite bind_log, upload_keys_app, in_app_iff. intros [H | H].
  - exists x. split; [left; reflexivity | exact H].
  - destruct (snd (body x)); [| destruct H].
    destruct (IH H) as (x' & Hx' & Hk). exists x'. split; [right; exact Hx' | exact Hk].
Qed.

(** Iterations that upload under keys of their own never upload a key
    twice between them. *)
Lemma for_each_keys_NoDup (l : list X) (tag : Z * Z * Z * Z -> X) :
  NoDup l ->
  (forall x, In x l -> NoDup (upload_keys (fst (body x)))) ->
  (forall x k, In x l -> In k (upload_keys (fst (body x))) -> tag k = x) ->
  NoDup (upload_keys (fst (for_each l body))).
Proof.
  induction l as [| x l IH]; intros Hnd Hbody Htag; [constructor |].
  cbn [for_each]. rewrite bind_log, upload_keys_app.
  inversion Hnd as [| ? ? Hx Hl]; subst.
  destruct (snd (body x)).
  - apply NoDup_app.
    + apply Hbody. left; reflexivity.
    + apply IH; [exact Hl | |]; intros; [apply Hbody | apply Htag]; auto; right; auto.
    + intros k Hk1 Hk2. apply for_each_keys in Hk2. destruct Hk2 as (x' & Hx' & Hk2).
      apply Hx. rewrite <- (Htag x k (or_introl eq_refl) Hk1).
      rewrite (Htag x' k (or_intror Hx') Hk2). exact Hx'.
  - rewrite app_nil_r. apply Hbody. left; reflexivity.
Qed.

End LoopKeys.

(** ** One unit, tile by tile *)

Lemma venue_tiles_sound (zoom : Z) (pts : list (R * R)) :
  forall tiles0 tiles,
    venue_tiles zoom tiles0 pts = Ok tiles ->
    (NoDup tiles0 -> NoDup tiles) /\
    (forall t, In t tiles ->
       In t tiles0 \/
       exists venue, In venue pts /\
         convert_coords_to_tile (fst venue) (snd venue) zoom = Ok t).
Proof.
  induction pts as [| venue pts IH]; intros tiles0 tiles H; cbn [venue_tiles] in H.
  - injection H as <-. split; auto.
  - destruct (convert_coords_to_tile (fst venue) (snd venue) zoom) as [t |] eqn:Ht;
      [| discriminate].
    cbn [rbind] in H. destruct (IH _ _ H) as [Hnd Hin]. split.
    + intros H0. apply Hnd, append_if_new_NoDup, H0.
    + intros u Hu. destruct (Hin u Hu) as [Hu0 | (v & Hv & Hc)].
      * apply in_append_if_new in Hu0. destruct Hu0 as [Hu0 | ->]; [left; exact Hu0 |].
        right. exists venue. split; [left; reflexivity | exact Ht].
      * right. exists v. split; [right; exact Hv | exact Hc].
Qed.

Lemma generate_tile_key (Img : Type) (env : Env Img) (category zoom : Z)
    (t : tile) (k : Z * Z * Z * Z) :
  In k (upload_keys (fst (generate_tile env category zoom (fst t) (snd t)))) ->
  k = (category, zoom, fst t, snd t).
Proof.
  intros Hk.
  destruct (generate_tile_keys env category zoom (fst t) (snd t)) as [E | E];
    rewrite E in Hk; [destruct Hk | destruct Hk as [<- | []]; reflexivity].
Qed.

Lemma tile_unit_keys (Img : Type) (env : Env Img)
    (category zoom : Z) (lat lng : R) :
  let keys := upload_keys (fst (generate_heatmap_by_tile env category zoom lat lng)) in
  NoDup keys /\ forall k, In k keys -> unit_of_key k = (category, zoom).
Proof.
  intros keys. subst keys. unfold generate_heatmap_by_tile.
  destruct (select_within env category lng lat RADIUS) as [rows |];
    [| split; [constructor | intros ? []]].
  rewrite bind_call_ok. cbn [fst upload_keys flat_map app].
  change (flat_map _ ?l) with (upload_keys l).
  destruct (venue_tiles zoom [] rows) as [tiles |] eqn:Ht;
    [| split; [constructor | intros ? []]].
  rewrite bind_lift_ok.
  destruct (venue_tiles_sound _ _ _ Ht) as [Hnd _].
  specialize (Hnd (NoDup_nil _)).
  split.
  - apply for_each_keys_NoDup with (tag := fun k => (snd (fst k), snd k)).
    + apply sorted_NoDup. exact Hnd.
    + intros t _.
      destruct (generate_tile_keys env category zoom (fst t) (snd t)) as [E | E];
        rewrite E; repeat constructor. intros [].
    + intros t k _ Hk. rewrite (@generate_tile_key _ env category zoom t k Hk). destruct t; reflexivity.
  - intros k Hin. apply for_each_keys in Hin.
    destruct Hin as (t & _ & Hk). rewrite (@generate_tile_key _ env category zoom t k Hk). reflexivity.
Qed.

(** X15: one unit of tile-by-tile work uploads no key twice; every key
    carries the category and zoom of the unit, and its tile is the tile of
    a venue returned by the unit's query. *)
Theorem tile_unit_uploads_venue_tiles (Img : Type) (env : Env Img)
    (category zoom : Z) (lat lng : R) :
  let keys := upload_keys (fst (generate_heatmap_by_tile env category zoom lat lng)) in
  NoDup keys /\
  forall c z x y, In (c, z, x, y) keys ->
    c = category /\ z = zoom /\
    exists rows venue,
      select_within env category lng lat RADIUS = Ok rows /\ In venue rows /\
      convert_coords_to_tile (fst venue) (snd venue) zoom = Ok (x, y).
Proof.
  intros keys. split; [apply tile_unit_keys |].
  subst keys. unfold generate_heatmap_by_tile.
  destruct (select_within env category lng lat RADIUS) as [rows |];
    [| intros ? ? ? ? []].
  rewrite bind_call_ok. cbn [fst upload_keys flat_map app].
  change (flat_map _ ?l) with (upload_keys l).
  destruct (venue_tiles zoom [] rows) as [tiles |] eqn:Ht; [| intros ? ? ? ? []].
  rewrite bind_lift_ok.
  destruct (venue_tiles_sound _ _ _ Ht) as [_ Hsound].
  intros c z x y Hin. apply for_each_keys in Hin.
  destruct Hin as (t & Ht' & Hk). apply generate_tile_key in Hk.
  injection Hk as -> -> -> ->.
  split; [reflexivity |]. split; [reflexivity |].
  apply (Permutation_in _ (Permutation_sym (sorted_perm tiles))) in Ht'.
  destruct (Hsound t Ht') as [[] | (venue & Hv & Hc)].
  exists rows, venue. split; [reflexivity |]. split; [exact Hv |].
  rewrite Hc. destruct t; reflexivity.
Qed.

(** ** One unit, the city as a whole *)

Lemma locate_venue_inv (zoom d : Z) (tiles tiles' : list tile) (venue : R * R) :
  locate_venue zoom d tiles venue = Ok tiles' ->
  exists t px py,
    convert_coords_to_tile (snd venue) (fst venue) zoom = Ok t /\
    tiles' = add_neighbors (fst t) (snd t) px py d (append_if_new t tiles).
Proof.
  unfold locate_venue.
  destruct (convert_coords_to_tile (snd venue) (fst venue) zoom) as [t |];
    [| discriminate].
  cbn [rbind]. destruct (normalize _ _ _ _ venue) as [pixel |]; [| discriminate].
  cbn [rbind]. intros [= <-]. exists t, (fst pixel), (snd pixel). auto.
Qed.

Lemma locate_tiles_sound (zoom d : Z) (pts : list (R * R)) :
  forall tiles0 tiles,
    locate_tiles zoom d tiles0 pts = Ok tiles ->
    (NoDup tiles0 -> NoDup tiles) /\
    (forall u, In u tiles ->
       In u tiles0 \/
       exists venue t, In venue pts /\
         convert_coords_to_tile (snd venue) (fst venue) zoom = Ok t /\
         (fst t - 1 <= fst u <= fst t + 1)%Z /\ (snd t - 1 <= snd u <= snd t + 1)%Z).
Proof.
  induction pts as [| venue pts IH]; intros tiles0 tiles H; cbn [locate_tiles] in H.
  - injection H as <-. split; auto.
  - destruct (locate_venue zoom d tiles0 venue) as [tiles1 |] eqn:E; [| discriminate].
    cbn [rbind] in H. destruct (IH _ _ H) as [Hnd Hnear].
    destruct (locate_venue_inv _ _ _ _ E) as (t & px & py & Ht & ->). split.
    + intros H0. apply Hnd, add_neighbors_NoDup, append_if_new_NoDup, H0.
    + intros u Hu. destruct (Hnear u Hu) as [Hu1 | (v & tv & Hv & Hc & Hb)].
      * apply add_neighbors_near in Hu1. destruct Hu1 as [Hu0 | Hb].
        -- apply in_append_if_new in Hu0.
           destruct Hu0 as [Hu0 | ->]; [left; exact Hu0 |].
           right. exists venue, t. split; [left; reflexivity |].
           split; [exact Ht | lia].
        -- right. exists venue, t. split; [left; reflexivity |].
           split; [exact Ht | exact Hb].
      * right. exists v, tv. split; [right; exact Hv | auto].
Qed.

Lemma slice_canvas_keys (Img : Type) (env : Env Img) (category zoom : Z) (img : Img)
    (nw : tile) (nx ny : Z) (tiles : list tile) :
  upload_keys (fst (slice_canvas env category zoom img nw nx ny tiles))
    = map (fun ij : Z * Z => (category, zoom, fst nw + fst ij, snd nw + snd ij)%Z)
          (filter (fun ij => tile_in (cell_tile nw ij) tiles) (grid nx ny)).
Proof.
  rewrite slice_canvas_log. cbn [fst].
  induction (filter _ (grid nx ny)) as [| ij l IH]; [reflexivity |].
  cbn [map upload_keys flat_map app]. f_equal. exact IH.
Qed.

Lemma render_city_uploads (Img : Type) (env : Env Img) (category zoom : Z)
    (params : zoom_parameters) (pts : list (R * R)) :
  let run := render_city env category zoom params pts in
  NoDup (upload_keys (fst run)) /\
  forall c z x y, In (c, z, x, y) (upload_keys (fst run)) ->
    c = category /\ z = zoom /\
    exists venue t, In venue pts /\
      convert_coords_to_tile (snd venue) (fst venue) zoom = Ok t /\
      (fst t - 1 <= x <= fst t + 1)%Z /\ (snd t - 1 <= y <= snd t + 1)%Z.
Proof.
  intros run. subst run. unfold render_city.
  assert (Hnone : forall l : list (event Img), upload_keys l = [] ->
            NoDup (upload_keys l) /\
            forall c z x y, In (c, z, x, y) (upload_keys l) ->
              c = category /\ z = zoom /\
              exists venue t, In venue pts /\
                convert_coords_to_tile (snd venue) (fst venue) zoom = Ok t /\
                (fst t - 1 <= x <= fst t + 1)%Z /\ (snd t - 1 <= y <= snd t + 1)%Z).
  { intros l ->. split; [constructor | intros ? ? ? ? []]. }
  destruct (locate_tiles zoom (dotsize params) [] pts) as [tiles0 |] eqn:Hloc;
    [| apply (Hnone []); reflexivity].
  rewrite bind_lift_ok.
  destruct (bounding_box (sorted tiles0)) as [[nw se] |];
    [| apply (Hnone []); reflexivity].
  rewrite bind_lift_ok. cbn [fst snd].
  destruct (normalize_all _ _ _ _ pts) as [npts |];
    [| apply (Hnone []); reflexivity].
  rewrite bind_lift_ok.
  destruct (heatmap env npts _ _ _) as [img |];
    [| apply (Hnone [_]); reflexivity].
  rewrite bind_call_ok. cbn [fst snd upload_keys flat_map app].
  change (flat_map _ ?l) with (upload_keys l).
  rewrite slice_canvas_keys. split.
  - apply Finite.Injective_map_NoDup.
    + intros [i j] [i' j'] E. cbn [fst snd] in E. injection E as E1 E2.
      f_equal; lia.
    + apply NoDup_filter, grid_NoDup.
  - intros c z x y Hin. apply in_map_iff in Hin. destruct Hin as (ij & E & Hij).
    injection E as <- <- <- <-. split; [reflexivity |]. split; [reflexivity |].
    apply filter_In in Hij. destruct Hij as [_ Hij]. apply tile_in_In in Hij.
    apply (Permutation_in _ (Permutation_sym (sorted_perm tiles0))) in Hij.
    destruct (locate_tiles_sound _ _ _ _ Hloc) as [_ Hnear].
    destruct (Hnear _ Hij) as [[] | H]. exact H.
Qed.

Lemma city_attempt_keys (Img : Type) (env : Env Img) (category zoom : Z)
    (lat lng : R) (radius : Z) :
  let run := generate_heatmap_by_city env category zoom lat lng radius in
  NoDup (upload_keys (fst run)) /\
  forall k, In k (upload_keys (fst run)) -> unit_of_key k = (category, zoom).
Proof.
  intros run. subst run. unfold generate_heatmap_by_city.
  assert (Hnone : forall l : list (event Img),
            upload_keys l = [] ->
            NoDup (upload_keys l) /\
            forall k, In k (upload_keys l) -> unit_of_key k = (category, zoom)).
  { intros l ->. split; [constructor | intros ? []]. }
  destruct (select_within env category lng lat radius) as [rows |];
    [| apply (Hnone [_]); reflexivity].
  rewrite bind_call_ok. cbn [fst snd upload_keys flat_map app].
  change (flat_map _ ?l) with (upload_keys l).
  destruct (0 <? length _)%nat; [| apply (Hnone []); reflexivity].
  destruct (dict_get ZOOM_PARAMETERS zoom) as [params |];
    [| apply (Hnone []); reflexivity].
  rewrite bind_lift_ok, bind_log, upload_keys_app, cluster_step_keys.
  cbn [app].
  destruct (snd (cluster_step env params _)) as [kept |];
    [| apply (Hnone []); reflexivity].
  destruct (0 <? length kept)%nat; [| apply (Hnone []); reflexivity].
  destruct (render_city_uploads env category zoom params kept) as (Hnd & Hkeys).
  split; [exact Hnd |].
  intros [[[c z] x] y] Hin. destruct (Hkeys c z x y Hin) as (-> & -> & _). reflexivity.
Qed.

(** X16: one attempt at a city unit uploads no key twice; every key
    carries the category and zoom of the unit and names the tile of a
    venue returned by the query or one of the eight tiles around it. *)
Theorem city_unit_uploads_near_venues (Img : Type) (env : Env Img)
    (category zoom : Z) (lat lng : R) (radius : Z) :
  let run := generate_heatmap_by_city env category zoom lat lng radius in
  NoDup (upload_keys (fst run)) /\
  forall c z x y, In (c, z, x, y) (upload_keys (fst run)) ->
    c = category /\ z = zoom /\
    exists rows row t,
      select_within env category lng lat radius = Ok rows /\ In row rows /\
      convert_coords_to_tile (fst row) (snd row) zoom = Ok t /\
      (fst t - 1 <= x <= fst t + 1)%Z /\ (snd t - 1 <= y <= snd t + 1)%Z.
Proof.
  intros run.
  destruct (city_attempt_keys env category zoom lat lng radius) as (Hnd & _).
  split; [exact Hnd |].
  subst run. unfold generate_heatmap_by_city.
  destruct (select_within env category lng lat radius) as [rows |];
    [| intros ? ? ? ? []].
  rewrite bind_call_ok. cbn [fst snd upload_keys flat_map app].
  change (flat_map _ ?l) with (upload_keys l).
  set (pts := map (fun row : R * R => (snd row, fst row)) rows).
  destruct (0 <? length pts)%nat; [| intros ? ? ? ? []].
  destruct (dict_get ZOOM_PARAMETERS zoom) as [params |]; [| intros ? ? ? ? []].
  rewrite bind_lift_ok, bind_log, upload_keys_app, cluster_step_keys.
  cbn [app].
  destruct (snd (cluster_step env params pts)) as [kept |] eqn:Hkept;
    [| intros ? ? ? ? []].
  destruct (0 <? length kept)%nat; [| intros ? ? ? ? []].
  destruct (render_city_uploads env category zoom params kept) as (_ & Hkeys).
  intros c z x y Hin. destruct (Hkeys c z x y Hin) as (-> & -> & venue & t & Hv & Ht & Hb).
  split; [reflexivity |]. split; [reflexivity |].
  apply (subseq_incl (cluster_step_subseq _ _ _ Hkept)) in Hv.
  unfold pts in Hv. apply in_map_iff in Hv. destruct Hv as (row & <- & Hrow).
  exists rows, row, t. auto.
Qed.

(** ** Whole runs *)

Lemma city_unit_keys (Img : Type) (env : Env Img) (cat z : Z) (lat lng : R) :
  forall k, In k (upload_keys (fst (city_unit env cat z lat lng))) ->
    unit_of_key k = (cat, z).
Proof.
  rewrite city_unit_spec. cbn zeta.
  destruct (city_attempt_keys env cat z lat lng RADIUS) as (_ & Hk1).
  destruct (city_attempt_keys env cat z lat lng (RADIUS - 2500)) as (_ & Hk2).
  destruct (snd (generate_heatmap_by_city env cat z lat lng RADIUS)) as [[] | e].
  - exact Hk1.
  - cbn [fst]. intros k Hk. rewrite upload_keys_app, in_app_iff in Hk.
    destruct Hk as [Hk | Hk]; [apply Hk1 | apply Hk2]; exact Hk.
Qed.

Lemma run_keys (Img : Type) (body : Z * Z -> M Img unit) (run_method : Z) :
  (forall cz k, In k (upload_keys (fst (body cz))) -> unit_of_key k = cz) ->
  forall c z x y,
    In (c, z, x, y) (upload_keys (fst (for_each (units_in_order run_method) body))) ->
    (1 <= c <= 4)%Z /\ (10 <= z <= 16)%Z.
Proof.
  intros Htag c z x y Hin. apply for_each_keys in Hin. destruct Hin as (cz & Hu & Hk).
  apply Htag in Hk. cbn in Hk. subst cz.
  apply units_in_order_spec in Hu. exact Hu.
Qed.

(** X17: a whole run in tile mode, with any run method, never uploads the
    same key (category, zoom, x, y) twice; and in city mode (fallbacks
    included) as in tile mode every key uploaded has a category in 1..4
    and a zoom in 10..16. *)
Theorem tile_run_never_uploads_a_tile_twice (Img : Type) (env : Env Img)
    (lat lng : R) (run_method : Z) :
  let city := upload_keys (fst (generate_all_heatmaps_by_city env lat lng run_method)) in
  let tiled := upload_keys (fst (generate_all_heatmaps_by_tile env lat lng run_method)) in
  NoDup tiled /\
  forall c z x y, In (c, z, x, y) city \/ In (c, z, x, y) tiled ->
    (1 <= c <= 4)%Z /\ (10 <= z <= 16)%Z.
Proof.
  intros city tiled. subst city tiled.
  assert (Hvalid : (run_method = RUN_BY_CATEGORY \/ run_method = RUN_BY_ZOOM) \/
                   (run_method <> RUN_BY_CATEGORY /\ run_method <> RUN_BY_ZOOM)).
  { destruct (Z.eq_dec run_method RUN_BY_CATEGORY); [auto |].
    destruct (Z.eq_dec run_method RUN_BY_ZOOM); auto. }
  destruct Hvalid as [Hm | [H1 H2]].
  - rewrite city_run_as_loop, tile_run_as_loop by exact Hm. split.
    + apply for_each_keys_NoDup with (tag := unit_of_key).
      * apply units_in_order_NoDup.
      * intros cz _. apply (tile_unit_keys env (fst cz) (snd cz) lat lng).
      * intros [c z] k _ Hk. cbn [fst snd] in Hk.
        apply (tile_unit_keys env c z lat lng) in Hk. exact Hk.
    + intros c z x y [H | H]; revert H; apply run_keys.
      * intros [c' z'] k Hk. apply city_unit_keys in Hk. exact Hk.
      * intros [c' z'] k Hk. cbn [fst snd] in Hk.
        apply (tile_unit_keys env c' z' lat lng) in Hk. exact Hk.
  - unfold generate_all_heatmaps_by_city, generate_all_heatmaps_by_tile.
    apply Z.eqb_neq in H1, H2. rewrite H1, H2.
    cbn. split; [constructor | intros ? ? ? ? [[] | []]].
Qed.

(** * The rasteriser wrapper *)

Module Heatmap_cFacts.
Import Heatmap_c.

Lemma py_int_nonneg (v : R) : 0 <= v -> py_int v = Zfloor v.
Proof. intros H. unfold py_int. destruct (Rle_dec 0 v); [reflexivity | contradiction]. Qed.

Lemma py_int_IZR (n : Z) : py_int (IZR n) = n.
Proof.
  unfold py_int. destruct (Rle_dec 0 (IZR n)).
  - apply ZfloorZ.
  - unfold Zceil. rewrite <- opp_IZR, ZfloorZ. lia.
Qed.

Lemma exact_RoundToNearest : RoundToNearest (rnd := exact_Rounding).
Proof. split; [intros x y H; exact H | intros n _; reflexivity]. Qed.

Section Scaling.
Context {rnd : Rounding} {nearest : RoundToNearest}.

Lemma fl_byte (a : Z) : (0 <= a <= 255)%Z -> fl (IZR a) = IZR a.
Proof. intros H. apply fl_integer. lia. Qed.

(** Scaling a byte by an opacity in [0, 1] gives a byte that is not larger. *)
Lemma scaled_alpha (a : Z) (opacity : R) :
  (0 <= a <= 255)%Z -> 0 <= opacity <= 1 ->
  (0 <= py_int (fl (IZR a * opacity)) <= a)%Z.
Proof.
  intros Ha [H0 H1]. pose proof (proj1 Ha) as Ha0. apply IZR_le in Ha0.
  assert (Hlo : 0 <= fl (IZR a * opacity)).
  { assert (F0 : fl (IZR 0) = IZR 0) by (apply fl_byte; lia).
    assert (Hm : fl (IZR 0) <= fl (IZR a * opacity)) by (apply fl_monotone; nra).
    lra. }
  assert (Hhi : fl (IZR a * opacity) <= IZR a).
  { pose proof (fl_byte Ha) as Fa.
    assert (Hm : fl (IZR a * opacity) <= fl (IZR a)) by (apply fl_monotone; nra).
    lra. }
  rewrite py_int_nonneg by exact Hlo. split.
  - apply Zfloor_lub. exact Hlo.
  - apply le_IZR. pose proof (Zfloor_bound (fl (IZR a * opacity))). lra.
Qed.

Lemma faded_bytes (opacity : R) (px : rgba) :
  0 <= opacity <= 1 -> bytes px -> bytes (faded opacity px).
Proof.
  intros Ho. destruct px as [[[r g] b] a]. unfold faded, bytes.
  intros (Hr & Hg & Hb & Ha). destruct (0 <? a)%Z; [| auto].
  pose proof (@scaled_alpha a opacity Ha Ho). repeat split; lia.
Qed.

End Scaling.

Lemma loop_map (S X Y : Type) (h : X -> Y) (l : list X)
    (body : S -> Y -> result S) (s : S) :
  loop (map h l) body s = loop l (fun s x => body s (h x)) s.
Proof.
  revert s. induction l as [| x l IH]; intros s; [reflexivity |].
  cbn [map loop]. destruct (body s (h x)); cbn [rbind]; [apply IH | reflexivity].
Qed.

Section SetOpacity.
Context {I : Type} {pil : PIL I} {lib : Libhm I} {contract : Contract I}.
Context {rnd : Rounding} {nearest : RoundToNearest}.
Variable opacity : R.
Hypothesis opacity_range : 0 <= opacity <= 1.

(** One pixel. *)
Lemma fade_spec (img : I) (xy : Z * Z) :
  inside img xy ->
  exists img', fade img opacity xy = Ok img' /\
    width img' = width img /\ height img' = height img /\
    getpixel img' xy = rmap (faded opacity) (getpixel img xy) /\
    forall xy', xy' <> xy -> getpixel img' xy' = getpixel img xy'.
Proof.
  intros Hin. destruct (getpixel_inside Hin) as (px & Hpx & Hb).
  unfold fade. rewrite Hpx. cbn [rbind rmap].
  pose proof (@faded_bytes rnd nearest opacity px opacity_range Hb) as Hfb.
  destruct px as [[[r g] b] a]. unfold faded in *.
  destruct (0 <? a)%Z.
  - destruct (putpixel_inside (r, g, b, py_int (fl (IZR a * opacity))) Hin Hfb)
      as (img' & Hput & Hw & Hh & Hsame & Hother).
    exists img'. auto.
  - exists img. rewrite Hpx. auto.
Qed.

(** One run of the loop over [l]: the listed pixels are faded, the others
    kept. *)
Lemma fade_list (l : list (Z * Z)) :
  forall img : I,
    NoDup l -> (forall xy, In xy l -> inside img xy) ->
    exists img', loop l (fun img xy => fade img opacity xy) img = Ok img' /\
      width img' = width img /\ height img' = height img /\
      (forall xy, In xy l ->
         getpixel img' xy = rmap (faded opacity) (getpixel img xy)) /\
      (forall xy, ~ In xy l -> getpixel img' xy = getpixel img xy).
Proof.
  induction l as [| xy0 l IH]; intros img Hnd Hin.
  - exists img. cbn. split; [reflexivity |]. split; [reflexivity |].
    split; [reflexivity |]. split; [intros ? [] | reflexivity].
  - inversion Hnd as [| ? ? Hnotin Hnd']; subst.
    destruct (fade_spec (Hin xy0 (or_introl eq_refl)))
      as (img1 & Hf & Hw1 & Hh1 & Hsame1 & Hother1).
    destruct (IH img1 Hnd') as (img' & Hl & Hw & Hh & Hsame & Hother).
    { intros xy Hxy. unfold inside. rewrite Hw1, Hh1.
      apply Hin. right; exact Hxy. }
    exists img'. cbn [loop]. rewrite Hf. cbn [rbind].
    split; [exact Hl |]. split; [congruence |]. split; [congruence |]. split.
    + intros xy [<- | Hxy].
      * rewrite (Hother xy0 Hnotin). exact Hsame1.
      * rewrite (Hsame xy Hxy), Hother1; [reflexivity |].
        intros ->. contradiction.
    + intros xy Hxy. rewrite Hother by (intros H; apply Hxy; right; exact H).
      apply Hother1. intros ->. apply Hxy. left; reflexivity.
Qed.

(** The two nested loops visit every pixel once. *)
Lemma columns_spec (xs : list Z) :
  forall img : I,
    NoDup xs -> (forall x, In x xs -> (0 <= x < width img)%Z) ->
    exists img',
      loop xs (fun img x =>
                 loop (Py.range 0 (height img) 1)
                      (fun img y => fade img opacity (x, y)) img) img = Ok img' /\
      width img' = width img /\ height img' = height img /\
      (forall xy, In (fst xy) xs -> (0 <= snd xy < height img)%Z ->
         getpixel img' xy = rmap (faded opacity) (getpixel img xy)) /\
      (forall xy, ~ In (fst xy) xs -> getpixel img' xy = getpixel img xy).
Proof.
  induction xs as [| x xs IH]; intros img Hnd Hin.
  - exists img. cbn. split; [reflexivity |]. split; [reflexivity |].
    split; [reflexivity |]. split; [intros ? [] | reflexivity].
  - inversion Hnd as [| ? ? Hnotin Hnd']; subst.
    destruct (@fade_list (map (pair x) (Py.range 0 (height img) 1)) img)
      as (img1 & Hcol & Hw1 & Hh1 & Hsame1 & Hother1).
    { apply Finite.Injective_map_NoDup; [| apply PyFacts.range_NoDup].
      intros a b E. injection E as ->. reflexivity. }
    { intros xy Hxy. apply in_map_iff in Hxy. destruct Hxy as (y & <- & Hy).
      apply PyFacts.in_range_step1 in Hy. split; cbn [fst snd]; [| exact Hy].
      apply Hin. left; reflexivity. }
    rewrite loop_map in Hcol.
    destruct (IH img1 Hnd') as (img' & Hl & Hw & Hh & Hsame & Hother).
    { intros x' Hx'. rewrite Hw1. apply Hin. right; exact Hx'. }
    exists img'. cbn [loop]. rewrite Hcol. cbn [rbind].
    split; [exact Hl |]. split; [congruence |]. split; [congruence |]. split.
    + intros [x' y] [E | Hx'] Hy; cbn [fst snd] in *.
      * subst x'. rewrite Hother by (cbn [fst]; exact Hnotin).
        apply Hsame1. apply in_map_iff. exists y. split; [reflexivity |].
        apply PyFacts.in_range_step1. exact Hy.
      * rewrite Hsame; [| exact Hx' | cbn [snd]; rewrite Hh1; exact Hy].
        rewrite Hother1; [reflexivity |].
        intros H. apply in_map_iff in H. destruct H as (y' & E & _).
        injection E as -> _. contradiction.
    + intros [x' y] Hx'. cbn [fst] in Hx'.
      rewrite Hother by (cbn [fst]; intros H; apply Hx'; right; exact H).
      apply Hother1. intros H. apply in_map_iff in H. destruct H as (y' & E & _).
      injection E as -> _. apply Hx'. left; reflexivity.
Qed.

Lemma set_opacity_spec (img : I) :
  exists img', set_opacity img opacity = Ok img' /\
    width img' = width img /\ height img' = height img /\
    forall xy, inside img xy ->
      exists px, getpixel img xy = Ok px /\ bytes px /\
                 getpixel img' xy = Ok (faded opacity px).
Proof.
  destruct (@columns_spec (Py.range 0 (width img) 1) img)
    as (img' & Hrun & Hw & Hh & Hsame & _).
  { apply PyFacts.range_NoDup. }
  { intros x Hx. apply PyFacts.in_range_step1 in Hx. exact Hx. }
  exists img'. split; [exact Hrun |]. split; [exact Hw |]. split; [exact Hh |].
  intros xy [Hx Hy]. destruct (@getpixel_inside _ _ _ _ img xy (conj Hx Hy))
    as (px & Hpx & Hb).
  exists px. split; [exact Hpx |]. split; [exact Hb |].
  rewrite Hsame; [rewrite Hpx; reflexivity | | exact Hy].
  apply PyFacts.in_range_step1. exact Hx.
Qed.

End SetOpacity.


Lemma add_points_stamps (I : Type) (lib : Libhm I) (hm : heatmap_t)
    (stamp : heatmap_stamp_t) (points : list (R * R)) :
  add_points hm stamp points
    = fold_left (fun hm xy => heatmap_add_point_with_stamp hm (fst xy) (snd xy) stamp)
                (stamps points) hm.
Proof.
  unfold add_points. revert hm.
  induction points as [| pt points IH]; intros hm; [reflexivity |].
  cbn [fold_left stamps map]. apply IH.
Qed.

(** A coordinate inside [0, n) with [n] up to 2^64 is handed over as its
    integer part. *)
Lemma stamp_inside (v : R) (n : Z) :
  (n <= 2 ^ 64)%Z -> 0 <= v < IZR n ->
  c_ulong (py_int v) = Zfloor v /\ (0 <= Zfloor v <= n - 1)%Z.
Proof.
  intros Hn [H0 H1]. rewrite py_int_nonneg by exact H0.
  pose proof (Zfloor_bound v) as [Hf1 Hf2].
  assert (Hlo : (0 <= Zfloor v)%Z) by (apply Zfloor_lub; exact H0).
  assert (Hhi : (Zfloor v < n)%Z) by (apply lt_IZR; lra).
  split; [| lia]. unfold c_ulong. apply Z.mod_small. lia.
Qed.

(** The contract holds of the images of the examples. *)
Lemma bm_inside_spec (img : bitmap) (xy : Z * Z) :
  inside img xy -> bm_inside img xy = true.
Proof.
  intros [[H1 H2] [H3 H4]]. cbn [width height bitmap_PIL] in *. unfold bm_inside.
  apply Z.leb_le in H1, H3. apply Z.ltb_lt in H2, H4.
  rewrite H1, H2, H3, H4. reflexivity.
Qed.

Lemma clip_byte (v : Z) : (0 <= v <= 255)%Z -> clip v = v.
Proof. unfold clip. lia. Qed.

Lemma clip_is_byte (v : Z) : (0 <= clip v <= 255)%Z.
Proof. unfold clip. lia. Qed.

Lemma xy_eqb_eq (a b : Z * Z) : xy_eqb a b = true <-> a = b.
Proof.
  destruct a as [a1 a2], b as [b1 b2]. unfold xy_eqb. cbn [fst snd].
  rewrite andb_true_iff, !Z.eqb_eq. split; [intros [-> ->]; reflexivity |].
  intros [= -> ->]. auto.
Qed.

#[export] Instance bitmap_Contract : Contract bitmap.
Proof.
  split.
  - intros img xy Hin. cbn [getpixel bitmap_PIL]. rewrite (bm_inside_spec Hin).
    eexists. split; [reflexivity |].
    destruct (bm_pixel img xy) as [[[r g] b] a]. cbn [clip_rgba bytes].
    repeat split; apply clip_is_byte.
  - intros img xy px Hin Hb. cbn [putpixel bitmap_PIL]. rewrite (bm_inside_spec Hin).
    eexists. split; [reflexivity |]. split; [reflexivity |]. split; [reflexivity |].
    split.
    + cbn [getpixel bitmap_PIL]. unfold bm_inside at 1. cbn [bm_width bm_height bm_pixel].
      fold (bm_inside img xy). rewrite (bm_inside_spec Hin).
      replace (xy_eqb xy xy) with true by (symmetry; apply xy_eqb_eq; reflexivity).
      destruct px as [[[r g] b] a]. cbn [bytes clip_rgba] in *.
      destruct Hb as (Hr & Hg & Hb & Ha). rewrite !clip_byte by assumption. reflexivity.
    + intros xy' Hne. cbn [getpixel bitmap_PIL]. unfold bm_inside at 1.
      cbn [bm_width bm_height bm_pixel]. fold (bm_inside img xy').
      destruct (xy_eqb xy' xy) eqn:E; [apply xy_eqb_eq in E; contradiction |].
      reflexivity.
  - intros size buf. split; reflexivity.
Qed.

End Heatmap_cFacts.

#[local] Existing Instances Heatmap_c.bitmap_PIL Heatmap_c.bitmap_Libhm.

(** X18: under PIL's contract, with products rounded to nearest, and for
    an opacity in [0, 1], [set_opacity] does not raise and keeps the size;
    at every pixel the colour bands stay, an alpha a > 0 becomes the
    integer part of the rounded product a * opacity, which lies in [0, a],
    and an alpha of 0 stays. *)
Theorem set_opacity_scales_every_alpha (I : Type) (pil : Heatmap_c.PIL I)
    (lib : Heatmap_c.Libhm I) (rnd : Heatmap_c.Rounding)
    (contract : Heatmap_c.Contract I) (nearest : Heatmap_c.RoundToNearest)
    (img : I) (opacity : R) :
  0 <= opacity <= 1 ->
  exists img',
    Heatmap_c.set_opacity img opacity = Ok img' /\
    Heatmap_c.width img' = Heatmap_c.width img /\
    Heatmap_c.height img' = Heatmap_c.height img /\
    forall xy, Heatmap_c.inside img xy ->
      exists r g b a a',
        Heatmap_c.getpixel img xy = Ok (r, g, b, a) /\
        Heatmap_c.getpixel img' xy = Ok (r, g, b, a') /\
        a' = (if (0 <? a)%Z
              then Heatmap_c.py_int (Heatmap_c.fl (IZR a * opacity)) else a) /\
        (0 <= a' <= a)%Z.
Proof.
  intros Ho.
  destruct (@Heatmap_cFacts.set_opacity_spec I pil lib contract rnd nearest
              opacity Ho img) as (img' & Hrun & Hw & Hh & Hpx).
  exists img'. split; [exact Hrun |]. split; [exact Hw |]. split; [exact Hh |].
  intros xy Hin. destruct (Hpx xy Hin) as ([[[r g] b] a] & Hget & Hb & Hget').
  cbn [Heatmap_c.bytes] in Hb. destruct Hb as (_ & _ & _ & Ha).
  exists r, g, b, a. unfold Heatmap_c.faded in Hget'.
  destruct (0 <? a)%Z eqn:Epos.
  - exists (Heatmap_c.py_int (Heatmap_c.fl (IZR a * opacity))).
    split; [exact Hget |]. split; [exact Hget' |]. split; [reflexivity |].
    apply Heatmap_cFacts.scaled_alpha; [exact Ha | exact Ho].
  - exists a. split; [exact Hget |]. split; [exact Hget' |]. split; [reflexivity | lia].
Qed.

Lemma set_opacity_scales_every_alpha_witness :
  exists img',
    Heatmap_c.set_opacity (pil := Heatmap_c.bitmap_PIL)
      (rnd := Heatmap_c.exact_Rounding) Heatmap_c.red_square (1 / 2) = Ok img' /\
    Heatmap_c.width img' = 2%Z /\ Heatmap_c.height img' = 2%Z.
Proof.
  destruct (@set_opacity_scales_every_alpha Heatmap_c.bitmap Heatmap_c.bitmap_PIL
              Heatmap_c.bitmap_Libhm Heatmap_c.exact_Rounding
              Heatmap_cFacts.bitmap_Contract Heatmap_cFacts.exact_RoundToNearest
              Heatmap_c.red_square (1 / 2)) as (img' & Hrun & Hw & Hh & _); [lra |].
  exists img'. split; [exact Hrun |]. split; [exact Hw | exact Hh].
Defined.

(** X19: under PIL's contract and with products rounded to nearest, an
    opacity of 1 leaves every pixel as it was, and an opacity of 0 makes
    every pixel fully transparent and keeps its colour bands. *)
Theorem set_opacity_extremes (I : Type) (pil : Heatmap_c.PIL I)
    (lib : Heatmap_c.Libhm I) (rnd : Heatmap_c.Rounding)
    (contract : Heatmap_c.Contract I) (nearest : Heatmap_c.RoundToNearest)
    (img : I) :
  (exists img1,
     Heatmap_c.set_opacity img 1 = Ok img1 /\
     forall xy, Heatmap_c.inside img xy ->
       Heatmap_c.getpixel img1 xy = Heatmap_c.getpixel img xy) /\
  (exists img0,
     Heatmap_c.set_opacity img 0 = Ok img0 /\
     forall xy, Heatmap_c.inside img xy ->
       exists r g b a,
         Heatmap_c.getpixel img xy = Ok (r, g, b, a) /\
         Heatmap_c.getpixel img0 xy = Ok (r, g, b, 0%Z)).
Proof.
  split.
  - destruct (@Heatmap_cFacts.set_opacity_spec I pil lib contract rnd nearest
                1 ltac:(lra) img) as (img1 & Hrun & _ & _ & Hpx).
    exists img1. split; [exact Hrun |]. intros xy Hin.
    destruct (Hpx xy Hin) as ([[[r g] b] a] & Hget & Hb & Hget').
    cbn [Heatmap_c.bytes] in Hb. destruct Hb as (_ & _ & _ & Ha).
    rewrite Hget, Hget'. unfold Heatmap_c.faded.
    rewrite Rmult_1_r, (Heatmap_cFacts.fl_byte (conj (proj1 Ha) (proj2 Ha))),
      Heatmap_cFacts.py_int_IZR.
    destruct (0 <? a)%Z; reflexivity.
  - destruct (@Heatmap_cFacts.set_opacity_spec I pil lib contract rnd nearest
                0 ltac:(lra) img) as (img0 & Hrun & _ & _ & Hpx).
    exists img0. split; [exact Hrun |]. intros xy Hin.
    destruct (Hpx xy Hin) as ([[[r g] b] a] & Hget & Hb & Hget').
    cbn [Heatmap_c.bytes] in Hb. destruct Hb as (_ & _ & _ & [Ha0 Ha1]).
    exists r, g, b, a. split; [exact Hget |]. rewrite Hget'.
    unfold Heatmap_c.faded. destruct (0 <? a)%Z eqn:Epos.
    + rewrite Rmult_0_r.
      assert (F0 : Heatmap_c.fl (IZR 0) = IZR 0)
        by (apply Heatmap_cFacts.fl_byte; lia).
      rewrite F0, Heatmap_cFacts.py_int_IZR. reflexivity.
    + apply Z.ltb_ge in Epos. do 2 f_equal. lia.
Qed.

Lemma set_opacity_extremes_witness :
  exists img1,
    Heatmap_c.set_opacity (pil := Heatmap_c.bitmap_PIL)
      (rnd := Heatmap_c.exact_Rounding) Heatmap_c.red_square 1 = Ok img1 /\
    Heatmap_c.getpixel img1 (0, 0)%Z = Ok (255, 0, 0, 255)%Z.
Proof.
  destruct (@set_opacity_extremes Heatmap_c.bitmap Heatmap_c.bitmap_PIL
              Heatmap_c.bitmap_Libhm Heatmap_c.exact_Rounding
              Heatmap_cFacts.bitmap_Contract Heatmap_cFacts.exact_RoundToNearest
              Heatmap_c.red_square) as [(img1 & Hrun & Hpx) _].
  exists img1. split; [exact Hrun |].
  rewrite Hpx; [reflexivity |]. split; cbn; lia.
Defined.

(** X20: the wrapper hands the points to the C library in order, each as
    (c_ulong(int(x)), c_ulong(int(y))).  With opacity 1 it returns the
    library's image untouched; with an opacity in [0, 1) it returns an
    image of the size asked for whose pixels are the library's with the
    alpha scaled.  For points on the canvas, 0 <= x < width and
    0 <= y < height, with sides of at most 2^64 pixels, the coordinates
    handed over are the integer parts of the points and name pixels of
    the canvas: they lie in [0, width - 1] x [0, height - 1]. *)
Theorem heatmap_wrapper (I : Type) (pil : Heatmap_c.PIL I)
    (lib : Heatmap_c.Libhm I) (rnd : Heatmap_c.Rounding)
    (contract : Heatmap_c.Contract I) (nearest : Heatmap_c.RoundToNearest)
    (points : list (R * R)) (dotsize : Z) (size : Z * Z)
    (color_scheme : option Heatmap_c.heatmap_colorscheme_t) :
  let stamp := Heatmap_c.heatmap_stamp_gen (Heatmap_c.c_ulong dotsize) in
  let hm :=
    fold_left (fun hm xy =>
                 Heatmap_c.heatmap_add_point_with_stamp hm (fst xy) (snd xy) stamp)
              (Heatmap_c.stamps points)
              (Heatmap_c.heatmap_new (fst size) (snd size)) in
  let rendered :=
    Heatmap_c.frombuffer size
      match color_scheme with
      | None => Heatmap_c.heatmap_render_default_to hm
      | Some scheme => Heatmap_c.heatmap_render_to hm scheme
      end in
  Heatmap_c.heatmap points dotsize 1 size color_scheme = Ok rendered /\
  (forall opacity, 0 <= opacity < 1 ->
     exists img,
       Heatmap_c.heatmap points dotsize opacity size color_scheme = Ok img /\
       Heatmap_c.width img = fst size /\ Heatmap_c.height img = snd size /\
       forall xy, (0 <= fst xy < fst size)%Z -> (0 <= snd xy < snd size)%Z ->
         exists px, Heatmap_c.getpixel rendered xy = Ok px /\
                    Heatmap_c.getpixel img xy = Ok (Heatmap_c.faded opacity px)) /\
  ((fst size <= 2 ^ 64)%Z -> (snd size <= 2 ^ 64)%Z ->
   (forall q, In q points ->
      0 <= fst q < IZR (fst size) /\ 0 <= snd q < IZR (snd size)) ->
   Heatmap_c.stamps points = map (fun q => (Zfloor (fst q), Zfloor (snd q))) points /\
   forall p, In p (Heatmap_c.stamps points) ->
     (0 <= fst p <= fst size - 1)%Z /\ (0 <= snd p <= snd size - 1)%Z).
Proof.
  intros stamp hm rendered.
  assert (Hlib : forall opacity,
            Heatmap_c.heatmap points dotsize opacity size color_scheme
              = if Req_dec_T opacity 1 then Ok rendered
                else Heatmap_c.set_opacity rendered opacity).
  { intros opacity. unfold Heatmap_c.heatmap.
    cbn zeta. rewrite Heatmap_cFacts.add_points_stamps.
    fold stamp. fold hm. destruct size as [w h]. reflexivity. }
  split; [| split].
  - rewrite Hlib. destruct (Req_dec_T 1 1); [reflexivity | contradiction].
  - intros opacity Ho. rewrite Hlib.
    destruct (Req_dec_T opacity 1) as [E | _]; [lra |].
    destruct (@Heatmap_cFacts.set_opacity_spec I pil lib contract rnd nearest
                opacity ltac:(lra) rendered) as (img & Hrun & Hw & Hh & Hpx).
    destruct (@Heatmap_c.frombuffer_size I pil lib contract size
                match color_scheme with
                | None => Heatmap_c.heatmap_render_default_to hm
                | Some scheme => Heatmap_c.heatmap_render_to hm scheme
                end) as [Hw0 Hh0].
    fold rendered in Hw0, Hh0.
    exists img. split; [exact Hrun |]. split; [congruence |]. split; [congruence |].
    intros xy Hx Hy.
    destruct (Hpx xy) as (px & Hget & _ & Hget').
    { split; [rewrite Hw0; exact Hx | rewrite Hh0; exact Hy]. }
    exists px. auto.
  - intros Hw Hh Hpts. split.
    + unfold Heatmap_c.stamps. apply map_ext_in. intros q Hq.
      destruct (Hpts q Hq) as [Hx Hy].
      destruct (Heatmap_cFacts.stamp_inside Hw Hx) as [-> _].
      destruct (Heatmap_cFacts.stamp_inside Hh Hy) as [-> _]. reflexivity.
    + intros p Hp. unfold Heatmap_c.stamps in Hp. apply in_map_iff in Hp.
      destruct Hp as (q & <- & Hq). destruct (Hpts q Hq) as [Hx Hy].
      destruct (Heatmap_cFacts.stamp_inside Hw Hx) as [-> Hbx].
      destruct (Heatmap_cFacts.stamp_inside Hh Hy) as [-> Hby].
      cbn [fst snd]. auto.
Qed.

Lemma heatmap_wrapper_witness :
  exists img,
    Heatmap_c.heatmap (pil := Heatmap_c.bitmap_PIL) (lib := Heatmap_c.bitmap_Libhm)
      (rnd := Heatmap_c.exact_Rounding)
      [(0.5, 1.5)] 10 (1 / 2) (4, 4)%Z None = Ok img /\
    Heatmap_c.width img = 4%Z /\ Heatmap_c.height img = 4%Z.
Proof.
  destruct (@heatmap_wrapper Heatmap_c.bitmap Heatmap_c.bitmap_PIL
              Heatmap_c.bitmap_Libhm Heatmap_c.exact_Rounding
              Heatmap_cFacts.bitmap_Contract Heatmap_cFacts.exact_RoundToNearest
              [(0.5, 1.5)] 10 (4, 4)%Z None) as (_ & Hfade & _).
  destruct (Hfade (1 / 2)) as (img & Hrun & Hw & Hh & _); [lra |].
  exists img. split; [exact Hrun |]. split; [exact Hw | exact Hh].
Defined.

(** * The metric DBSCAN is given *)

Lemma asin_le (u v : R) : -1 <= u -> u <= v -> v <= 1 -> asin u <= asin v.
Proof.
  intros Hu Huv Hv.
  assert (Bu : -1 <= u <= 1) by lra. assert (Bv : -1 <= v <= 1) by lra.
  pose proof (asin_bound u) as [Hu1 Hu2]. pose proof (asin_bound v) as [Hv1 Hv2].
  apply sin_incr_0; try assumption.
  rewrite !sin_asin by assumption. exact Huv.
Qed.

(** Two samples with the same first component. *)
Lemma haversine_same_fst (x y : R * R) :
  fst x = fst y ->
  haversine x y = 2 * asin (Rabs (cos (fst x)) * Rabs (sin ((snd x - snd y) / 2))).
Proof.
  intros Hf. unfold haversine. rewrite <- Hf, Rminus_diag.
  replace (0 / 2) with 0 by lra. rewrite sin_0, Rsqr_0, Rplus_0_l.
  replace (cos (fst x) * cos (fst x) * (sin ((snd x - snd y) / 2))²)
    with ((cos (fst x) * sin ((snd x - snd y) / 2))²) by (unfold Rsqr; ring).
  rewrite sqrt_Rsqr_abs, Rabs_mult. reflexivity.
Qed.

Lemma abs_sin_half (d : R) :
  - PI <= d <= PI -> 2 * asin (Rabs (sin (d / 2))) = Rabs d.
Proof.
  intros [Hlo Hhi].
  pose proof (@haversine_same_snd (d, 0) (0, 0) eq_refl) as H.
  cbn [fst snd] in H. rewrite Rminus_0_r in H. specialize (H (conj Hlo Hhi)).
  unfold haversine in H. cbn [fst snd] in H.
  rewrite Rminus_0_r, Rminus_diag in H.
  replace (0 / 2) with 0 in H by lra.
  rewrite sin_0, Rsqr_0, Rmult_0_r, Rplus_0_r, sqrt_Rsqr_abs in H. exact H.
Qed.

Lemma city_unit_fit (Img : Type) (env : Env Img) (category zoom : Z) (lat lng : R)
    (radius : Z) (rows : list (R * R)) (params : zoom_parameters) :
  select_within env category lng lat radius = Ok rows ->
  rows <> [] ->
  dict_get ZOOM_PARAMETERS zoom = Ok params ->
  cluster params = true ->
  In (Fit (cluster_epsilon params / kms_per_radian) (cluster_neighbors params)
          (map (fun row => (snd row * (PI / 180), fst row * (PI / 180))) rows))
     (fst (generate_heatmap_by_city env category zoom lat lng radius)).
Proof.
  intros Hrows Hne Hparams Hc. unfold generate_heatmap_by_city.
  rewrite Hrows, bind_call_ok. right. cbn [fst].
  rewrite length_map. destruct rows as [| row rows']; [congruence |].
  cbn [length Nat.ltb Nat.leb]. rewrite Hparams, bind_lift_ok.
  rewrite bind_log, in_app_iff. left.
  rewrite cluster_step_log, Hc. left. f_equal.
  unfold np_radians. rewrite map_map. reflexivity.
Qed.

(** X21: city mode hands DBSCAN the venues as (lng, lat) in radians, and
    the haversine metric reads the first component as the latitude.  For
    two venues on the same parallel, at most 180 degrees of longitude
    apart, the distance DBSCAN works with is the difference of longitudes
    in radians, whatever the latitude; the great-circle distance of the
    two venues, 2 asin(|cos lat| |sin(dlng / 2)|), is never larger. *)
Theorem dbscan_reads_longitude_as_latitude (Img : Type) (env : Env Img)
    (category zoom : Z) (lat lng : R) (radius : Z)
    (rows : list (R * R)) (params : zoom_parameters) :
  select_within env category lng lat radius = Ok rows ->
  rows <> [] ->
  dict_get ZOOM_PARAMETERS zoom = Ok params ->
  cluster params = true ->
  let as_passed := fun row : R * R => (snd row * (PI / 180), fst row * (PI / 180)) in
  let as_documented := fun row : R * R => (fst row * (PI / 180), snd row * (PI / 180)) in
  In (Fit (cluster_epsilon params / kms_per_radian) (cluster_neighbors params)
          (map as_passed rows))
     (fst (generate_heatmap_by_city env category zoom lat lng radius)) /\
  forall r1 r2 : R * R,
    fst r1 = fst r2 -> -180 <= snd r1 - snd r2 <= 180 ->
    haversine (as_passed r1) (as_passed r2) = Rabs (snd r1 - snd r2) * (PI / 180) /\
    haversine (as_documented r1) (as_documented r2)
      = 2 * asin (Rabs (cos (fst r1 * (PI / 180)))
                  * Rabs (sin ((snd r1 - snd r2) * (PI / 180) / 2))) /\
    haversine (as_documented r1) (as_documented r2)
      <= haversine (as_passed r1) (as_passed r2).
Proof.
  intros Hrows Hne Hparams Hc as_passed as_documented.
  split; [apply city_unit_fit; assumption |].
  intros r1 r2 Hlat [Hlo Hhi]. pose proof PI_RGT_0 as Hpi.
  set (d := (snd r1 - snd r2) * (PI / 180)).
  assert (Hd : - PI <= d <= PI) by (unfold d; split; nra).
  assert (Habs : Rabs d = Rabs (snd r1 - snd r2) * (PI / 180)).
  { unfold d. rewrite Rabs_mult. f_equal. apply Rabs_pos_eq. lra. }
  assert (Hpassed : haversine (as_passed r1) (as_passed r2) = Rabs d).
  { rewrite haversine_same_snd.
    - unfold as_passed, d. cbn [fst]. f_equal. ring.
    - unfold as_passed. cbn [snd]. rewrite Hlat. reflexivity.
    - unfold as_passed. cbn [fst].
      replace (snd r1 * (PI / 180) - snd r2 * (PI / 180)) with d by (unfold d; ring).
      exact Hd. }
  assert (Hdoc : haversine (as_documented r1) (as_documented r2)
                 = 2 * asin (Rabs (cos (fst r1 * (PI / 180))) * Rabs (sin (d / 2)))).
  { rewrite haversine_same_fst.
    - unfold as_documented. cbn [fst snd].
      replace ((snd r1 * (PI / 180) - snd r2 * (PI / 180)) / 2) with (d / 2)
        by (unfold d; lra).
      reflexivity.
    - unfold as_documented. cbn [fst]. rewrite Hlat. reflexivity. }
  split; [rewrite Hpassed; exact Habs |]. split; [exact Hdoc |].
  rewrite Hdoc, Hpassed, <- (abs_sin_half Hd).
  apply Rmult_le_compat_l; [lra |].
  pose proof (Rabs_pos (cos (fst r1 * (PI / 180)))) as Hc0.
  pose proof (Rabs_pos (sin (d / 2))) as Hs0.
  assert (Hc1 : Rabs (cos (fst r1 * (PI / 180))) <= 1).
  { apply Rabs_le. pose proof (COS_bound (fst r1 * (PI / 180))). lra. }
  assert (Hs1 : Rabs (sin (d / 2)) <= 1).
  { apply Rabs_le. pose proof (SIN_bound (d / 2)). lra. }
  apply asin_le; nra.
Qed.

Lemma dbscan_reads_longitude_as_latitude_witness :
  In (Fit (cluster_epsilon zoom_12 / kms_per_radian) (cluster_neighbors zoom_12)
          (map (fun row : R * R => (snd row * (PI / 180), fst row * (PI / 180)))
               venues_at_center))
     (fst (generate_heatmap_by_city (example_env (fun _ => false)) 1 12 40.74 (-74)
             RADIUS)).
Proof.
  apply (@dbscan_reads_longitude_as_latitude picture (example_env (fun _ => false))
           1 12 40.74 (-74) RADIUS venues_at_center zoom_12).
  - reflexivity.
  - discriminate.
  - reflexivity.
  - reflexivity.
Defined.

(** * A venue at the south pole *)

Lemma convert_coords_to_tile_raises (lat lng : R) (zoom : Z) (e : exn) :
  convert_coords_to_tile lat lng zoom = Raise e -> e = ValueError.
Proof.
  unfold convert_coords_to_tile, convert_coords_to_mercator_point, Py.math_log.
  destruct (Rlt_dec 0 _); cbn; [discriminate | intros [= <-]; reflexivity].
Qed.

Lemma south_pole_tile (lng : R) (zoom : Z) :
  convert_coords_to_tile (-90) lng zoom = Raise ValueError.
Proof. unfold convert_coords_to_tile. rewrite south_pole_raises. reflexivity. Qed.

Lemma venue_tiles_polar (zoom : Z) (pts : list (R * R)) :
  (exists venue, In venue pts /\ fst venue = -90) ->
  forall tiles0, venue_tiles zoom tiles0 pts = Raise ValueError.
Proof.
  induction pts as [| venue pts IH]; intros (v & Hv & Hlat) tiles0; [destruct Hv |].
  cbn [venue_tiles].
  destruct (convert_coords_to_tile (fst venue) (snd venue) zoom) as [t | e] eqn:E.
  - cbn [rbind]. apply IH. destruct Hv as [<- | Hv]; [| eauto].
    rewrite Hlat, south_pole_tile in E. discriminate E.
  - apply convert_coords_to_tile_raises in E. subst e. reflexivity.
Qed.

Lemma units_in_order_head (run_method : Z) :
  run_method = RUN_BY_CATEGORY \/ run_method = RUN_BY_ZOOM ->
  exists rest, units_in_order run_method = (1, 10)%Z :: rest.
Proof. intros [-> | ->]; eexists; vm_compute; reflexivity. Qed.

(** X22: in tile mode a venue at latitude -90 among the rows of a unit's
    query makes the unit raise ValueError right after the query, before
    any tile is generated; tile mode has no fallback, so when the query of
    the first unit returns such a venue the whole run ends there. *)
Theorem polar_venue_stops_tile_run (Img : Type) (env : Env Img) (lat lng : R)
    (rows : list (R * R)) :
  (exists venue, In venue rows /\ fst venue = -90) ->
  (forall category zoom,
     select_within env category lng lat RADIUS = Ok rows ->
     generate_heatmap_by_tile env category zoom lat lng
       = ([Query_within category lng lat RADIUS], Raise ValueError)) /\
  (forall run_method,
     run_method = RUN_BY_CATEGORY \/ run_method = RUN_BY_ZOOM ->
     select_within env 1 lng lat RADIUS = Ok rows ->
     generate_all_heatmaps_by_tile env lat lng run_method
       = ([Query_within 1 lng lat RADIUS], Raise ValueError)).
Proof.
  intros Hpole.
  assert (Hunit : forall category zoom,
            select_within env category lng lat RADIUS = Ok rows ->
            generate_heatmap_by_tile env category zoom lat lng
              = ([Query_within category lng lat RADIUS], Raise ValueError)).
  { intros category zoom Hrows. unfold generate_heatmap_by_tile.
    rewrite Hrows, bind_call_ok, (@venue_tiles_polar zoom rows Hpole []). reflexivity. }
  split; [exact Hunit |].
  intros run_method Hm Hrows. rewrite tile_run_as_loop by exact Hm.
  destruct (units_in_order_head Hm) as [rest ->].
  cbn [for_each fst snd]. rewrite (Hunit 1%Z 10%Z Hrows). reflexivity.
Qed.

Lemma polar_venue_stops_tile_run_witness :
  generate_all_heatmaps_by_tile south_pole_env 40.74 (-74) RUN_BY_ZOOM
    = ([Query_within 1 (-74) 40.74 RADIUS], Raise ValueError).
Proof.
  destruct (@polar_venue_stops_tile_run picture south_pole_env 40.74 (-74) [(-90, 0)])
    as [_ H].
  - exists (-90, 0). split; [left; reflexivity | reflexivity].
  - apply H; [right; reflexivity | reflexivity].
Defined.

(** * The envelope a tile asks for *)

Lemma lat_range (x y : R) (zoom : Z) :
  -90 < fst (convert_point_to_coords x y zoom) < 90.
Proof.
  unfold convert_point_to_coords. cbn [fst].
  set (m := (Py.pow2_div2 zoom - y) * (2 * PI) / Py.pow2 zoom).
  pose proof (atan_exp_range m) as [Hlo Hhi]. pose proof PI_RGT_0 as Hpi.
  assert (E : (atan (exp m) - PI / 4) * 2 * 180 / PI
              = (atan (exp m) - PI / 4) * (360 / PI)) by (field; lra).
  rewrite E.
  assert (Hk : 0 < 360 / PI) by (apply Rdiv_lt_0_compat; lra).
  assert (Hq : PI / 4 * (360 / PI) = 90) by (field; lra).
  split; nra.
Qed.

(** X23: a tile of the grid (0 <= x, y < 2^zoom, zoom from 0 to 18) makes
    one database query, before anything else, and no other: for the
    envelope (xmin, ymin, xmax, ymax) with xmin < xmax and
    -90 < ymin < ymax < 90, whose NW corner is the tile's point (x, y) and
    whose SE corner is the point (x + 1, y + 1). *)
Theorem tile_query_is_well_formed (Img : Type) (env : Env Img)
    (category zoom x y : Z) :
  (0 <= zoom <= 18)%Z -> (0 <= x < 2 ^ zoom)%Z -> (0 <= y < 2 ^ zoom)%Z ->
  exists xmin ymin xmax ymax rest,
    fst (generate_tile env category zoom x y)
      = Query_envelope category xmin ymin xmax ymax :: rest /\
    (forall c a b c' d, ~ In (Query_envelope c a b c' d) rest) /\
    (forall c a b r, ~ In (Query_within c a b r) rest) /\
    xmin < xmax /\ -90 < ymin /\ ymin < ymax /\ ymax < 90 /\
    (xmin, ymax) = (snd (convert_point_to_coords (IZR x) (IZR y) zoom),
                    fst (convert_point_to_coords (IZR x) (IZR y) zoom)) /\
    (xmax, ymin) = (snd (convert_point_to_coords (IZR (x + 1)) (IZR (y + 1)) zoom),
                    fst (convert_point_to_coords (IZR (x + 1)) (IZR (y + 1)) zoom)).
Proof.
  intros _ _ _.
  set (min_coords := convert_point_to_coords (IZR x) (IZR (y + 1)) zoom).
  set (max_coords := convert_point_to_coords (IZR (x + 1)) (IZR y) zoom).
  exists (snd min_coords), (fst min_coords), (snd max_coords), (fst max_coords).
  rewrite generate_tile_steps. fold min_coords max_coords.
  rewrite bind_log. cbn [call fst snd app].
  eexists. split; [reflexivity |].
  assert (Hx : IZR x < IZR (x + 1)) by (apply IZR_lt; lia).
  assert (Hy : IZR y < IZR (y + 1)) by (apply IZR_lt; lia).
  split; [| split].
  - intros c a b c' d Hin.
    destruct (select_envelope env _ _ _ _ _) as [rows |]; [| destruct Hin].
    destruct (0 <? length _)%nat; [| destruct Hin].
    apply bind_In in Hin. destruct Hin as [[] | (params & _ & Hin)].
    apply bind_In in Hin. destruct Hin as [Hin | (kept & _ & Hin)].
    { rewrite cluster_step_log in Hin.
      destruct (cluster params); [destruct Hin as [E | []]; discriminate E | destruct Hin]. }
    destruct (0 <? length kept)%nat; [| destruct Hin].
    apply bind_In in Hin. cbn [call emit fst snd] in Hin.
    destruct Hin as [[E | []] | (img & _ & [E | []])]; discriminate E.
  - intros c a b r Hin.
    destruct (select_envelope env _ _ _ _ _) as [rows |]; [| destruct Hin].
    destruct (0 <? length _)%nat; [| destruct Hin].
    apply bind_In in Hin. destruct Hin as [[] | (params & _ & Hin)].
    apply bind_In in Hin. destruct Hin as [Hin | (kept & _ & Hin)].
    { rewrite cluster_step_log in Hin.
      destruct (cluster params); [destruct Hin as [E | []]; discriminate E | destruct Hin]. }
    destruct (0 <? length kept)%nat; [| destruct Hin].
    apply bind_In in Hin. cbn [call emit fst snd] in Hin.
    destruct Hin as [[E | []] | (img & _ & [E | []])]; discriminate E.
  - split; [apply lng_increasing; exact Hx |].
    split; [apply lat_range |].
    split; [apply lat_decreasing; exact Hy |].
    split; [apply lat_range |].
    unfold min_coords, max_coords, convert_point_to_coords. cbn [fst snd].
    split; reflexivity.
Qed.

Lemma tile_query_is_well_formed_witness :
  exists xmin ymin xmax ymax rest,
    fst (generate_tile equator_env 1 10 301 512)
      = Query_envelope 1 xmin ymin xmax ymax :: rest /\
    xmin < xmax /\ -90 < ymin /\ ymin < ymax /\ ymax < 90.
Proof.
  destruct (@tile_query_is_well_formed picture equator_env 1 10 301 512)
    as (xmin & ymin & xmax & ymax & rest & Hlog & _ & _ & Hx & Hlo & Hy & Hhi & _);
    [lia | lia | lia |].
  exists xmin, ymin, xmax, ymax, rest. auto.
Defined.

(** * Tiles across zoom levels *)

Lemma pow2_succ (zoom : Z) : Py.pow2 (zoom + 1) = 2 * Py.pow2 zoom.
Proof.
  unfold Py.pow2. rewrite powerRZ_add by lra. simpl (powerRZ 2 1). ring.
Qed.

Lemma pow2_div2_succ (zoom : Z) :
  (1 <= zoom)%Z -> Py.pow2_div2 (zoom + 1) = 2 * Py.pow2_div2 zoom.
Proof.
  intros Hz. unfold Py.pow2_div2.
  destruct (Z.ltb_spec (zoom + 1) 0); [lia |].
  destruct (Z.ltb_spec zoom 0); [lia |].
  rewrite <- mult_IZR. f_equal.
  assert (E1 : (2 ^ (zoom + 1) = 2 ^ zoom * 2)%Z) by (rewrite Z.pow_add_r by lia; lia).
  assert (E2 : (2 ^ zoom = 2 ^ (zoom - 1) * 2)%Z).
  { replace zoom with (zoom - 1 + 1)%Z at 1 by lia. rewrite Z.pow_add_r by lia. lia. }
  rewrite E1, Z.div_mul by lia. rewrite E2 at 2. rewrite Z.div_mul by lia. lia.
Qed.

Lemma floor_double (m : R) :
  Zfloor (2 * m) = (2 * Zfloor m)%Z \/ Zfloor (2 * m) = (2 * Zfloor m + 1)%Z.
Proof.
  pose proof (Zfloor_bound m) as [H1 H2].
  pose proof (Zfloor_bound (2 * m)) as [H3 H4].
  assert (Hlo : (2 * Zfloor m <= Zfloor (2 * m))%Z).
  { apply Zfloor_lub. rewrite mult_IZR. lra. }
  assert (Hhi : (Zfloor (2 * m) < 2 * Zfloor m + 2)%Z).
  { apply lt_IZR. rewrite plus_IZR, mult_IZR. lra. }
  lia.
Qed.

Lemma pow2_div2_0_1 : Py.pow2_div2 0 = 0 /\ Py.pow2_div2 1 = 1.
Proof. unfold Py.pow2_div2. cbn [Z.ltb Z.compare]. split; reflexivity. Qed.

Lemma floor_double_succ (m : R) :
  Zfloor (1 + 2 * m) = (2 * Zfloor m + 1)%Z \/ Zfloor (1 + 2 * m) = (2 * Zfloor m + 2)%Z.
Proof.
  rewrite Rplus_comm. change 1 with (IZR 1). rewrite Zfloor_addz.
  destruct (floor_double m) as [-> | ->]; [left | right]; lia.
Qed.

(** The same venue one zoom level further in. *)
Example tile_of_equator_point_11 :
  convert_coords_to_tile 0 (-74) 11 = Ok (603, 1024)%Z.
Proof.
  unfold convert_coords_to_tile, convert_coords_to_mercator_point.
  replace (0 * (PI / 180) / 2 + PI / 4) with (PI / 4) by field.
  rewrite PyFacts.math_tan_eq by (pose proof PI_RGT_0; lra).
  rewrite tan_PI4, PyFacts.math_log_pos by lra. rewrite ln_1.
  cbn [rbind]. unfold np_floor; cbn [fst snd].
  unfold Py.pow2, Py.pow2_div2; cbn [Z.ltb Z.compare].
  f_equal. f_equal.
  - apply Zfloor_eq. simpl powerRZ. lra.
  - apply Zfloor_eq. simpl powerRZ.
    replace (2 ^ 11 / 2)%Z with 1024%Z by reflexivity. lra.
Qed.

(** X24: from a zoom level >= 1 to the next, the tile of a place splits in
    four: the new column is 2x or 2x + 1 and the new row is 2y or 2y + 1.
    From zoom 0 to zoom 1 the rows do not nest, the new row being 2y + 1 or
    2y + 2, since (2 ** 0) / 2 is 0 in Python 2. *)
Theorem tiles_nest_across_zooms (lat lng : R) (zoom : Z) (t t' : tile) :
  ((1 <= zoom)%Z ->
   convert_coords_to_tile lat lng zoom = Ok t ->
   convert_coords_to_tile lat lng (zoom + 1) = Ok t' ->
   (fst t' = 2 * fst t \/ fst t' = 2 * fst t + 1)%Z /\
   (snd t' = 2 * snd t \/ snd t' = 2 * snd t + 1)%Z) /\
  (convert_coords_to_tile lat lng 0 = Ok t ->
   convert_coords_to_tile lat lng 1 = Ok t' ->
   (fst t' = 2 * fst t \/ fst t' = 2 * fst t + 1)%Z /\
   (snd t' = 2 * snd t + 1 \/ snd t' = 2 * snd t + 2)%Z).
Proof.
  split.
  - intros Hz Ht Ht'.
    destruct (tile_of_point _ _ _ Ht) as (mx & my & Hp & ->).
    destruct (tile_of_point _ _ _ Ht') as (mx' & my' & Hp' & ->).
    unfold convert_coords_to_mercator_point in Hp, Hp'.
    destruct (Py.math_log _) as [m |]; [| discriminate].
    cbn [rbind] in Hp, Hp'. injection Hp as Hx Hy. injection Hp' as Hx' Hy'.
    rewrite pow2_succ in Hx', Hy'. rewrite pow2_div2_succ in Hy' by exact Hz.
    assert (Ex : mx' = 2 * mx) by (rewrite <- Hx, <- Hx'; unfold Rdiv; ring).
    assert (Ey : my' = 2 * my) by (rewrite <- Hy, <- Hy'; unfold Rdiv; ring).
    cbn [fst snd]. rewrite Ex, Ey. split; apply floor_double.
  - intros Ht Ht'.
    destruct (tile_of_point _ _ _ Ht) as (mx & my & Hp & ->).
    destruct (tile_of_point _ _ _ Ht') as (mx' & my' & Hp' & ->).
    unfold convert_coords_to_mercator_point in Hp, Hp'.
    destruct (Py.math_log _) as [m |]; [| discriminate].
    cbn [rbind] in Hp, Hp'. injection Hp as Hx Hy. injection Hp' as Hx' Hy'.
    replace (Py.pow2 1) with (2 * Py.pow2 0) in Hx', Hy'
      by (symmetry; apply (pow2_succ 0)).
    destruct pow2_div2_0_1 as [E0 E1]. rewrite E0 in Hy. rewrite E1 in Hy'.
    assert (Ex : mx' = 2 * mx) by (rewrite <- Hx, <- Hx'; unfold Rdiv; ring).
    assert (Ey : my' = 1 + 2 * my) by (rewrite <- Hy, <- Hy'; unfold Rdiv; ring).
    cbn [fst snd]. rewrite Ex, Ey. split; [apply floor_double | apply floor_double_succ].
Qed.

Lemma tiles_nest_across_zooms_witness :
  (fst (603, 1024)%Z = 2 * fst (301, 512)%Z \/
   fst (603, 1024)%Z = 2 * fst (301, 512)%Z + 1)%Z /\
  (snd (603, 1024)%Z = 2 * snd (301, 512)%Z \/
   snd (603, 1024)%Z = 2 * snd (301, 512)%Z + 1)%Z.
Proof.
  apply (@tiles_nest_across_zooms 0 (-74) 10 (301, 512)%Z (603, 1024)%Z);
    [lia | exact tile_of_equator_point | exact tile_of_equator_point_11].
Defined.

(** * Units that end normally *)

Lemma add_neighbors_keeps (x y : Z) (px py : R) (d : Z) (tiles : list tile) (u : tile) :
  In u tiles -> In u (add_neighbors x y px py d tiles).
Proof. intros H. apply add_neighbors_In. left; exact H. Qed.

Lemma locate_tiles_complete (zoom d : Z) (pts : list (R * R)) :
  forall tiles0 tiles,
    locate_tiles zoom d tiles0 pts = Ok tiles ->
    (forall u, In u tiles0 -> In u tiles) /\
    (forall venue, In venue pts ->
       exists t, convert_coords_to_tile (snd venue) (fst venue) zoom = Ok t /\
                 In t tiles).
Proof.
  induction pts as [| venue pts IH]; intros tiles0 tiles H; cbn [locate_tiles] in H.
  - injection H as <-. split; [auto | intros ? []].
  - destruct (locate_venue zoom d tiles0 venue) as [tiles1 |] eqn:E; [| discriminate].
    cbn [rbind] in H. destruct (IH _ _ H) as [Hsub Hhas].
    destruct (locate_venue_inv _ _ _ _ E) as (t & px & py & Ht & ->). split.
    + intros u Hu. apply Hsub, add_neighbors_keeps, in_append_if_new. left; exact Hu.
    + intros v [<- | Hv]; [| apply Hhas; exact Hv].
      exists t. split; [exact Ht |].
      apply Hsub, add_neighbors_keeps, in_append_if_new. right; reflexivity.
Qed.

Lemma render_city_complete (Img : Type) (env : Env Img) (category zoom : Z)
    (params : zoom_parameters) (pts : list (R * R)) :
  snd (render_city env category zoom params pts) = Ok tt ->
  forall venue, In venue pts ->
    exists t, convert_coords_to_tile (snd venue) (fst venue) zoom = Ok t /\
      In (category, zoom, fst t, snd t)
         (upload_keys (fst (render_city env category zoom params pts))).
Proof.
  unfold render_city. intros Hok venue Hv.
  destruct (locate_tiles zoom (dotsize params) [] pts) as [tiles0 |] eqn:Hloc;
    [| discriminate Hok].
  rewrite bind_lift_ok in *.
  destruct (bounding_box (sorted tiles0)) as [[nw se] |] eqn:Hbox; [| discriminate Hok].
  rewrite bind_lift_ok in *. cbn [fst snd] in *.
  destruct (normalize_all _ _ _ _ pts) as [npts |]; [| discriminate Hok].
  rewrite bind_lift_ok in *.
  destruct (heatmap env npts _ _ _) as [img |]; [| discriminate Hok].
  rewrite bind_call_ok. cbn [fst upload_keys flat_map app].
  change (flat_map _ ?l) with (upload_keys l).
  destruct (locate_tiles_complete _ _ _ _ Hloc) as [_ Hhas].
  destruct (Hhas venue Hv) as (t & Ht & Hin).
  exists t. split; [exact Ht |].
  apply (Permutation_in _ (sorted_perm tiles0)) in Hin.
  destruct (@bounding_box_spec _ _ _ Hbox t Hin) as [Hx Hy].
  rewrite slice_canvas_keys. apply in_map_iff.
  exists (fst t - fst nw, snd t - snd nw)%Z. cbn [fst snd]. split.
  - f_equal; [f_equal |]; lia.
  - apply filter_In. split; [apply in_grid; lia |].
    apply tile_in_In. unfold cell_tile. cbn [fst snd].
    replace (fst nw + (fst t - fst nw), snd nw + (snd t - snd nw))%Z with t
      by (destruct t; cbn [fst snd]; f_equal; lia).
    exact Hin.
Qed.

(** X25: when a call of [generate_heatmap_by_city] ends normally, every
    venue the density filter kept has a tile, and that tile is among the
    keys uploaded: no kept venue is left without its tile. *)
Theorem city_unit_uploads_every_kept_venue (Img : Type) (env : Env Img)
    (category zoom : Z) (lat lng : R) (radius : Z)
    (rows : list (R * R)) (params : zoom_parameters) (kept : list (R * R)) :
  let run := generate_heatmap_by_city env category zoom lat lng radius in
  let pts := map (fun row : R * R => (snd row, fst row)) rows in
  snd run = Ok tt ->
  select_within env category lng lat radius = Ok rows ->
  dict_get ZOOM_PARAMETERS zoom = Ok params ->
  density_filter env params pts = Ok kept ->
  forall venue, In venue kept ->
    exists t, convert_coords_to_tile (snd venue) (fst venue) zoom = Ok t /\
              In (category, zoom, fst t, snd t) (upload_keys (fst run)).
Proof.
  intros run pts Hok Hrows Hparams Hkept venue Hv. subst run.
  unfold density_filter in Hkept. unfold generate_heatmap_by_city in *.
  rewrite Hrows, bind_call_ok in *. cbn [fst snd upload_keys flat_map app] in *.
  change (flat_map _ ?l) with (upload_keys l).
  fold pts in Hok |- *.
  assert (Hne : (0 <? length pts)%nat = true).
  { pose proof (subseq_length (cluster_step_subseq _ _ _ Hkept)) as Hl.
    destruct kept; [destruct Hv |]. cbn [length] in Hl.
    apply Nat.ltb_lt. lia. }
  rewrite Hne, Hparams, bind_lift_ok in *.
  rewrite bind_outcome, Hkept in Hok.
  rewrite bind_log, upload_keys_app, cluster_step_keys, Hkept. cbn [app].
  destruct kept as [| p kept']; [destruct Hv |].
  cbn [length Nat.ltb Nat.leb] in *.
  apply render_city_complete; assumption.
Qed.

Lemma city_unit_uploads_every_kept_venue_witness :
  exists t, convert_coords_to_tile (snd (-74, 0)) (fst (-74, 0)) 10 = Ok t /\
    In (1, 10, fst t, snd t)%Z
       (upload_keys (fst (generate_heatmap_by_city equator_env 1 10 40.74 (-74) RADIUS))).
Proof.
  apply (@city_unit_uploads_every_kept_venue picture equator_env 1 10 40.74 (-74)
           RADIUS [(0, -74)]
           {| dotsize := 10; opacity := 1; cluster := true;
              cluster_epsilon := 0.5; cluster_neighbors := 4 |} [(-74, 0)]).
  - destruct (snd (generate_heatmap_by_city equator_env 1 10 40.74 (-74) RADIUS))
      as [[] | e] eqn:E; [reflexivity | exfalso].
    revert E. unfold generate_heatmap_by_city. cbn [select_within equator_env].
    rewrite bind_call_ok. cbn [map length Nat.ltb Nat.leb fst snd].
    change (dict_get ZOOM_PARAMETERS 10) with
      (Ok {| dotsize := 10; opacity := 1; cluster := true;
             cluster_epsilon := 0.5; cluster_neighbors := 4 |}).
    rewrite bind_lift_ok. unfold cluster_step.
    cbn [cluster dbscan_labels equator_env cluster_neighbors cluster_epsilon].
    rewrite bind_call_ok. cbn [np_radians map lift fst snd].
    unfold remove_noise, enumerate. cbn [length seq combine rev app remove_noise_loop].
    cbn [Z.eqb]. erewrite bind_ok_log by reflexivity.
    cbn [fst snd length Nat.ltb Nat.leb].
    destruct (@render_city_ok picture equator_env 1 10
                {| dotsize := 10; opacity := 1; cluster := true;
                   cluster_epsilon := 0.5; cluster_neighbors := 4 |} [(-74, 0)])
      as (tiles & nw & se & _ & _ & _ & Hrender).
    { discriminate. }
    { intros p [<- | []]. cbn [snd]. lra. }
    cbn zeta in Hrender. rewrite Hrender. cbn [heatmap equator_env].
    rewrite bind_call_ok, slice_canvas_log. cbn [snd]. discriminate.
  - reflexivity.
  - reflexivity.
  - unfold density_filter, cluster_step.
    cbn [cluster dbscan_labels equator_env cluster_neighbors cluster_epsilon].
    rewrite bind_call_ok. cbn [np_radians map lift fst snd].
    unfold remove_noise, enumerate. cbn [length seq combine rev app remove_noise_loop].
    cbn [Z.eqb]. reflexivity.
  - left. reflexivity.
Defined.

(** * Tile mode: every venue's tile is asked for *)

Lemma generate_tile_first (Img : Type) (env : Env Img) (category zoom x y : Z) :
  exists rest,
    fst (generate_tile env category zoom x y)
      = Query_envelope category
          (snd (convert_point_to_coords (IZR x) (IZR (y + 1)) zoom))
          (fst (convert_point_to_coords (IZR x) (IZR (y + 1)) zoom))
          (snd (convert_point_to_coords (IZR (x + 1)) (IZR y) zoom))
          (fst (convert_point_to_coords (IZR (x + 1)) (IZR y) zoom)) :: rest.
Proof.
  unfold generate_tile. rewrite bind_log. cbn [call fst app]. eauto.
Qed.

Lemma venue_tiles_complete (zoom : Z) (pts : list (R * R)) :
  forall tiles0 tiles,
    venue_tiles zoom tiles0 pts = Ok tiles ->
    (forall u, In u tiles0 -> In u tiles) /\
    (forall venue, In venue pts ->
       exists t, convert_coords_to_tile (fst venue) (snd venue) zoom = Ok t /\
                 In t tiles).
Proof.
  induction pts as [| venue pts IH]; intros tiles0 tiles H; cbn [venue_tiles] in H.
  - injection H as <-. split; [auto | intros ? []].
  - destruct (convert_coords_to_tile (fst venue) (snd venue) zoom) as [t |] eqn:Ht;
      [| discriminate].
    cbn [rbind] in H. destruct (IH _ _ H) as [Hsub Hhas]. split.
    + intros u Hu. apply Hsub, in_append_if_new. left; exact Hu.
    + intros v [<- | Hv]; [| apply Hhas; exact Hv].
      exists t. split; [exact Ht |]. apply Hsub, in_append_if_new. right; reflexivity.
Qed.

(** X26: when a unit of tile-by-tile work ends normally, every venue its
    query returned has a tile, and the envelope of that tile was queried:
    the tile was generated. *)
Theorem tile_unit_asks_for_every_venue_tile (Img : Type) (env : Env Img)
    (category zoom : Z) (lat lng : R) (rows : list (R * R)) :
  let run := generate_heatmap_by_tile env category zoom lat lng in
  snd run = Ok tt ->
  select_within env category lng lat RADIUS = Ok rows ->
  forall venue, In venue rows ->
    exists x y,
      convert_coords_to_tile (fst venue) (snd venue) zoom = Ok (x, y) /\
      In (Query_envelope category
            (snd (convert_point_to_coords (IZR x) (IZR (y + 1)) zoom))
            (fst (convert_point_to_coords (IZR x) (IZR (y + 1)) zoom))
            (snd (convert_point_to_coords (IZR (x + 1)) (IZR y) zoom))
            (fst (convert_point_to_coords (IZR (x + 1)) (IZR y) zoom)))
         (fst run).
Proof.
  intros run Hok Hrows venue Hv. subst run. unfold generate_heatmap_by_tile in *.
  rewrite Hrows, bind_call_ok in *. cbn [fst snd] in *.
  destruct (venue_tiles zoom [] rows) as [tiles |] eqn:Ht; [| discriminate Hok].
  rewrite bind_lift_ok in *.
  destruct (venue_tiles_complete _ _ _ Ht) as [_ Hhas].
  destruct (Hhas venue Hv) as ([x y] & Hconv & Hin).
  exists x, y. split; [exact Hconv |].
  right. rewrite for_each_all_ok.
  - cbn [fst]. apply in_flat_map. exists (x, y). split.
    + apply (Permutation_in _ (sorted_perm tiles)). exact Hin.
    + cbn [fst snd]. destruct (generate_tile_first env category zoom x y) as [rest ->].
      left. reflexivity.
  - apply for_each_ok_inv. exact Hok.
Qed.

Lemma equator_tile_ends_normally :
  snd (generate_tile equator_env 1 10 301 512) = Ok tt.
Proof.
  rewrite generate_tile_steps. cbn [select_envelope equator_env].
  rewrite bind_call_ok. cbn [map length Nat.ltb Nat.leb fst snd].
  change (dict_get ZOOM_PARAMETERS 10) with
    (Ok {| dotsize := 10; opacity := 1; cluster := true;
           cluster_epsilon := 0.5; cluster_neighbors := 4 |}).
  rewrite bind_lift_ok. unfold cluster_step.
  cbn [cluster dbscan_labels equator_env cluster_neighbors cluster_epsilon].
  rewrite bind_call_ok. cbn [np_radians map lift fst snd].
  unfold remove_noise, enumerate. cbn [length seq combine rev app remove_noise_loop].
  cbn [Z.eqb]. cbn [fst snd length Nat.ltb Nat.leb map heatmap equator_env
                    opacity dotsize].
  reflexivity.
Qed.

Lemma tile_unit_asks_for_every_venue_tile_witness :
  exists x y,
    convert_coords_to_tile (fst (0, -74)) (snd (0, -74)) 10 = Ok (x, y) /\
    In (Query_envelope 1
          (snd (convert_point_to_coords (IZR x) (IZR (y + 1)) 10))
          (fst (convert_point_to_coords (IZR x) (IZR (y + 1)) 10))
          (snd (convert_point_to_coords (IZR (x + 1)) (IZR y) 10))
          (fst (convert_point_to_coords (IZR (x + 1)) (IZR y) 10)))
       (fst (generate_heatmap_by_tile equator_env 1 10 40.74 (-74))).
Proof.
  apply (@tile_unit_asks_for_every_venue_tile picture equator_env 1 10 40.74 (-74)
           [(0, -74)]).
  - unfold generate_heatmap_by_tile. cbn [select_within equator_env].
    rewrite bind_call_ok. cbn [venue_tiles fst snd].
    rewrite tile_of_equator_point. cbn [rbind].
    rewrite bind_lift_ok. cbn [append_if_new tile_in existsb app sorted fold_right
                               insert_sorted for_each fst snd].
    rewrite bind_outcome, equator_tile_ends_normally. reflexivity.
  - reflexivity.
  - left. reflexivity.
Defined.
